(** * The agent runtime of [backend/agent/run.py], embedded in Rocq

    The embedding follows the class-based side of the source file
    ([AgentConfig], [ToolManager], [MCPManager], [PromptManager],
    [MessageManager], [AgentRunner]).  Python values are modelled by the
    type [pyval]; a string is the UTF-8 text of a Python [str].  The
    methods [str.lower] and [str.strip] follow the Unicode tables of the
    Python runtime: they are fields of [PythonRuntime], and what they do
    is known here on ASCII text only.  Floats do not occur in the data
    the runner inspects and are left out of [pyval].

    State is passed explicitly: the message table and the services
    outside [run.py] form a [World]; objects the code mutates in place
    (the agent definition, the tool registry) are returned by the
    functions that mutate them.  A generator is modelled by the list of
    its events, consumed to its end.  Tracing and logging calls are left
    out. *)

From Stdlib Require Import String Ascii List ZArith Bool Lia.
Import ListNotations.
Local Open Scope string_scope.
Local Open Scope Z_scope.
Set Warnings "-register-all".

(** ** Python values *)

Inductive pyval : Type :=
| PNone
| PBool (b : bool)
| PInt (z : Z)
| PStr (s : string)
| PList (l : list pyval)
| PDict (d : list (string * pyval)).

(** A [dict] with string keys, in insertion order; a key occurs once. *)
Definition dict := list (string * pyval).

(** [bool(v)] *)
Definition truthy (v : pyval) : bool :=
  match v with
  | PNone => false
  | PBool b => b
  | PInt z => negb (z =? 0)
  | PStr s => negb (s =? EmptyString)%string
  | PList l => match l with [] => false | _ => true end
  | PDict d => match d with [] => false | _ => true end
  end.

(** [type(v).__name__] *)
Definition type_name (v : pyval) : string :=
  match v with
  | PNone => "NoneType"
  | PBool _ => "bool"
  | PInt _ => "int"
  | PStr _ => "str"
  | PList _ => "list"
  | PDict _ => "dict"
  end.

(** [v == s] for a string literal [s] *)
Definition str_eq (v : pyval) (s : string) : bool :=
  match v with
  | PStr s' => (s' =? s)%string
  | _ => false
  end.

(** [d.get(k)], with [None] for a missing key *)
Fixpoint dict_get (d : dict) (k : string) : option pyval :=
  match d with
  | [] => None
  | (k', v) :: rest => if (k' =? k)%string then Some v else dict_get rest k
  end.

(** [d.get(k, dflt)] *)
Definition dict_get_default (d : dict) (k : string) (dflt : pyval) : pyval :=
  match dict_get d k with
  | Some v => v
  | None => dflt
  end.

(** [d.get(k)], where a missing key gives Python's [None] *)
Definition dict_get_none (d : dict) (k : string) : pyval :=
  dict_get_default d k PNone.

(** [k in d] *)
Definition dict_has (d : dict) (k : string) : bool :=
  match dict_get d k with
  | Some _ => true
  | None => false
  end.

(** [d[k] = v]: overwrite in place, or append a new key *)
Fixpoint dict_set (d : dict) (k : string) (v : pyval) : dict :=
  match d with
  | [] => [(k, v)]
  | (k', v') :: rest =>
      if (k' =? k)%string then (k', v) :: rest else (k', v') :: dict_set rest k v
  end.

(** [d.pop(k, None)], result discarded *)
Fixpoint dict_pop (d : dict) (k : string) : dict :=
  match d with
  | [] => []
  | (k', v') :: rest =>
      if (k' =? k)%string then dict_pop rest k else (k', v') :: dict_pop rest k
  end.

(** [list(d.keys())] *)
Definition dict_keys (d : dict) : list string := map fst d.

(** ** Strings *)

(** [needle in hay] *)
Fixpoint contains (needle hay : string) : bool :=
  if prefix needle hay then true
  else match hay with
       | EmptyString => false
       | String _ rest => contains needle rest
       end.

(** What [contains] decides. *)
Definition Substring (needle hay : string) : Prop :=
  exists before after, hay = (before ++ needle ++ after)%string.

Definition lower_ascii (c : ascii) : ascii :=
  let n := nat_of_ascii c in
  if (65 <=? n)%nat && (n <=? 90)%nat then ascii_of_nat (n + 32) else c.

(** What [s.lower()] gives for ASCII text: the letters A to Z are
    replaced, every other character stays. *)
Fixpoint ascii_lower (s : string) : string :=
  match s with
  | EmptyString => EmptyString
  | String c rest => String (lower_ascii c) (ascii_lower rest)
  end.

(** The text is ASCII: every byte is below 128. *)
Fixpoint is_ascii (s : string) : bool :=
  match s with
  | EmptyString => true
  | String c rest => (nat_of_ascii c <? 128)%nat && is_ascii rest
  end.

(** The ASCII characters [str.strip()] removes: space, tab, newline,
    vertical tab, form feed, carriage return and the four separators. *)
Definition is_space (c : ascii) : bool :=
  let n := nat_of_ascii c in
  (n =? 32)%nat || ((9 <=? n)%nat && (n <=? 13)%nat)
  || ((28 <=? n)%nat && (n <=? 31)%nat).

Fixpoint lstrip (s : string) : string :=
  match s with
  | EmptyString => EmptyString
  | String c rest => if is_space c then lstrip rest else s
  end.

Fixpoint rstrip (s : string) : string :=
  match s with
  | EmptyString => EmptyString
  | String c rest =>
      match rstrip rest with
      | EmptyString => if is_space c then EmptyString else String c EmptyString
      | r => String c r
      end
  end.

(** What [s.strip()] gives for ASCII text. *)
Definition ascii_strip (s : string) : string := rstrip (lstrip s).

(** [s.replace(' ', '_')] *)
Fixpoint replace_space (s : string) : string :=
  match s with
  | EmptyString => EmptyString
  | String c rest =>
      String (if (nat_of_ascii c =? 32)%nat then "_"%char else c) (replace_space rest)
  end.

(** The text goes on with a byte from 128 to 191, which continues a
    UTF-8 character. *)
Definition continues_char (s : string) : bool :=
  match s with
  | String c _ => (128 <=? nat_of_ascii c)%nat && (nat_of_ascii c <? 192)%nat
  | EmptyString => false
  end.

(** The characters of a text, each as a text of its own. *)
Fixpoint utf8_chars (s : string) : list string :=
  match s with
  | EmptyString => []
  | String c rest =>
      let chars := utf8_chars rest in
      if continues_char rest
      then match chars with
           | ch :: chars => String c ch :: chars
           | [] => [String c EmptyString]
           end
      else String c EmptyString :: chars
  end.

(** [', '.join(l)] *)
Fixpoint join_comma (l : list string) : string :=
  match l with
  | [] => EmptyString
  | [s] => s
  | s :: rest => (s ++ ", " ++ join_comma rest)%string
  end.

Definition newline : string := String (ascii_of_nat 10) EmptyString.

(** [x in l] for a list of strings *)
Definition str_in (x : string) (l : list string) : bool :=
  existsb (fun y => (y =? x)%string) l.

(** ** Exceptions *)

(** A raised exception: its class, and [str(e)]. *)
Record exn := Exn { exn_class : string; exn_msg : string }.

Inductive result (A : Type) : Type :=
| Ok (a : A)
| Raise (e : exn).
Arguments Ok {A} a.
Arguments Raise {A} e.

Definition bind {A B : Type} (r : result A) (k : A -> result B) : result B :=
  match r with
  | Ok a => k a
  | Raise e => Raise e
  end.

Notation "'let*' x ':=' r 'in' k" := (bind r (fun x => k))
  (at level 10, x name, r at level 100, k at level 200).

(** [v.get] on a value that is not a dict *)
Definition no_attribute (v : pyval) (attr : string) : exn :=
  Exn "AttributeError"
      ("'" ++ type_name v ++ "' object has no attribute '" ++ attr ++ "'").

(** [v[key]] with a string key on a value that is not a dict: the
    [TypeError] of Python 3.11 and later. *)
Definition no_str_index (v : pyval) : exn :=
  Exn "TypeError"
      (match v with
       | PStr _ => "string indices must be integers, not 'str'"
       | PList _ => "list indices must be integers or slices, not str"
       | _ => "'" ++ type_name v ++ "' object is not subscriptable"
       end).

(** The receiver of a [.get(...)] call: a dict, or [AttributeError]. *)
Definition as_dict (v : pyval) : result dict :=
  match v with
  | PDict d => Ok d
  | _ => Raise (no_attribute v "get")
  end.

(** The Python runtime functions the runner calls and that are not
    repository code: [json.loads] ([None] stands for [JSONDecodeError]),
    [json.dumps(_, indent=2)], the formatting [str(v)] of an f-string, and
    the string methods [s.lower()] and [s.strip()].  The two methods work
    on Unicode text (the Kelvin sign lower-cases to the letter k, a
    no-break space is stripped); on ASCII text they are [ascii_lower] and
    [ascii_strip]. *)
Class PythonRuntime := {
  json_loads : string -> option pyval;
  json_dumps_indent2 : pyval -> string;
  py_str : pyval -> string;
  lower : string -> string;
  strip : string -> string;
  lower_on_ascii : forall s, is_ascii s = true -> lower s = ascii_lower s;
  strip_on_ascii : forall s, is_ascii s = true -> strip s = ascii_strip s
}.

(** ** AgentConfig *)

(** The handle [langfuse.trace(name=..., session_id=..., metadata=...)]
    returns; the tracing calls made on it have no effect on control flow
    and are not modelled. *)
Record StatefulTraceClient := {
  trace_name : string;
  trace_session_id : string;
  trace_metadata : dict
}.

Record AgentConfig := {
  thread_id : string;
  project_id : string;
  stream : bool;
  native_max_auto_continues : Z;
  max_iterations : Z;
  model_name : string;
  enable_thinking : option bool;
  reasoning_effort : option string;
  enable_context_manager : bool;
  agent_config : option dict;
  trace : option StatefulTraceClient;
  is_agent_builder : option bool;
  target_agent_id : option string
}.

(** [self.config.trace = t] *)
Definition set_trace (c : AgentConfig) (t : StatefulTraceClient) : AgentConfig :=
  {| thread_id := thread_id c;
     project_id := project_id c;
     stream := stream c;
     native_max_auto_continues := native_max_auto_continues c;
     max_iterations := max_iterations c;
     model_name := model_name c;
     enable_thinking := enable_thinking c;
     reasoning_effort := reasoning_effort c;
     enable_context_manager := enable_context_manager c;
     agent_config := agent_config c;
     trace := Some t;
     is_agent_builder := is_agent_builder c;
     target_agent_id := target_agent_id c |}.

(** The agent definition is mutated in place by [MCPManager]; with values
    instead of references the mutated dict is written back here. *)
Definition set_agent_config (c : AgentConfig) (ac : option dict) : AgentConfig :=
  {| thread_id := thread_id c;
     project_id := project_id c;
     stream := stream c;
     native_max_auto_continues := native_max_auto_continues c;
     max_iterations := max_iterations c;
     model_name := model_name c;
     enable_thinking := enable_thinking c;
     reasoning_effort := reasoning_effort c;
     enable_context_manager := enable_context_manager c;
     agent_config := ac;
     trace := trace c;
     is_agent_builder := is_agent_builder c;
     target_agent_id := target_agent_id c |}.

(** Truth value of an [Optional[bool]]. *)
Definition optbool_truthy (b : option bool) : bool :=
  match b with
  | Some true => true
  | _ => false
  end.

(** Truth value of an [Optional[str]]. *)
Definition optstr_truthy (s : option string) : bool :=
  match s with
  | Some s => negb (s =? EmptyString)%string
  | None => false
  end.

(** ** AgentRunner._get_disabled_tools_from_config *)

(** The nested function [is_tool_enabled]; its [try] never fails on a dict
    with string keys.  The result is the raw entry when that is a bool, and
    the raw ["enabled"] value of an object entry. *)
Definition is_tool_enabled (raw_tools : dict) (tool_name : string) : pyval :=
  match dict_get_default raw_tools tool_name (PBool true) with
  | PBool b => PBool b
  | PDict tool_config => dict_get_default tool_config "enabled" (PBool true)
  | _ => PBool true
  end.

Definition all_tools : list string :=
  [ "sb_shell_tool"; "sb_files_tool"; "sb_deploy_tool"; "sb_expose_tool";
    "web_search_tool"; "sb_vision_tool"; "sb_presentation_tool"; "sb_image_edit_tool";
    "sb_sheets_tool"; "sb_web_dev_tool"; "data_providers_tool"; "browser_tool";
    "agent_config_tool"; "mcp_search_tool"; "credential_profile_tool";
    "workflow_tool"; "trigger_tool" ].

Definition _get_disabled_tools_from_config (config : AgentConfig) : list string :=
  match agent_config config with
  | None => []
  | Some [] => []
  | Some ac =>
      match dict_get ac "agentpress_tools" with
      | None => []
      | Some (PDict raw_tools) =>
          if truthy (dict_get_default ac "is_suna_default" (PBool false))
             && negb (truthy (PDict raw_tools))
          then []
          else
            let disabled_tools :=
              filter (fun tool_name => negb (truthy (is_tool_enabled raw_tools tool_name)))
                     all_tools in
            if str_in "sb_presentation_tool" disabled_tools
            then disabled_tools ++ ["sb_presentation_outline_tool"; "sb_presentation_tool_v2"]
            else disabled_tools
      | Some _ => []
      end
  end.

(** ** AgentRunner.get_max_tokens *)

Definition get_max_tokens {RT : PythonRuntime} (config : AgentConfig) : option Z :=
  if contains "sonnet" (lower (model_name config)) then Some 8192
  else if contains "gpt-4" (lower (model_name config)) then Some 4096
  else if contains "gemini-2.5-pro" (lower (model_name config)) then Some 64000
  else if contains "kimi-k2" (lower (model_name config)) then Some 8192
  else None.

(** ** The persisted message store *)

(** A row of the [messages] table.  The database is taken to answer every
    query; a failing round trip is outside the model. *)
Record message := {
  message_id : string;
  row_thread_id : string;
  row_type : string;
  content : pyval;
  created_at : Z
}.

Definition store := list message.

(** The row [order('created_at', desc=True).limit(1)] keeps: the greatest
    [created_at], the earliest stored row among equal ones. *)
Fixpoint newest (rows : list message) : option message :=
  match rows with
  | [] => None
  | r :: rest =>
      match newest rest with
      | Some r' => if created_at r <? created_at r' then Some r' else Some r
      | None => Some r
      end
  end.

(** [table('messages').select('*').eq('thread_id', tid).in_('type', types)
     .order('created_at', desc=True).limit(1).execute()] *)
Definition select_latest (s : store) (tid : string) (types : list string)
  : option message :=
  newest (filter (fun r => (row_thread_id r =? tid)%string && str_in (row_type r) types) s).

(** [table('messages').delete().eq('message_id', id).execute()] *)
Definition delete_message (s : store) (id : string) : store :=
  filter (fun r => negb (message_id r =? id)%string) s.

(** [str(v)] inside an f-string: a string formats as itself. *)
Definition format_value {RT : PythonRuntime} (v : pyval) : string :=
  match v with
  | PStr s => s
  | _ => py_str v
  end.

(** ** MessageManager *)

Module MessageManager.
Section WithRuntime.
Context {RT : PythonRuntime}.

(** The body of the first [try]: the blocks the latest [browser_state] row
    contributes; an exception leaves the list as it was (empty). *)
Definition browser_state_blocks (model_name : string) (row_content : pyval)
  : list pyval :=
  let parsed :=
    match row_content with
    | PStr s => json_loads s
    | v => Some v
    end in
  match parsed with
  | Some (PDict browser_content) =>
      let screenshot_base64 := dict_get_none browser_content "screenshot_base64" in
      let screenshot_url := dict_get_none browser_content "image_url" in
      let browser_state_text :=
        dict_pop (dict_pop browser_content "screenshot_base64") "image_url" in
      (if truthy (PDict browser_state_text)
       then [PDict [("type", PStr "text");
                    ("text", PStr ("The following is the current state of the browser:"
                                   ++ newline
                                   ++ json_dumps_indent2 (PDict browser_state_text)))]]
       else [])
      ++
      (if contains "gemini" (lower model_name)
          || contains "anthropic" (lower model_name)
          || contains "openai" (lower model_name)
       then
         if truthy screenshot_url
         then [PDict [("type", PStr "image_url");
                      ("image_url", PDict [("url", screenshot_url);
                                           ("format", PStr "image/png")])]]
         else if truthy screenshot_base64
         then [PDict [("type", PStr "image_url");
                      ("image_url",
                       PDict [("url", PStr ("data:image/png;base64,"
                                            ++ format_value screenshot_base64))])]]
         else []
       else [])
  | _ => []
  end.

(** [content if isinstance(content, dict) else json.loads(content)],
    followed by the [.get] calls, which need a dict: [None] when the
    [try] is left by an exception before the delete. *)
Definition image_context_content (row_content : pyval) : option dict :=
  match row_content with
  | PDict d => Some d
  | PStr s =>
      match json_loads s with
      | Some (PDict d) => Some d
      | _ => None
      end
  | _ => None
  end.

(** The two blocks added when both [base64] and [mime_type] are there. *)
Definition image_context_blocks (image_context_content : dict) : list pyval :=
  let base64_image := dict_get_none image_context_content "base64" in
  let mime_type := dict_get_none image_context_content "mime_type" in
  let file_path :=
    dict_get_default image_context_content "file_path" (PStr "unknown file") in
  if truthy base64_image && truthy mime_type
  then [PDict [("type", PStr "text");
               ("text", PStr ("Here is the image you requested to see: '"
                              ++ format_value file_path ++ "'"))];
        PDict [("type", PStr "image_url");
               ("image_url",
                PDict [("url", PStr ("data:" ++ format_value mime_type ++ ";base64,"
                                     ++ format_value base64_image))])]]
  else [].

(** [build_temporary_message]: the message, and the store it leaves. *)
Definition build_temporary_message (thread_id model_name : string) (s : store)
  : option pyval * store :=
  let from_browser :=
    match select_latest s thread_id ["browser_state"] with
    | Some row => browser_state_blocks model_name (content row)
    | None => []
    end in
  let '(temp_message_content_list, s') :=
    match select_latest s thread_id ["image_context"] with
    | Some row =>
        match image_context_content (content row) with
        | Some image_context_content =>
            ((from_browser ++ image_context_blocks image_context_content)%list,
             delete_message s (message_id row))
        | None => (from_browser, s)
        end
    | None => (from_browser, s)
    end in
  match temp_message_content_list with
  | [] => (None, s')
  | _ => (Some (PDict [("role", PStr "user");
                       ("content", PList temp_message_content_list)]), s')
  end.

End WithRuntime.
End MessageManager.

(** ** The thread-execution engine and the other collaborators *)

Record ProcessorConfig := {
  xml_tool_calling : bool;
  native_tool_calling : bool;
  execute_tools : bool;
  execute_on_stream : bool;
  tool_execution_strategy : string;
  xml_adding_strategy : string
}.

(** The keyword arguments of [thread_manager.run_thread]; the tracing
    argument [generation] is left out. *)
Record run_thread_args := {
  arg_thread_id : string;
  arg_system_prompt : pyval;
  arg_stream : bool;
  arg_llm_model : string;
  arg_llm_temperature : Z;
  arg_llm_max_tokens : option Z;
  arg_tool_choice : string;
  arg_max_xml_tool_calls : Z;
  arg_temporary_message : option pyval;
  arg_processor_config : ProcessorConfig;
  arg_native_max_auto_continues : Z;
  arg_include_xml_examples : bool;
  arg_enable_thinking : option bool;
  arg_reasoning_effort : option string;
  arg_enable_context_manager : bool
}.

(** An async iterable of chunks: it ends, gives a chunk, or raises. *)
Inductive chunk_stream : Type :=
| StreamEnd
| StreamChunk (chunk : pyval) (rest : chunk_stream)
| StreamRaise (e : exn).

(** What [run_thread] returns: an object with [__aiter__], or any other
    value (an error dict among them). *)
Inductive response : Type :=
| RespStream (s : chunk_stream)
| RespValue (v : pyval).

(** The state outside the runner: the message table and the rest. *)
Record World (Ext : Type) := {
  messages : store;
  ext : Ext
}.
Arguments messages {Ext} w.
Arguments ext {Ext} w.
Arguments Build_World {Ext} messages ext.

Definition with_messages {Ext : Type} (w : World Ext) (s : store) : World Ext :=
  {| messages := s; ext := ext w |}.

(** A registered schema: [schema.schema_type == SchemaType.OPENAPI], and
    the dict [schema.schema]. *)
Record ToolSchema := {
  is_openapi : bool;
  schema : pyval
}.

(** The strings [now.strftime] gives in [build_system_prompt]. *)
Record utc_now := {
  strftime_date : string;      (* '%A, %B %d, %Y' *)
  strftime_time : string;      (* '%H:%M:%S UTC' *)
  strftime_year : string;      (* '%Y' *)
  strftime_month : string;     (* '%B' *)
  strftime_weekday : string    (* '%A' *)
}.

(** Repository code and services that are not part of [run.py]. *)
Class Services (Ext : Type) := {
  (* services.billing.check_billing_status: (can_run, message) *)
  check_billing_status : string -> World Ext -> bool * string * World Ext;
  (* ThreadManager.run_thread; the world returned is the one the engine
     leaves once its stream has been consumed *)
  run_thread : run_thread_args -> World Ext -> result response * World Ext;
  (* utils.auth_utils.get_account_id_from_thread *)
  get_account_id_from_thread : string -> World Ext -> option string;
  (* table('projects').select('*').eq('project_id', id): the rows *)
  select_project : string -> World Ext -> list dict;
  (* config.RAPID_API_KEY *)
  RAPID_API_KEY : option string;
  (* pipedream.profile_service.get_profile(...).external_user_id;
     None when there is no profile or the lookup raises *)
  get_profile_external_user_id : string -> pyval -> World Ext -> option pyval;
  (* MCPToolWrapper.initialize_and_register_tools: the flag _initialized
     and get_schemas() afterwards; None when initialisation raises *)
  mcp_initialize :
    list pyval -> World Ext -> option (bool * list (string * list ToolSchema));
  (* client.rpc('get_agent_knowledge_base_context', ...).execute().data;
     None when the call raises *)
  get_agent_knowledge_base_context : pyval -> World Ext -> option pyval;
  (* agent.prompt.get_system_prompt() *)
  get_system_prompt : string;
  (* agent.agent_builder_prompt.get_agent_builder_prompt() *)
  get_agent_builder_prompt : string;
  (* the text of sample_responses/1.txt *)
  sample_response : string;
  (* datetime.datetime.now(datetime.timezone.utc) *)
  now_utc : World Ext -> utc_now
}.

(** ** ThreadManager *)

(** The part of [agentpress.thread_manager.ThreadManager] the runner
    touches: the constructor arguments, and what [run.py] does to the
    tool registry.  [ThreadManager.add_tool] is not code of [run.py]: the
    names it enters in [tool_registry.tools] are not known here, so
    [added_tools] records the calls, the classes handed to [add_tool] in
    order.  [mcp_tools] records the entries [MCPManager] writes into
    [tool_registry.tools] itself, by method name.  In the code both end
    in the same dict, where an entry written under a name replaces the
    entry that name had, whoever wrote it; the two records do not show
    that, and nothing below is stated about it.  The [agent_config]
    argument is the dict of [AgentConfig] itself and is not copied
    here. *)
Record ThreadManager := {
  tm_trace : option StatefulTraceClient;
  tm_is_agent_builder : bool;
  tm_target_agent_id : option string;
  added_tools : list string;
  mcp_tools : list (string * ToolSchema)
}.

Definition add_tool (tm : ThreadManager) (tool_class : string) : ThreadManager :=
  {| tm_trace := tm_trace tm;
     tm_is_agent_builder := tm_is_agent_builder tm;
     tm_target_agent_id := tm_target_agent_id tm;
     added_tools := added_tools tm ++ [tool_class];
     mcp_tools := mcp_tools tm |}.

(** ** ToolManager *)

Module ToolManager.

(** [ToolManager] holds the runner's thread manager; every function below
    returns the thread manager as its [add_tool] calls leave it. *)

Definition _register_core_tools (tm : ThreadManager) : ThreadManager :=
  add_tool (add_tool (add_tool tm "ExpandMessageTool") "MessageTool") "TaskListTool".

Definition sandbox_tools : list (string * string) :=
  [ ("sb_shell_tool", "SandboxShellTool");
    ("sb_files_tool", "SandboxFilesTool");
    ("sb_deploy_tool", "SandboxDeployTool");
    ("sb_expose_tool", "SandboxExposeTool");
    ("web_search_tool", "SandboxWebSearchTool");
    ("sb_vision_tool", "SandboxVisionTool");
    ("sb_image_edit_tool", "SandboxImageEditTool");
    ("sb_presentation_outline_tool", "SandboxPresentationOutlineTool");
    ("sb_presentation_tool_v2", "SandboxPresentationToolV2");
    ("sb_sheets_tool", "SandboxSheetsTool");
    ("sb_web_dev_tool", "SandboxWebDevTool") ].

(** [for tool_name, tool_class in tools: if tool_name not in disabled_tools:
     add_tool(tool_class, ...)] *)
Definition register_unless_disabled (tools : list (string * string))
  (disabled_tools : list string) (tm : ThreadManager) : ThreadManager :=
  fold_left
    (fun tm tool => if str_in (fst tool) disabled_tools then tm else add_tool tm (snd tool))
    tools tm.

Definition _register_sandbox_tools (disabled_tools : list string) (tm : ThreadManager)
  : ThreadManager :=
  register_unless_disabled sandbox_tools disabled_tools tm.

Definition agent_builder_tools : list (string * string) :=
  [ ("agent_config_tool", "AgentConfigTool");
    ("mcp_search_tool", "MCPSearchTool");
    ("credential_profile_tool", "CredentialProfileTool");
    ("workflow_tool", "WorkflowTool");
    ("trigger_tool", "TriggerTool") ].

Definition _register_agent_builder_tools (disabled_tools : list string)
  (tm : ThreadManager) : ThreadManager :=
  register_unless_disabled agent_builder_tools disabled_tools tm.

Definition _register_browser_tool (disabled_tools : list string) (tm : ThreadManager)
  : ThreadManager :=
  if str_in "browser_tool" disabled_tools then tm else add_tool tm "BrowserTool".

Section WithServices.
Context {Ext : Type} {SV : Services Ext}.

Definition _register_utility_tools (disabled_tools : list string) (tm : ThreadManager)
  : ThreadManager :=
  if optstr_truthy RAPID_API_KEY && negb (str_in "data_providers_tool" disabled_tools)
  then add_tool tm "DataProvidersTool"
  else tm.

Definition register_all_tools (agent_id : pyval) (disabled_tools : list string)
  (tm : ThreadManager) : ThreadManager :=
  let tm := _register_core_tools tm in
  let tm := _register_sandbox_tools disabled_tools tm in
  let tm := _register_utility_tools disabled_tools tm in
  let tm := if truthy agent_id
            then _register_agent_builder_tools disabled_tools tm else tm in
  _register_browser_tool disabled_tools tm.

End WithServices.
End ToolManager.

(** ** MCPManager *)

(** [MCPToolWrapper]: the configurations it was built over, what
    [get_schemas()] returns, and its [_initialized] flag. *)
Record MCPToolWrapper := {
  mcp_configs : list pyval;
  get_schemas : list (string * list ToolSchema);
  _initialized : bool
}.

Module MCPManager.

(** [list.extend(v)] and [for x in v]: the elements [v] iterates over. *)
Definition py_iter (v : pyval) : result (list pyval) :=
  match v with
  | PList l => Ok l
  | PStr s => Ok (map PStr (utf8_chars s))
  | PDict d => Ok (map (fun kv => PStr (fst kv)) d)
  | _ => Raise (Exn "TypeError" ("'" ++ type_name v ++ "' object is not iterable"))
  end.

(** [key in v] *)
Definition py_contains (v : pyval) (key : string) : result bool :=
  match v with
  | PDict d => Ok (dict_has d key)
  | PList l => Ok (existsb (fun x => str_eq x key) l)
  | PStr s => Ok (contains key s)
  | _ => Raise (Exn "TypeError"
                    ("argument of type '" ++ type_name v ++ "' is not iterable"))
  end.

(** [d[key]] on a dict *)
Definition dict_item (d : dict) (key : string) : result pyval :=
  match dict_get d key with
  | Some v => Ok v
  | None => Raise (Exn "KeyError" ("'" ++ key ++ "'"))
  end.

(** [custom_mcp['name'].replace(' ', '_').lower()] *)
Definition slug {RT : PythonRuntime} (custom_mcp : dict) : result string :=
  let* name := dict_item custom_mcp "name" in
  match name with
  | PStr s => Ok (lower (replace_space s))
  | v => Raise (no_attribute v "replace")
  end.

Section WithServices.
Context {RT : PythonRuntime} {Ext : Type} {SV : Services Ext}.

(** The [pipedream] branch on the entry's [config] dict: the dict as the
    branch leaves it, also when it is left by an exception. *)
Definition pipedream_config (account_id : string) (w : World Ext) (cfg : dict)
  : dict * result unit :=
  let cfg :=
    if truthy (dict_get_none cfg "external_user_id") then cfg
    else
      let profile_id := dict_get_none cfg "profile_id" in
      if truthy profile_id
      then match get_profile_external_user_id account_id profile_id w with
           | Some external_user_id => dict_set cfg "external_user_id" external_user_id
           | None => cfg
           end
      else cfg in
  match dict_get cfg "headers" with
  | None => (cfg, Ok tt)
  | Some headers =>
      match py_contains headers "x-pd-app-slug" with
      | Raise e => (cfg, Raise e)
      | Ok false => (cfg, Ok tt)
      | Ok true =>
          match headers with
          | PDict h => (dict_set cfg "app_slug" (dict_get_none h "x-pd-app-slug"), Ok tt)
          | v => (cfg, Raise (no_str_index v))
          end
      end
  end.

(** The dict built after the branches, for [sse] and [pipedream] entries. *)
Definition generic_mcp_config (custom_type : pyval) (custom_mcp : dict) : result pyval :=
  let* name := dict_item custom_mcp "name" in
  let* s := slug custom_mcp in
  let* cfg := dict_item custom_mcp "config" in
  Ok (PDict [ ("name", name);
              ("qualifiedName", PStr ("custom_" ++ format_value custom_type ++ "_" ++ s));
              ("config", cfg);
              ("enabledTools", dict_get_default custom_mcp "enabledTools" (PList []));
              ("instructions", dict_get_default custom_mcp "instructions" (PStr EmptyString));
              ("isCustom", PBool true);
              ("customType", custom_type) ]).

(** The dict built in the [composio] branch. *)
Definition composio_mcp_config (custom_mcp : dict) : result pyval :=
  let* qualified_name :=
    if truthy (dict_get_none custom_mcp "qualifiedName")
    then Ok (dict_get_none custom_mcp "qualifiedName")
    else let* s := slug custom_mcp in Ok (PStr ("composio." ++ s)) in
  let* name := dict_item custom_mcp "name" in
  Ok (PDict [ ("name", name);
              ("qualifiedName", qualified_name);
              ("config", dict_get_default custom_mcp "config" (PDict []));
              ("enabledTools", dict_get_default custom_mcp "enabledTools" (PList []));
              ("instructions", dict_get_default custom_mcp "instructions" (PStr EmptyString));
              ("isCustom", PBool true);
              ("customType", PStr "composio") ]).

(** One pass of [for custom_mcp in agent_config['custom_mcps']]: the entry
    as the pass leaves it (it is mutated in place), and the dict appended
    to [all_mcps], or the exception that ends the method. *)
Definition process_custom_mcp (account_id : string) (w : World Ext) (custom_mcp : pyval)
  : pyval * result pyval :=
  match custom_mcp with
  | PDict d =>
      let custom_type :=
        dict_get_default d "customType" (dict_get_default d "type" (PStr "sse")) in
      if str_eq custom_type "pipedream"
      then
        let d := if dict_has d "config" then d else dict_set d "config" (PDict []) in
        match dict_get_none d "config" with
        | PDict cfg =>
            match pipedream_config account_id w cfg with
            | (cfg, Ok _) =>
                let d := dict_set d "config" (PDict cfg) in
                (PDict d, generic_mcp_config custom_type d)
            | (cfg, Raise e) => (PDict (dict_set d "config" (PDict cfg)), Raise e)
            end
        | v => (PDict d, Raise (no_attribute v "get"))
        end
      else if str_eq custom_type "composio"
      then (PDict d, composio_mcp_config d)
      else (PDict d, generic_mcp_config custom_type d)
  | v => (v, Raise (no_attribute v "get"))
  end.

(** The whole [for] loop over the list [custom_mcps]. *)
Fixpoint process_custom_mcps (account_id : string) (w : World Ext)
  (custom_mcps : list pyval) : list pyval * result (list pyval) :=
  match custom_mcps with
  | [] => ([], Ok [])
  | custom_mcp :: rest =>
      match process_custom_mcp account_id w custom_mcp with
      | (custom_mcp, Raise e) => (custom_mcp :: rest, Raise e)
      | (custom_mcp, Ok mcp_config) =>
          let '(rest, r) := process_custom_mcps account_id w rest in
          (custom_mcp :: rest, let* configs := r in Ok (mcp_config :: configs))
      end
  end.

(** [tool_registry.tools[method_name] = {...}] for every schema of the
    list: the last one stays. *)
Fixpoint registry_set (tools : list (string * ToolSchema)) (method_name : string)
  (s : ToolSchema) : list (string * ToolSchema) :=
  match tools with
  | [] => [(method_name, s)]
  | (k, s') :: rest =>
      if (k =? method_name)%string then (k, s) :: rest
      else (k, s') :: registry_set rest method_name s
  end.

Definition splice_schemas (schemas : list (string * list ToolSchema))
  (tm : ThreadManager) : ThreadManager :=
  {| tm_trace := tm_trace tm;
     tm_is_agent_builder := tm_is_agent_builder tm;
     tm_target_agent_id := tm_target_agent_id tm;
     added_tools := added_tools tm;
     mcp_tools :=
       fold_left
         (fun tools entry =>
            fold_left (fun tools s => registry_set tools (fst entry) s) (snd entry) tools)
         schemas (mcp_tools tm) |}.

(** [register_mcp_tools]: the agent definition and the thread manager as
    the method leaves them, and the wrapper it returns or the exception it
    raises.  [get_schemas()] is taken to return what it is declared to
    return, a dict of lists of schemas, so that the loop over it runs to
    its end. *)
Definition register_mcp_tools (account_id : string) (tm : ThreadManager)
  (w : World Ext) (agent_config : dict)
  : dict * ThreadManager * result (option MCPToolWrapper) :=
  let configured :=
    if truthy (dict_get_none agent_config "configured_mcps")
    then py_iter (dict_get_none agent_config "configured_mcps")
    else Ok [] in
  match configured with
  | Raise e => (agent_config, tm, Raise e)
  | Ok configured =>
      let '(agent_config, custom) :=
        if truthy (dict_get_none agent_config "custom_mcps")
        then
          match dict_get_none agent_config "custom_mcps" with
          | PList l =>
              let '(l, r) := process_custom_mcps account_id w l in
              (dict_set agent_config "custom_mcps" (PList l), r)
          | v =>
              (agent_config,
               let* l := py_iter v in
               snd (process_custom_mcps account_id w l))
          end
        else (agent_config, Ok []) in
      match custom with
      | Raise e => (agent_config, tm, Raise e)
      | Ok custom =>
          let all_mcps := (configured ++ custom)%list in
          match all_mcps with
          | [] => (agent_config, tm, Ok None)
          | _ =>
              match mcp_initialize all_mcps w with
              | Some (initialized, updated_schemas) =>
                  (agent_config, splice_schemas updated_schemas tm,
                   Ok (Some {| mcp_configs := all_mcps;
                               get_schemas := updated_schemas;
                               _initialized := initialized |}))
              | None => (agent_config, tm, Ok None)
              end
          end
      end
  end.

End WithServices.
End MCPManager.

(** ** PromptManager *)

Module PromptManager.
Section WithServices.
Context {RT : PythonRuntime} {Ext : Type} {SV : Services Ext}.

(** The block appended to the default prompt for non-Anthropic models. *)
Definition sample_block : string :=
  newline ++ newline ++ " <sample_assistant_response>" ++ sample_response
  ++ "</sample_assistant_response>".

(** The f-string [kb_section]. *)
Definition kb_section (data : string) : string :=
  newline ++ newline
  ++ "=== AGENT KNOWLEDGE BASE ===" ++ newline
  ++ "NOTICE: The following is your specialized knowledge base. This information should be considered authoritative for your responses and should take precedence over general knowledge when relevant."
  ++ newline ++ newline
  ++ data
  ++ newline ++ newline
  ++ "=== END AGENT KNOWLEDGE BASE ===" ++ newline ++ newline
  ++ "IMPORTANT: Always reference and utilize the knowledge base information above when it's relevant to user queries. This knowledge is specific to your role and capabilities.".

(** The [try] around the knowledge-base lookup: what is appended. *)
Definition knowledge_base_context (agent_config : option dict) (w : World Ext) : string :=
  match agent_config with
  | Some ((_ :: _) as ac) =>
      if truthy (dict_get_none ac "agent_id")
      then
        match get_agent_knowledge_base_context (dict_get_none ac "agent_id") w with
        | Some (PStr data) =>
            if negb (data =? EmptyString)%string && negb (strip data =? EmptyString)%string
            then kb_section data else EmptyString
        | _ => EmptyString
        end
      else EmptyString
  | _ => EmptyString
  end.

(** The lines one schema adds to [mcp_info]; [false] when an exception
    leaves the listing. *)
Definition list_schema (method_name : string) (s : ToolSchema) (mcp_info : string)
  : string * bool :=
  if is_openapi s
  then
    match schema s with
    | PDict sd =>
        match dict_get_default sd "function" (PDict []) with
        | PDict func_info =>
            let description :=
              dict_get_default func_info "description" (PStr "No description available") in
            let mcp_info :=
              mcp_info ++ "- **" ++ method_name ++ "**: " ++ format_value description
              ++ newline in
            match dict_get_default func_info "parameters" (PDict []) with
            | PDict params =>
                let props := dict_get_default params "properties" (PDict []) in
                if truthy props
                then
                  match props with
                  | PDict p =>
                      (mcp_info ++ "  Parameters: " ++ join_comma (dict_keys p) ++ newline,
                       true)
                  | _ => (mcp_info, false)
                  end
                else (mcp_info, true)
            | _ => (mcp_info, false)
            end
        | _ => (mcp_info, false)
        end
    | _ => (mcp_info, false)
    end
  else (mcp_info, true).

Fixpoint list_schema_list (method_name : string) (schema_list : list ToolSchema)
  (mcp_info : string) : string * bool :=
  match schema_list with
  | [] => (mcp_info, true)
  | s :: rest =>
      match list_schema method_name s mcp_info with
      | (mcp_info, true) => list_schema_list method_name rest mcp_info
      | (mcp_info, false) => (mcp_info, false)
      end
  end.

Fixpoint list_registered_schemas (registered_schemas : list (string * list ToolSchema))
  (mcp_info : string) : string * bool :=
  match registered_schemas with
  | [] => (mcp_info, true)
  | (method_name, schema_list) :: rest =>
      match list_schema_list method_name schema_list mcp_info with
      | (mcp_info, true) => list_registered_schemas rest mcp_info
      | (mcp_info, false) => (mcp_info, false)
      end
  end.

Definition mcp_header : string :=
  newline ++ newline ++ "--- MCP Tools Available ---" ++ newline
  ++ "You have access to external MCP (Model Context Protocol) server tools." ++ newline
  ++ "MCP tools can be called directly using their native function names in the standard function calling format:" ++ newline
  ++ "<function_calls>" ++ newline
  ++ "<invoke name=" ++ String (ascii_of_nat 34) "{tool_name}" ++ String (ascii_of_nat 34) ">" ++ newline
  ++ "<parameter name=" ++ String (ascii_of_nat 34) "param1" ++ String (ascii_of_nat 34) ">value1</parameter>" ++ newline
  ++ "<parameter name=" ++ String (ascii_of_nat 34) "param2" ++ String (ascii_of_nat 34) ">value2</parameter>" ++ newline
  ++ "</invoke>" ++ newline
  ++ "</function_calls>" ++ newline ++ newline
  ++ "Available MCP tools:" ++ newline.

(** The police-light sign of the source text, in UTF-8. *)
Definition siren : string :=
  String (ascii_of_nat 240) (String (ascii_of_nat 159)
    (String (ascii_of_nat 154) (String (ascii_of_nat 168) EmptyString))).

Definition mcp_instructions : string :=
  newline ++ siren ++ " CRITICAL MCP TOOL RESULT INSTRUCTIONS " ++ siren ++ newline
  ++ "When you use ANY MCP (Model Context Protocol) tools:" ++ newline
  ++ "1. ALWAYS read and use the EXACT results returned by the MCP tool" ++ newline
  ++ "2. For search tools: ONLY cite URLs, sources, and information from the actual search results" ++ newline
  ++ "3. For any tool: Base your response entirely on the tool's output - do NOT add external information" ++ newline
  ++ "4. DO NOT fabricate, invent, hallucinate, or make up any sources, URLs, or data" ++ newline
  ++ "5. If you need more information, call the MCP tool again with different parameters" ++ newline
  ++ "6. When writing reports/summaries: Reference ONLY the data from MCP tool results" ++ newline
  ++ "7. If the MCP tool doesn't return enough information, explicitly state this limitation" ++ newline
  ++ "8. Always double-check that every fact, URL, and reference comes from the MCP tool output" ++ newline
  ++ newline ++ "IMPORTANT: MCP tool results are your PRIMARY and ONLY source of truth for external data!" ++ newline
  ++ "NEVER supplement MCP results with your training data or make assumptions beyond what the tools provide." ++ newline.

(** The section on MCP tools: what is appended to the prompt. *)
Definition mcp_info (agent_config : option dict)
  (mcp_wrapper_instance : option MCPToolWrapper) : string :=
  match agent_config, mcp_wrapper_instance with
  | Some ((_ :: _) as ac), Some wrapper =>
      if (truthy (dict_get_none ac "configured_mcps")
          || truthy (dict_get_none ac "custom_mcps"))
         && _initialized wrapper
      then
        match list_registered_schemas (get_schemas wrapper) mcp_header with
        | (info, true) => info ++ mcp_instructions
        | (info, false) =>
            info ++ "- Error loading MCP tool list" ++ newline ++ mcp_instructions
        end
      else EmptyString
  | _, _ => EmptyString
  end.

Definition datetime_info (now : utc_now) : string :=
  newline ++ newline ++ "=== CURRENT DATE/TIME INFORMATION ===" ++ newline
  ++ "Today's date: " ++ strftime_date now ++ newline
  ++ "Current UTC time: " ++ strftime_time now ++ newline
  ++ "Current year: " ++ strftime_year now ++ newline
  ++ "Current month: " ++ strftime_month now ++ newline
  ++ "Current day: " ++ strftime_weekday now ++ newline
  ++ "Use this information for any time-sensitive tasks, research, or when current date/time context is needed."
  ++ newline.

(** The exclusive choice of the base text; the custom prompt of an agent
    must be a string to have [strip]. *)
Definition base_system_content (model_name : string) (agent_config : option dict)
  (is_agent_builder : option bool) : result string :=
  let default_system_content :=
    if negb (contains "anthropic" (lower model_name))
    then get_system_prompt ++ sample_block
    else get_system_prompt in
  if optbool_truthy is_agent_builder
  then Ok get_agent_builder_prompt
  else
    match agent_config with
    | Some ((_ :: _) as ac) =>
        if truthy (dict_get_none ac "system_prompt")
        then
          match dict_get_none ac "system_prompt" with
          | PStr system_prompt => Ok (strip system_prompt)
          | v => Raise (no_attribute v "strip")
          end
        else Ok default_system_content
    | _ => Ok default_system_content
    end.

Definition build_system_prompt (model_name : string) (agent_config : option dict)
  (is_agent_builder : option bool) (thread_id : string)
  (mcp_wrapper_instance : option MCPToolWrapper) (w : World Ext) : result pyval :=
  let* system_content := base_system_content model_name agent_config is_agent_builder in
  let system_content := system_content ++ knowledge_base_context agent_config w in
  let system_content := system_content ++ mcp_info agent_config mcp_wrapper_instance in
  let system_content := system_content ++ datetime_info (now_utc w) in
  Ok (PDict [("role", PStr "system"); ("content", PStr system_content)]).

End WithServices.
End PromptManager.

(** ** AgentRunner *)

Module AgentRunner.

(** What a run does that its caller or the engine can observe. *)
Inductive event : Type :=
| EvRunThread (args : run_thread_args) (returned : result response)
| EvYield (chunk : pyval).

(** The variables reset at each pass of the loop. *)
Record stream_state := {
  last_tool_call : pyval;
  agent_should_terminate : bool;
  error_detected : bool;
  full_response : string
}.

Definition initial_stream_state : stream_state :=
  {| last_tool_call := PNone;
     agent_should_terminate := false;
     error_detected := false;
     full_response := EmptyString |}.

Definition set_last_tool_call (st : stream_state) (v : pyval) : stream_state :=
  {| last_tool_call := v;
     agent_should_terminate := agent_should_terminate st;
     error_detected := error_detected st;
     full_response := full_response st |}.

Definition set_agent_should_terminate (st : stream_state) : stream_state :=
  {| last_tool_call := last_tool_call st;
     agent_should_terminate := true;
     error_detected := error_detected st;
     full_response := full_response st |}.

Definition set_error_detected (st : stream_state) : stream_state :=
  {| last_tool_call := last_tool_call st;
     agent_should_terminate := agent_should_terminate st;
     error_detected := true;
     full_response := full_response st |}.

Definition add_full_response (st : stream_state) (text : string) : stream_state :=
  {| last_tool_call := last_tool_call st;
     agent_should_terminate := agent_should_terminate st;
     error_detected := error_detected st;
     full_response := full_response st ++ text |}.

(** [{"type": "status", "status": status, "message": message}] *)
Definition status_chunk (status message : string) : pyval :=
  PDict [("type", PStr "status"); ("status", PStr status); ("message", PStr message)].

Section WithRuntime.
Context {RT : PythonRuntime}.

(** [isinstance(chunk, dict) and chunk.get('type') == 'status'
     and chunk.get('status') == 'error'] *)
Definition is_error_chunk (chunk : pyval) : bool :=
  match chunk with
  | PDict d => str_eq (dict_get_none d "type") "status"
               && str_eq (dict_get_none d "status") "error"
  | _ => false
  end.

(** [json.loads(v) if isinstance(v, str) else v]; [None] for a decode error *)
Definition loads_if_str (v : pyval) : option pyval :=
  match v with
  | PStr s => json_loads s
  | _ => Some v
  end.

(** The [try] block for a chunk of type [status]; every exception is
    swallowed, the assignments made before it stay. *)
Definition process_status_chunk (chunk : dict) (st : stream_state) : stream_state :=
  match loads_if_str (dict_get_default chunk "metadata" (PDict [])) with
  | Some (PDict metadata) =>
      if truthy (dict_get_none metadata "agent_should_terminate")
      then
        let st := set_agent_should_terminate st in
        match loads_if_str (dict_get_default chunk "content" (PDict [])) with
        | Some (PDict content) =>
            if truthy (dict_get_none content "function_name")
            then set_last_tool_call st (dict_get_none content "function_name")
            else if truthy (dict_get_none content "xml_tag_name")
            then set_last_tool_call st (dict_get_none content "xml_tag_name")
            else st
        | _ => st
        end
      else st
  | _ => st
  end.

(** The scan of the assistant text for the closing tags. *)
Definition scan_closing_tags (assistant_text : string) (st : stream_state)
  : stream_state :=
  if contains "</ask>" assistant_text
     || contains "</complete>" assistant_text
     || contains "</web-browser-takeover>" assistant_text
  then
    if contains "</ask>" assistant_text
    then set_last_tool_call st (PStr "ask")
    else if contains "</complete>" assistant_text
    then set_last_tool_call st (PStr "complete")
    else if contains "</web-browser-takeover>" assistant_text
    then set_last_tool_call st (PStr "web-browser-takeover")
    else st
  else st.

(** The [try] block for a chunk of type [assistant] that has [content]. *)
Definition process_assistant_chunk (chunk : dict) (st : stream_state) : stream_state :=
  match loads_if_str (dict_get_default chunk "content" (PStr "{}")) with
  | Some (PDict assistant_content_json) =>
      match dict_get_default assistant_content_json "content" (PStr EmptyString) with
      | PStr assistant_text =>
          scan_closing_tags assistant_text (add_full_response st assistant_text)
      | _ => st
      end
  | _ => st
  end.

(** The body of [async for chunk in response].  [Ok] means the chunk is
    yielded and the loop goes on; [Raise] leaves the loop before the yield. *)
Definition handle_chunk (chunk : pyval) (st : stream_state) : result stream_state :=
  if is_error_chunk chunk then Ok (set_error_detected st)
  else
    let* d := as_dict chunk in
    let st :=
      if str_eq (dict_get_none d "type") "status"
      then process_status_chunk d st else st in
    let st :=
      if str_eq (dict_get_none d "type") "assistant" && dict_has d "content"
      then process_assistant_chunk d st else st in
    Ok st.

(** The whole [async for]: the chunks yielded, and how the loop ended. *)
Fixpoint consume_stream (s : chunk_stream) (st : stream_state)
  : list pyval * result stream_state :=
  match s with
  | StreamEnd => ([], Ok st)
  | StreamRaise e => ([], Raise e)
  | StreamChunk chunk rest =>
      match handle_chunk chunk st with
      | Raise e => ([], Raise e)
      | Ok st' =>
          let '(yielded, r) := consume_stream rest st' in
          (chunk :: yielded, r)
      end
  end.

(** [isinstance(response, dict) and "status" in response
     and response["status"] == "error"] *)
Definition is_error_response (r : response) : bool :=
  match r with
  | RespValue (PDict d) => dict_has d "status" && str_eq (dict_get_none d "status") "error"
  | _ => false
  end.

(** [last_tool_call in ['ask', 'complete', 'web-browser-takeover']] *)
Definition is_terminal_tool (v : pyval) : bool :=
  str_eq v "ask" || str_eq v "complete" || str_eq v "web-browser-takeover".

End WithRuntime.

(** The attributes [setup] gives the runner.  [self.client] is the handle
    on the database, which the [World] stands for. *)
Record runner := {
  config : AgentConfig;
  thread_manager : ThreadManager;
  account_id : string
}.

Definition set_config (self : runner) (c : AgentConfig) : runner :=
  {| config := c; thread_manager := thread_manager self; account_id := account_id self |}.

Definition set_thread_manager (self : runner) (tm : ThreadManager) : runner :=
  {| config := config self; thread_manager := tm; account_id := account_id self |}.

(** [langfuse.trace(name="run_agent", session_id=..., metadata=...)] *)
Definition langfuse_trace (c : AgentConfig) : StatefulTraceClient :=
  {| trace_name := "run_agent";
     trace_session_id := thread_id c;
     trace_metadata := [("project_id", PStr (project_id c))] |}.

Section WithServices.
Context {RT : PythonRuntime} {Ext : Type} {SV : Services Ext}.

(** [setup], run on the runner [AgentRunner(config)]: the configuration
    as [setup] leaves it, also when it raises, and the runner with the
    attributes [setup] assigns. *)
Definition setup (c : AgentConfig) (w : World Ext) : AgentConfig * result runner :=
  let c :=
    match trace c with
    | Some _ => c
    | None => set_trace c (langfuse_trace c)
    end in
  let tm :=
    {| tm_trace := trace c;
       tm_is_agent_builder := optbool_truthy (is_agent_builder c);
       tm_target_agent_id := target_agent_id c;
       added_tools := [];
       mcp_tools := [] |} in
  (c,
   match get_account_id_from_thread (thread_id c) w with
   | Some ((String _ _) as account_id) =>
       match select_project (project_id c) w with
       | [] => Raise (Exn "ValueError" ("Project " ++ project_id c ++ " not found"))
       | project_data :: _ =>
           let* sandbox_info := as_dict (dict_get_default project_data "sandbox" (PDict [])) in
           (* a project without a sandbox id is only logged *)
           Ok {| config := c; thread_manager := tm; account_id := account_id |}
       end
   | _ => Raise (Exn "ValueError" "Could not determine account ID for thread")
   end).

(** [setup_tools]; the [KeyError] of a default agent without [agent_id]
    comes before any tool is registered. *)
Definition setup_tools (self : runner) : result runner :=
  let c := config self in
  let* agent_id :=
    match agent_config c with
    | Some ((_ :: _) as ac) =>
        if truthy (dict_get_default ac "is_suna_default" (PBool false))
        then MCPManager.dict_item ac "agent_id"
        else if optbool_truthy (is_agent_builder c) && optstr_truthy (target_agent_id c)
        then Ok (match target_agent_id c with Some id => PStr id | None => PNone end)
        else Ok PNone
    | _ =>
        if optbool_truthy (is_agent_builder c) && optstr_truthy (target_agent_id c)
        then Ok (match target_agent_id c with Some id => PStr id | None => PNone end)
        else Ok PNone
    end in
  let disabled_tools := _get_disabled_tools_from_config c in
  Ok (set_thread_manager self
        (ToolManager.register_all_tools agent_id disabled_tools (thread_manager self))).

(** [setup_mcp_tools]: the runner as the call leaves it, and its result. *)
Definition setup_mcp_tools (self : runner) (w : World Ext)
  : runner * result (option MCPToolWrapper) :=
  match agent_config (config self) with
  | Some ((_ :: _) as ac) =>
      let '(ac, tm, r) :=
        MCPManager.register_mcp_tools (account_id self) (thread_manager self) w ac in
      (set_thread_manager (set_config self (set_agent_config (config self) (Some ac))) tm,
       r)
  | _ => (self, Ok None)
  end.

(** The lines of [run] on the latest user message: [json.loads] and
    [data['content']] can raise. *)
Definition trace_update_input (c : AgentConfig) (w : World Ext) : result unit :=
  match select_latest (messages w) (thread_id c) ["user"] with
  | None => Ok tt
  | Some row =>
      match loads_if_str (content row) with
      | None => Raise (Exn "JSONDecodeError" "the message content is not JSON")
      | Some data =>
          match trace c with
          | None => Ok tt
          | Some _ =>
              match data with
              | PDict d => let* _input := MCPManager.dict_item d "content" in Ok tt
              | v => Raise (no_str_index v)
              end
          end
      end
  end.

(** The arguments of the [run_thread] call of one pass. *)
Definition thread_args (config : AgentConfig) (system_message : pyval)
  (temporary_message : option pyval) : run_thread_args :=
  {| arg_thread_id := thread_id config;
     arg_system_prompt := system_message;
     arg_stream := stream config;
     arg_llm_model := model_name config;
     arg_llm_temperature := 0;
     arg_llm_max_tokens := get_max_tokens config;
     arg_tool_choice := "auto";
     arg_max_xml_tool_calls := 1;
     arg_temporary_message := temporary_message;
     arg_processor_config :=
       {| xml_tool_calling := true;
          native_tool_calling := false;
          execute_tools := true;
          execute_on_stream := true;
          tool_execution_strategy := "parallel";
          xml_adding_strategy := "user_message" |};
     arg_native_max_auto_continues := native_max_auto_continues config;
     arg_include_xml_examples := true;
     arg_enable_thinking := enable_thinking config;
     arg_reasoning_effort := reasoning_effort config;
     arg_enable_context_manager := enable_context_manager config |}.

(** How the body of the [while] is left: at its end, or by [break]. *)
Inductive control : Type := BodyEnd | Break.

(** What follows the [run_thread] call inside the outer [try]: the events
    after the call, how the body is left, and [continue_execution]. *)
Definition after_run_thread (r : result response) (continue_execution : bool)
  : list event * control * bool :=
  match r with
  | Raise e =>
      ([EvYield (status_chunk "error" ("Error running thread: " ++ exn_msg e))],
       Break, continue_execution)
  | Ok (RespValue v) =>
      if is_error_response (RespValue v)
      then ([EvYield v], Break, continue_execution)
      else
        (* no [__aiter__], or a dict: error_detected = True, then break *)
        ([], Break, continue_execution)
  | Ok (RespStream s) =>
      match consume_stream s initial_stream_state with
      | (yielded, Raise e) =>
          ((map EvYield yielded
            ++ [EvYield (status_chunk "error"
                           ("Error during response streaming: " ++ exn_msg e))])%list,
           Break, continue_execution)
      | (yielded, Ok st) =>
          if error_detected st
          then (map EvYield yielded, Break, continue_execution)
          else if agent_should_terminate st || is_terminal_tool (last_tool_call st)
          then (map EvYield yielded, BodyEnd, false)
          else (map EvYield yielded, BodyEnd, continue_execution)
      end
  end.

(** One pass of the body of the [while] loop.  The billing service, the
    database and [build_temporary_message] are called outside the [try]
    and are taken to return. *)
Definition loop_body (self : runner) (system_message : pyval)
  (continue_execution : bool) (w : World Ext)
  : list event * control * bool * World Ext :=
  let '(can_run, message, w) := check_billing_status (account_id self) w in
  if negb can_run
  then ([EvYield (status_chunk "stopped" ("Billing limit reached: " ++ message))],
        Break, continue_execution, w)
  else
    let latest_message :=
      select_latest (messages w) (thread_id (config self)) ["assistant"; "tool"; "user"] in
    if match latest_message with
       | Some row => (row_type row =? "assistant")%string
       | None => false
       end
    then ([], Break, false, w)
    else
      let '(temporary_message, s) :=
        MessageManager.build_temporary_message
          (thread_id (config self)) (model_name (config self)) (messages w) in
      let w := with_messages w s in
      let args := thread_args (config self) system_message temporary_message in
      let '(r, w) := run_thread args w in
      let '(evs, ctl, continue_execution) := after_run_thread r continue_execution in
      (EvRunThread args r :: evs, ctl, continue_execution, w).

(** The state in which the [while] loop is left. *)
Record loop_exit := {
  iteration_count : Z;
  continue_execution : bool;
  left_by_break : bool;
  self_after : runner;
  world_after : World Ext
}.

(** [while continue_execution and iteration_count < max_iterations].
    [fuel] bounds the passes; [None] means it ran out. *)
Fixpoint run_loop (fuel : nat) (self : runner) (system_message : pyval)
  (iteration_count : Z) (continue_execution : bool) (w : World Ext)
  : option (list event * loop_exit) :=
  if continue_execution && (iteration_count <? max_iterations (config self))
  then
    match fuel with
    | O => None
    | S fuel =>
        let iteration_count := iteration_count + 1 in
        match loop_body self system_message continue_execution w with
        | (evs, Break, continue_execution, w) =>
            Some (evs, {| iteration_count := iteration_count;
                          continue_execution := continue_execution;
                          left_by_break := true;
                          self_after := self;
                          world_after := w |})
        | (evs, BodyEnd, continue_execution, w) =>
            match run_loop fuel self system_message iteration_count continue_execution w with
            | Some (evs', ex) => Some ((evs ++ evs')%list, ex)
            | None => None
            end
        end
    end
  else Some ([], {| iteration_count := iteration_count;
                    continue_execution := continue_execution;
                    left_by_break := false;
                    self_after := self;
                    world_after := w |}).

(** The loop of a run: [iteration_count = 0], [continue_execution = True],
    and as many passes as [max_iterations] allows. *)
Definition agent_loop (self : runner) (system_message : pyval) (w : World Ext)
  : option (list event * loop_exit) :=
  run_loop (Z.to_nat (max_iterations (config self))) self system_message 0 true w.

(** [run]: the configuration as the run leaves it, and the events of the
    run with the state its loop is left in, or the exception of the
    set-up phase, which the caller receives before any chunk. *)
Definition run (c : AgentConfig) (w : World Ext)
  : AgentConfig * result (option (list event * loop_exit)) :=
  match setup c w with
  | (c, Raise e) => (c, Raise e)
  | (_, Ok self) =>
      match setup_tools self with
      | Raise e => (config self, Raise e)
      | Ok self =>
          match setup_mcp_tools self w with
          | (self, Raise e) => (config self, Raise e)
          | (self, Ok mcp_wrapper_instance) =>
              (config self,
               let* system_message :=
                 PromptManager.build_system_prompt
                   (model_name (config self)) (agent_config (config self))
                   (is_agent_builder (config self)) (thread_id (config self))
                   mcp_wrapper_instance w in
               let* _ := trace_update_input (config self) w in
               Ok (agent_loop self system_message w))
          end
      end
  end.

End WithServices.
End AgentRunner.

(** ** run_agent *)

(** [c.model_name = m], when [run_agent] builds its configuration. *)
Definition set_model_name (c : AgentConfig) (m : string) : AgentConfig :=
  {| thread_id := thread_id c;
     project_id := project_id c;
     stream := stream c;
     native_max_auto_continues := native_max_auto_continues c;
     max_iterations := max_iterations c;
     model_name := m;
     enable_thinking := enable_thinking c;
     reasoning_effort := reasoning_effort c;
     enable_context_manager := enable_context_manager c;
     agent_config := agent_config c;
     trace := trace c;
     is_agent_builder := is_agent_builder c;
     target_agent_id := target_agent_id c |}.

(** The value [run_agent] binds to [effective_model]: the model of the
    agent definition when the caller passed the default model name. *)
Definition effective_model (model_name : string) (agent_config : option dict) : pyval :=
  match agent_config with
  | Some ((_ :: _) as ac) =>
      if (model_name =? "openai/gpt-5-mini")%string && truthy (dict_get_none ac "model")
      then dict_get_none ac "model"
      else PStr model_name
  | _ => PStr model_name
  end.

Section RunAgent.
Context {RT : PythonRuntime} {Ext : Type} {SV : Services Ext}.

(** [run_agent], its keyword arguments given as the record they are put
    in.  A model of the agent definition that is not a string reaches
    [model_name.lower()] in [build_system_prompt] after the three set-up
    steps, none of which reads the model name. *)
Definition run_agent (args : AgentConfig) (w : World Ext)
  : result (option (list AgentRunner.event * AgentRunner.loop_exit)) :=
  match effective_model (model_name args) (agent_config args) with
  | PStr m => snd (AgentRunner.run (set_model_name args m) w)
  | v =>
      match AgentRunner.setup args w with
      | (_, Raise e) => Raise e
      | (_, Ok self) =>
          match AgentRunner.setup_tools self with
          | Raise e => Raise e
          | Ok self =>
              match AgentRunner.setup_mcp_tools self w with
              | (_, Raise e) => Raise e
              | (_, Ok _) => Raise (no_attribute v "lower")
              end
          end
      end
  end.

End RunAgent.

(** ** Notions used to state the properties *)

(** The assistant text [handle_chunk] extracts from a chunk: the chunk has
    type [assistant], and its content, a dict or the JSON text of one,
    holds the text under [content]. *)
Definition assistant_text_of {RT : PythonRuntime} (chunk : dict) (text : string) : Prop :=
  dict_get chunk "type" = Some (PStr "assistant")
  /\ exists inner : dict,
       (dict_get chunk "content" = Some (PDict inner)
        \/ exists s, dict_get chunk "content" = Some (PStr s)
                     /\ json_loads s = Some (PDict inner))
       /\ dict_get inner "content" = Some (PStr text).

(** An entry of the tool map that switches its tool off: the boolean
    [False], or an object whose [enabled] value is false for Python. *)
Definition resolves_disabled (entry : option pyval) : Prop :=
  entry = Some (PBool false)
  \/ exists (o : dict) (v : pyval),
       entry = Some (PDict o) /\ dict_get o "enabled" = Some v /\ truthy v = false.

(** The same in the words of the specification: boolean false, or an
    object with [enabled: false]. *)
Definition disabled_as_written (entry : option pyval) : Prop :=
  entry = Some (PBool false)
  \/ exists o : dict, entry = Some (PDict o) /\ dict_get o "enabled" = Some (PBool false).

(** An entry that is absent or malformed: no entry, a value that is
    neither a boolean nor an object, or an object without [enabled]. *)
Definition absent_or_malformed (entry : option pyval) : Prop :=
  match entry with
  | None => True
  | Some (PBool _) => False
  | Some (PDict o) => dict_get o "enabled" = None
  | Some _ => True
  end.

(** The chunks of a stream, up to its end or to the point where it raises. *)
Fixpoint stream_chunks (s : chunk_stream) : list pyval :=
  match s with
  | StreamChunk chunk rest => chunk :: stream_chunks rest
  | _ => []
  end.

(** The events of passes that only relay: each pass is a [run_thread]
    call that returned a stream, followed by the chunks of that stream,
    in order, and by nothing else. *)
Inductive relayed_only : list AgentRunner.event -> Prop :=
| relayed_nil : relayed_only []
| relayed_pass : forall args s rest,
    relayed_only rest ->
    relayed_only
      ((AgentRunner.EvRunThread args (Ok (RespStream s))
        :: map AgentRunner.EvYield (stream_chunks s)) ++ rest).

(** The number of [run_thread] calls among the events. *)
Fixpoint run_thread_calls (evs : list AgentRunner.event) : nat :=
  match evs with
  | [] => 0
  | AgentRunner.EvRunThread _ _ :: rest => S (run_thread_calls rest)
  | AgentRunner.EvYield _ :: rest => run_thread_calls rest
  end.

(** A chunk whose [status] is "error" or "stopped". *)
Definition carries_status (chunk : pyval) : bool :=
  match chunk with
  | PDict d => str_eq (dict_get_none d "status") "error"
               || str_eq (dict_get_none d "status") "stopped"
  | _ => false
  end.

(** The message [build_temporary_message] makes of a list of blocks. *)
Definition as_temporary_message (blocks : list pyval) : option pyval :=
  match blocks with
  | [] => None
  | _ => Some (PDict [("role", PStr "user"); ("content", PList blocks)])
  end.

(** The blocks the latest [browser_state] row of a thread contributes. *)
Definition browser_blocks_of {RT : PythonRuntime} (tid model : string) (s : store)
  : list pyval :=
  match select_latest s tid ["browser_state"] with
  | Some row => MessageManager.browser_state_blocks model (content row)
  | None => []
  end.

(** The content of a row parses as JSON to the object [d]: it is that
    dict already, or a text [json.loads] decodes to it. *)
Definition parses_as (RT : PythonRuntime) (row_content : pyval) (d : dict) : Prop :=
  row_content = PDict d
  \/ exists text, row_content = PStr text /\ json_loads text = Some (PDict d).


(** The fields of [AgentConfig] other than [trace] and [agent_config]
    are the same in two configurations. *)
Definition same_run_parameters (c c' : AgentConfig) : Prop :=
  thread_id c' = thread_id c
  /\ project_id c' = project_id c
  /\ stream c' = stream c
  /\ native_max_auto_continues c' = native_max_auto_continues c
  /\ max_iterations c' = max_iterations c
  /\ model_name c' = model_name c
  /\ enable_thinking c' = enable_thinking c
  /\ reasoning_effort c' = reasoning_effort c
  /\ enable_context_manager c' = enable_context_manager c
  /\ is_agent_builder c' = is_agent_builder c
  /\ target_agent_id c' = target_agent_id c.

(** A custom MCP entry whose [customType] (or [type]) is [pipedream]. *)
Definition is_pipedream_entry (custom_mcp : pyval) : bool :=
  match custom_mcp with
  | PDict d =>
      str_eq (dict_get_default d "customType" (dict_get_default d "type" (PStr "sse")))
             "pipedream"
  | _ => false
  end.

(** The agent definition lists a custom MCP of type [pipedream]. *)
Definition declares_pipedream (ac : option dict) : bool :=
  match ac with
  | Some d =>
      match dict_get_none d "custom_mcps" with
      | PList l => existsb is_pipedream_entry l
      | _ => false
      end
  | None => false
  end.

(** The classes [register_unless_disabled] adds for a table of tools. *)
Definition enabled_classes (tools : list (string * string)) (disabled_tools : list string)
  : list string :=
  map snd (filter (fun tool => negb (str_in (fst tool) disabled_tools)) tools).

(** A thread manager in which no tool is registered yet. *)
Definition no_tools (tm : ThreadManager) : Prop :=
  added_tools tm = [] /\ mcp_tools tm = [].

(** [tool_registry.tools.get(name)] among the MCP entries. *)
Fixpoint registry_get (tools : list (string * ToolSchema)) (name : string)
  : option ToolSchema :=
  match tools with
  | [] => None
  | (k, s) :: rest => if (k =? name)%string then Some s else registry_get rest name
  end.

(** The test made after the stream of a pass: the run is to stop. *)
Definition stop_requested (st : AgentRunner.stream_state) : bool :=
  AgentRunner.agent_should_terminate st
  || AgentRunner.is_terminal_tool (AgentRunner.last_tool_call st).



(** A row matches the filter of a query. *)
Definition matches (tid : string) (types : list string) (r : message) : Prop :=
  row_thread_id r = tid /\ In (row_type r) types.

(** ** Concrete configurations and collaborators *)

(** The configuration [run_agent] builds from its defaults for a thread,
    a project, a model and an agent definition. *)
Definition default_config (tid pid model : string) (ac : option dict) : AgentConfig :=
  {| thread_id := tid;
     project_id := pid;
     stream := true;
     native_max_auto_continues := 25;
     max_iterations := 100;
     model_name := model;
     enable_thinking := Some false;
     reasoning_effort := Some "low";
     enable_context_manager := true;
     agent_config := ac;
     trace := None;
     is_agent_builder := Some false;
     target_agent_id := None |}.

(** The tool map [{sb_shell_tool: {enabled: false}, sb_files_tool: true}]. *)
Definition example_tools : dict :=
  [ ("sb_shell_tool", PDict [("enabled", PBool false)]);
    ("sb_files_tool", PBool true) ].

(** A runtime whose [json.loads] rejects every text, and whose string
    methods are the ASCII ones. *)
Definition no_json : PythonRuntime :=
  {| json_loads := fun _ => None;
     json_dumps_indent2 := fun _ => "{}";
     py_str := fun _ => "?";
     lower := ascii_lower;
     strip := ascii_strip;
     lower_on_ascii := fun _ _ => eq_refl;
     strip_on_ascii := fun _ _ => eq_refl |}.

(** A scripted outside world: a billing answer, and the values the
    successive [run_thread] calls return. *)
Record script := {
  billing : bool * string;
  replies : list (result response)
}.

Definition scripted : Services script :=
  {| check_billing_status :=
       fun _ w => (fst (billing (ext w)), snd (billing (ext w)), w);
     run_thread :=
       fun _ w =>
         match replies (ext w) with
         | [] => (Ok (RespStream StreamEnd), w)
         | r :: rest =>
             (r, {| messages := messages w;
                    ext := {| billing := billing (ext w); replies := rest |} |})
         end;
     get_account_id_from_thread := fun _ _ => Some "account-1";
     select_project := fun pid _ => [[("project_id", PStr pid)]];
     RAPID_API_KEY := None;
     get_profile_external_user_id := fun _ _ _ => None;
     mcp_initialize := fun _ _ => None;
     get_agent_knowledge_base_context := fun _ _ => None;
     get_system_prompt := "You are Suna.";
     get_agent_builder_prompt := "You are the agent builder.";
     sample_response := "<ask>Hello</ask>";
     now_utc := fun _ =>
       {| strftime_date := "Tuesday, November 03, 2026";
          strftime_time := "12:00:00 UTC";
          strftime_year := "2026";
          strftime_month := "November";
          strftime_weekday := "Tuesday" |} |}.

(** A world of the script: the stored messages, a billing answer and the
    replies of the engine. *)
Definition scripted_world (s : store) (b : bool * string)
  (rs : list (result response)) : World script :=
  {| messages := s; ext := {| billing := b; replies := rs |} |}.

(** A stored message of a thread. *)
Definition stored (id tid type : string) (c : pyval) (at_time : Z) : message :=
  {| message_id := id; row_thread_id := tid; row_type := type;
     content := c; created_at := at_time |}.

(** A runner over a configuration, as [setup] leaves it in the scripted
    world. *)
Definition runner_of (c : AgentConfig) : AgentRunner.runner :=
  {| AgentRunner.config := c;
     AgentRunner.thread_manager :=
       {| tm_trace := trace c;
          tm_is_agent_builder := optbool_truthy (is_agent_builder c);
          tm_target_agent_id := target_agent_id c;
          added_tools := [];
          mcp_tools := [] |};
     AgentRunner.account_id := "account-1" |}.

(** The runner of a default configuration with the limit [max]. *)
Definition example_runner (max : Z) : AgentRunner.runner :=
  runner_of
    {| thread_id := "thread-1";
       project_id := "project-1";
       stream := true;
       native_max_auto_continues := 25;
       max_iterations := max;
       model_name := "openai/gpt-5-mini";
       enable_thinking := Some false;
       reasoning_effort := Some "low";
       enable_context_manager := true;
       agent_config := None;
       trace := None;
       is_agent_builder := Some false;
       target_agent_id := None |}.

Definition system_message_example : pyval :=
  PDict [("role", PStr "system"); ("content", PStr "You are Suna.")].

(** An agent definition with one custom MCP of type [pipedream]. *)
Definition pipedream_agent : dict :=
  [("custom_mcps",
    PList [PDict [("name", PStr "Gmail"); ("customType", PStr "pipedream")]])].

(** An agent definition that switches the presentation umbrella off and
    one of its two tools on. *)
Definition presentation_off_agent : dict :=
  [("agentpress_tools",
    PDict [("sb_presentation_tool", PBool false);
           ("sb_presentation_outline_tool", PBool true)])].

(** The registry entries after the schemas of a wrapper are written in. *)
Definition splice_fold (entries : list (string * list ToolSchema))
  (tools : list (string * ToolSchema)) : list (string * ToolSchema) :=
  fold_left
    (fun tools entry =>
       fold_left (fun tools s => MCPManager.registry_set tools (fst entry) s)
                 (snd entry) tools)
    entries tools.

(** A world whose MCP servers initialise with one tool, for a wrapper
    over any descriptors. *)
Definition mcp_world_services : Services script :=
  {| check_billing_status := check_billing_status (Services := scripted);
     run_thread := run_thread (Services := scripted);
     get_account_id_from_thread := get_account_id_from_thread (Services := scripted);
     select_project := select_project (Services := scripted);
     RAPID_API_KEY := Some "key";
     get_profile_external_user_id := fun _ _ _ => Some (PStr "user-7");
     mcp_initialize := fun _ _ =>
       Some (true,
             [("search_mail",
               [ {| is_openapi := true;
                    schema := PDict [("function",
                                      PDict [("description", PStr "Search mail")])] |} ])]);
     get_agent_knowledge_base_context := fun _ _ => Some (PStr "Opening hours: 9-17");
     get_system_prompt := get_system_prompt (Services := scripted);
     get_agent_builder_prompt := get_agent_builder_prompt (Services := scripted);
     sample_response := sample_response (Services := scripted);
     now_utc := now_utc (Services := scripted) |}.



(** A pass of the loop reaches the engine: the billing check passes, the
    latest message is not from the assistant, and [run_thread], called
    with [args] on the world the temporary message leaves, returns [r]
    and the world [w']. *)
Definition pass_reaches_engine {RT : PythonRuntime} {Ext : Type} {SV : Services Ext}
  (self : AgentRunner.runner) (system_message : pyval) (w : World Ext)
  (args : run_thread_args) (r : result response) (w' : World Ext) : Prop :=
  exists m w1,
    check_billing_status (AgentRunner.account_id self) w = (true, m, w1)
    /\ match select_latest (messages w1) (thread_id (AgentRunner.config self))
               ["assistant"; "tool"; "user"] with
       | Some row => (row_type row =? "assistant")%string
       | None => false
       end = false
    /\ args = AgentRunner.thread_args (AgentRunner.config self) system_message
                (fst (MessageManager.build_temporary_message
                        (thread_id (AgentRunner.config self))
                        (model_name (AgentRunner.config self)) (messages w1)))
    /\ run_thread args
         (with_messages w1
            (snd (MessageManager.build_temporary_message
                    (thread_id (AgentRunner.config self))
                    (model_name (AgentRunner.config self)) (messages w1))))
       = (r, w').

(** The stream ends without raising. *)
Fixpoint stream_ends (s : chunk_stream) : bool :=
  match s with
  | StreamEnd => true
  | StreamChunk _ rest => stream_ends rest
  | StreamRaise _ => false
  end.

(** Every chunk of the stream is a dict. *)
Definition all_dicts (s : chunk_stream) : Prop :=
  forall chunk, In chunk (stream_chunks s) -> exists d, chunk = PDict d.

(** A status chunk that asks for the end of the run: its type is
    [status], its status is not [error], and its metadata, a dict or the
    JSON text of one, has a true [agent_should_terminate]. *)
Definition termination_signal {RT : PythonRuntime} (chunk : dict) : Prop :=
  dict_get chunk "type" = Some (PStr "status")
  /\ str_eq (dict_get_none chunk "status") "error" = false
  /\ exists metadata : dict,
       AgentRunner.loads_if_str (dict_get_default chunk "metadata" (PDict []))
       = Some (PDict metadata)
       /\ truthy (dict_get_none metadata "agent_should_terminate") = true.

(** An assistant chunk whose text holds a closing tag of a terminal tool. *)
Definition closing_tag_chunk {RT : PythonRuntime} (chunk : dict) : Prop :=
  exists text,
    assistant_text_of chunk text
    /\ (Substring "</ask>" text \/ Substring "</complete>" text
        \/ Substring "</web-browser-takeover>" text).

(** A stream of one assistant chunk whose content is not JSON. *)
Definition malformed_assistant_stream : chunk_stream :=
  StreamChunk (PDict [("type", PStr "assistant"); ("content", PStr "{oops")]) StreamEnd.

(** A stream of two assistant chunks, the first of which closes a
    [complete] call. *)
Definition closing_tag_stream : chunk_stream :=
  StreamChunk (PDict [("type", PStr "assistant");
                      ("content", PDict [("content", PStr "Done</complete>")])])
    (StreamChunk (PDict [("type", PStr "assistant");
                         ("content", PDict [("content", PStr "bye")])])
       StreamEnd).

(** The stream that gives the chunks [pre] and then goes on as [tail]. *)
Definition prepend_chunks (pre : list pyval) (tail : chunk_stream) : chunk_stream :=
  fold_right StreamChunk tail pre.

(** How a stream breaks with the exception [e]: its iterator raises [e],
    or its next chunk is not a dict and [chunk.get] raises [e]. *)
Definition stream_breaks (tail : chunk_stream) (e : exn) : Prop :=
  tail = StreamRaise e
  \/ exists v rest,
       tail = StreamChunk v rest /\ (forall d, v <> PDict d)
       /\ e = no_attribute v "get".

(** A stream of one assistant chunk without a closing tag. *)
Definition plain_text_stream : chunk_stream :=
  StreamChunk (PDict [("type", PStr "assistant");
                      ("content", PDict [("content", PStr "hello")])])
    StreamEnd.

(** A stream with an error chunk followed by a closed [complete] call. *)
Definition error_then_text_stream : chunk_stream :=
  StreamChunk (AgentRunner.status_chunk "error" "boom")
    (StreamChunk (PDict [("type", PStr "assistant");
                         ("content", PDict [("content", PStr "Done</complete>")])])
       StreamEnd).

(** The world of the script in which a user message waits for an answer
    and the engine has the replies [rs]. *)
Definition waiting_world (rs : list (result response)) : World script :=
  scripted_world [stored "m1" "thread-1" "user" (PStr "hello") 1] (true, "ok") rs.

(** A status chunk that asks for the end of the run and names the tool
    twice, under [function_name] and under [xml_tag_name]. *)
Definition named_termination_chunk : dict :=
  [("type", PStr "status");
   ("status", PStr "completed");
   ("metadata", PDict [("agent_should_terminate", PBool true)]);
   ("content", PDict [("xml_tag_name", PStr "ask"); ("function_name", PStr "complete")])].

(** The world of the script in which the user message is stored as the
    object [{"content": "hello"}]. *)
Definition object_message_world (rs : list (result response)) : World script :=
  scripted_world
    [stored "m1" "thread-1" "user" (PDict [("content", PStr "hello")]) 1]
    (true, "ok") rs.

(** The model name "KIMI-K2" written with the Kelvin sign (U+212A, the
    bytes 226 132 170) for its first letter. *)
Definition kelvin_name : string :=
  String (ascii_of_nat 226) (String (ascii_of_nat 132) (String (ascii_of_nat 170) "IMI-K2")).

(** A lower-casing that does to [kelvin_name] what [str.lower()] does,
    and is the ASCII one on every other text. *)
Definition kelvin_lower (s : string) : string :=
  if (s =? kelvin_name)%string then "kimi-k2" else ascii_lower s.

Definition kelvin_lower_on_ascii :
  forall s, is_ascii s = true -> kelvin_lower s = ascii_lower s.
Proof.
  intros s H. unfold kelvin_lower.
  destruct (String.eqb_spec s kelvin_name) as [-> | _]; [discriminate H | reflexivity].
Defined.

(** A runtime that lower-cases the Kelvin sign of [kelvin_name]. *)
Definition kelvin_runtime : PythonRuntime :=
  {| json_loads := fun _ => None;
     json_dumps_indent2 := fun _ => "{}";
     py_str := fun _ => "?";
     lower := kelvin_lower;
     strip := ascii_strip;
     lower_on_ascii := kelvin_lower_on_ascii;
     strip_on_ascii := fun _ _ => eq_refl |}.

(** The tool map [{sb_shell_tool: {enabled: null}}]. *)
Definition null_enabled_tools : dict :=
  [ ("sb_shell_tool", PDict [("enabled", PNone)]) ].

(** A runtime whose [json.loads] decodes the text of one JSON array and
    rejects every other text. *)
Definition list_json : PythonRuntime :=
  {| json_loads := fun s => if (s =? "[1, 2]")%string
                            then Some (PList [PInt 1; PInt 2]) else None;
     json_dumps_indent2 := fun _ => "{}";
     py_str := fun _ => "?";
     lower := ascii_lower;
     strip := ascii_strip;
     lower_on_ascii := fun _ _ => eq_refl;
     strip_on_ascii := fun _ _ => eq_refl |}.

(** A store whose only [image_context] row holds the text of a JSON
    array. *)
Definition array_image_context_store : store :=
  [ stored "m1" "thread-1" "user" (PStr "show me") 1;
    stored "m2" "thread-1" "image_context" (PStr "[1, 2]") 2 ].

(** * Properties *)

(** ** Strings *)

Lemma prefix_iff : forall needle hay,
  prefix needle hay = true <-> exists rest, hay = (needle ++ rest)%string.
Proof.
  induction needle as [|a needle IH]; intros hay.
  - split; [intros _; exists hay; reflexivity | destruct hay; reflexivity].
  - destruct hay as [|b hay]; simpl.
    + split; [discriminate | intros [rest H]; discriminate H].
    + destruct (ascii_dec a b) as [->|Hne].
      * rewrite IH. split; intros [rest H]; exists rest.
        -- now rewrite H.
        -- now injection H.
      * split; [discriminate | intros [rest H]; injection H; intros _ Hab; congruence].
Qed.

Lemma contains_iff : forall needle hay,
  contains needle hay = true <-> Substring needle hay.
Proof.
  intros needle hay; induction hay as [|c hay IH].
  - cbn [contains]. destruct (prefix needle EmptyString) eqn:Hp.
    + split; [intros _ | reflexivity].
      apply prefix_iff in Hp. destruct Hp as [rest Hp].
      exists EmptyString, rest. exact Hp.
    + split; [discriminate |].
      intros [before [after H]].
      destruct before; [| discriminate H].
      assert (prefix needle EmptyString = true) by (apply prefix_iff; exists after; exact H).
      congruence.
  - cbn [contains]. destruct (prefix needle (String c hay)) eqn:Hp.
    + split; [intros _ | reflexivity].
      apply prefix_iff in Hp. destruct Hp as [rest Hp].
      exists EmptyString, rest. exact Hp.
    + rewrite IH. split.
      * intros [before [after H]]. exists (String c before), after. simpl. now rewrite H.
      * intros [before [after H]]. destruct before as [|b before].
        -- assert (prefix needle (String c hay) = true)
             by (apply prefix_iff; exists after; exact H).
           congruence.
        -- simpl in H. injection H; intros H' _. exists before, after. exact H'.
Qed.

Lemma contains_false_iff : forall needle hay,
  contains needle hay = false <-> ~ Substring needle hay.
Proof.
  intros needle hay. rewrite <- contains_iff.
  destruct (contains needle hay); split; congruence.
Qed.

(** ** The token limit of a model (C4) *)

(** C4. [get_max_tokens] depends on the configuration through the
    lower-cased model name only, and looks for "sonnet", "gpt-4",
    "gemini-2.5-pro" and "kimi-k2" as substrings in that order, the first
    one found deciding: 8192, 4096, 64000, 8192, and [None] when none of
    the four occurs.  Lower-casing is Python's [str.lower()]; on ASCII
    names it makes the lookup blind to the case of the letters A to Z.
    "claude-3-sonnet" gives 8192, "gpt-4-turbo" 4096,
    "gemini-2.5-pro-exp" 64000, "anthropic/kimi-k2" 8192 and "gpt-5-mini"
    [None]. *)
Theorem get_max_tokens_lookup :
  forall RT : PythonRuntime,
  (forall c c' : AgentConfig,
      lower (model_name c) = lower (model_name c') ->
      get_max_tokens c = get_max_tokens c')
  /\ (forall c : AgentConfig,
        let m := lower (model_name c) in
        (Substring "sonnet" m -> get_max_tokens c = Some 8192)
        /\ (~ Substring "sonnet" m -> Substring "gpt-4" m ->
            get_max_tokens c = Some 4096)
        /\ (~ Substring "sonnet" m -> ~ Substring "gpt-4" m ->
            Substring "gemini-2.5-pro" m -> get_max_tokens c = Some 64000)
        /\ (~ Substring "sonnet" m -> ~ Substring "gpt-4" m ->
            ~ Substring "gemini-2.5-pro" m -> Substring "kimi-k2" m ->
            get_max_tokens c = Some 8192)
        /\ (~ Substring "sonnet" m -> ~ Substring "gpt-4" m ->
            ~ Substring "gemini-2.5-pro" m -> ~ Substring "kimi-k2" m ->
            get_max_tokens c = None))
  /\ (forall c : AgentConfig,
        (model_name c = "claude-3-sonnet" -> get_max_tokens c = Some 8192)
        /\ (model_name c = "gpt-4-turbo" -> get_max_tokens c = Some 4096)
        /\ (model_name c = "gemini-2.5-pro-exp" -> get_max_tokens c = Some 64000)
        /\ (model_name c = "anthropic/kimi-k2" -> get_max_tokens c = Some 8192)
        /\ (model_name c = "gpt-5-mini" -> get_max_tokens c = None))
  /\ (forall c c' : AgentConfig,
        is_ascii (model_name c) = true -> is_ascii (model_name c') = true ->
        ascii_lower (model_name c) = ascii_lower (model_name c') ->
        get_max_tokens c = get_max_tokens c').
Proof.
  intros RT. split; [| split; [| split]].
  - intros c c' H. unfold get_max_tokens. now rewrite H.
  - intros c m. unfold get_max_tokens. fold m.
    repeat split; intros;
      repeat match goal with
        | H : Substring _ _ |- _ => apply contains_iff in H; rewrite H
        | H : ~ Substring _ _ |- _ => apply contains_false_iff in H; rewrite H
        end; reflexivity.
  - intros c. unfold get_max_tokens.
    repeat split; intros ->; rewrite lower_on_ascii by reflexivity; reflexivity.
  - intros c c' Ha Ha' H. unfold get_max_tokens.
    now rewrite (lower_on_ascii _ Ha), (lower_on_ascii _ Ha'), H.
Qed.

Lemma get_max_tokens_lookup_witness :
  Substring "sonnet"
    (lower (PythonRuntime := no_json)
       (model_name (default_config "t" "p" "Claude-3-SONNET" None)))
  /\ get_max_tokens (RT := no_json) (default_config "t" "p" "Claude-3-SONNET" None)
     = Some 8192.
Proof.
  assert (H : Substring "sonnet"
                (lower (PythonRuntime := no_json)
                   (model_name (default_config "t" "p" "Claude-3-SONNET" None)))).
  { exists "claude-3-", EmptyString. reflexivity. }
  split; [exact H |].
  exact (proj1 (proj1 (proj2 (get_max_tokens_lookup no_json))
                  (default_config "t" "p" "Claude-3-SONNET" None)) H).
Defined.

(** A name that is not ASCII goes through [str.lower()] like any other:
    with the Kelvin sign for its first letter, "KIMI-K2" gets the limit
    of "kimi-k2". *)
Lemma get_max_tokens_kelvin_sign :
  is_ascii kelvin_name = false
  /\ get_max_tokens (RT := kelvin_runtime)
       (default_config "t" "p" kelvin_name None) = Some 8192.
Proof.
  split; reflexivity.
Qed.

(** ** The closing tags in assistant text (C3) *)

Ltac substr :=
  repeat match goal with
    | H : contains _ _ = true |- _ => apply contains_iff in H
    | H : contains _ _ = false |- _ => apply contains_false_iff in H
    end.

Lemma scan_closing_tags_priority : forall text st,
  Substring "</ask>" text \/ Substring "</complete>" text
  \/ Substring "</web-browser-takeover>" text ->
  (Substring "</ask>" text ->
   AgentRunner.last_tool_call (AgentRunner.scan_closing_tags text st) = PStr "ask")
  /\ (~ Substring "</ask>" text -> Substring "</complete>" text ->
      AgentRunner.last_tool_call (AgentRunner.scan_closing_tags text st) = PStr "complete")
  /\ (~ Substring "</ask>" text -> ~ Substring "</complete>" text ->
      AgentRunner.last_tool_call (AgentRunner.scan_closing_tags text st)
      = PStr "web-browser-takeover").
Proof.
  intros text st H. unfold AgentRunner.scan_closing_tags.
  destruct (contains "</ask>" text) eqn:Ha;
    destruct (contains "</complete>" text) eqn:Hc;
    destruct (contains "</web-browser-takeover>" text) eqn:Hw;
    substr; simpl; repeat split; intros; try reflexivity; tauto.
Qed.

Lemma handle_assistant_chunk :
  forall (RT : PythonRuntime) (chunk : dict) (text : string) st,
    assistant_text_of chunk text ->
    AgentRunner.handle_chunk (PDict chunk) st
    = Ok (AgentRunner.scan_closing_tags text (AgentRunner.add_full_response st text)).
Proof.
  intros RT chunk text st [Hty [inner [Hc Hin]]].
  unfold AgentRunner.handle_chunk, AgentRunner.is_error_chunk, as_dict, bind,
    dict_get_none, dict_get_default.
  rewrite Hty. simpl.
  assert (Hhas : dict_has chunk "content" = true).
  { unfold dict_has. destruct Hc as [-> | [s [-> _]]]; reflexivity. }
  rewrite Hhas. f_equal.
  unfold AgentRunner.process_assistant_chunk, dict_get_default.
  assert (Hl : AgentRunner.loads_if_str
                 match dict_get chunk "content" with
                 | Some v => v
                 | None => PStr "{}"
                 end = Some (PDict inner)).
  { destruct Hc as [-> | [s [-> Hs]]]; [reflexivity | exact Hs]. }
  rewrite Hl, Hin. reflexivity.
Qed.

(** C3. When the text extracted from an assistant chunk holds one of the
    closing tags [</ask>], [</complete>], [</web-browser-takeover>], the
    chunk sets [last_tool_call] by the order ask, complete,
    web-browser-takeover: to "ask" when [</ask>] occurs, to "complete"
    when [</complete>] occurs and [</ask>] does not, and to
    "web-browser-takeover" otherwise.  The text [a</ask>b</complete>]
    gives "ask". *)
Theorem closing_tag_priority :
  (forall (RT : PythonRuntime) (chunk : dict) (text : string) st,
      assistant_text_of chunk text ->
      Substring "</ask>" text \/ Substring "</complete>" text
      \/ Substring "</web-browser-takeover>" text ->
      exists st',
        AgentRunner.handle_chunk (PDict chunk) st = Ok st'
        /\ (Substring "</ask>" text -> AgentRunner.last_tool_call st' = PStr "ask")
        /\ (~ Substring "</ask>" text -> Substring "</complete>" text ->
            AgentRunner.last_tool_call st' = PStr "complete")
        /\ (~ Substring "</ask>" text -> ~ Substring "</complete>" text ->
            AgentRunner.last_tool_call st' = PStr "web-browser-takeover"))
  /\ (forall (RT : PythonRuntime) st,
        exists st',
          AgentRunner.handle_chunk
            (PDict [("type", PStr "assistant");
                    ("content", PDict [("content", PStr "a</ask>b</complete>")])]) st
          = Ok st'
          /\ AgentRunner.last_tool_call st' = PStr "ask").
Proof.
  split.
  - intros RT chunk text st Htext Hany.
    eexists. split; [apply handle_assistant_chunk; exact Htext |].
    apply scan_closing_tags_priority. exact Hany.
  - intros RT st. eexists. split; reflexivity.
Qed.

Lemma closing_tag_priority_witness :
  assistant_text_of (RT := no_json)
    [("type", PStr "assistant"); ("content", PDict [("content", PStr "done</complete>")])]
    "done</complete>"
  /\ (Substring "</ask>" "done</complete>" \/ Substring "</complete>" "done</complete>"
      \/ Substring "</web-browser-takeover>" "done</complete>")
  /\ exists st',
      AgentRunner.handle_chunk (RT := no_json)
        (PDict [("type", PStr "assistant");
                ("content", PDict [("content", PStr "done</complete>")])])
        AgentRunner.initial_stream_state = Ok st'
      /\ (~ Substring "</ask>" "done</complete>" -> Substring "</complete>" "done</complete>" ->
          AgentRunner.last_tool_call st' = PStr "complete").
Proof.
  assert (Ht : assistant_text_of (RT := no_json)
                 [("type", PStr "assistant");
                  ("content", PDict [("content", PStr "done</complete>")])]
                 "done</complete>").
  { split; [reflexivity |].
    exists [("content", PStr "done</complete>")]. split; [left |]; reflexivity. }
  assert (Hany : Substring "</ask>" "done</complete>"
                 \/ Substring "</complete>" "done</complete>"
                 \/ Substring "</web-browser-takeover>" "done</complete>").
  { right; left. exists "done", EmptyString. reflexivity. }
  split; [exact Ht | split; [exact Hany |]].
  destruct (proj1 closing_tag_priority no_json _ _ AgentRunner.initial_stream_state Ht Hany)
    as [st' [Hrun [_ [Hcomplete _]]]].
  exists st'. split; [exact Hrun | exact Hcomplete].
Defined.

(** ** The disabled tools of an agent definition (C9) *)

Lemma all_tools_not_presentation_parts : forall t,
  In t all_tools ->
  t <> "sb_presentation_outline_tool" /\ t <> "sb_presentation_tool_v2".
Proof.
  intros t H. simpl in H.
  repeat (destruct H as [<- | H]; [split; discriminate |]).
  contradiction.
Qed.

Lemma is_tool_enabled_false_iff : forall raw t,
  truthy (is_tool_enabled raw t) = false <-> resolves_disabled (dict_get raw t).
Proof.
  intros raw t. unfold is_tool_enabled, dict_get_default, resolves_disabled.
  destruct (dict_get raw t) as [[ | b | z | s | l | o] |]; simpl;
    try (split; [discriminate | intros [H | [o' [v [H _]]]]; discriminate H]).
  - split.
    + intros ->. left; reflexivity.
    + intros [H | [o' [v [H _]]]]; [now injection H | discriminate H].
  - destruct (dict_get o "enabled") as [v |] eqn:He; simpl.
    + split.
      * intros Hv. right. exists o, v. auto.
      * intros [H | [o' [v' [H [He' Hv]]]]]; [discriminate H |].
        injection H as <-. rewrite He in He'. injection He' as <-. exact Hv.
    + split; [discriminate |].
      intros [H | [o' [v' [H [He' _]]]]]; [discriminate H |].
      injection H as <-. rewrite He in He'. discriminate He'.
Qed.

Lemma disabled_tools_membership : forall (c : AgentConfig) (ac raw : dict) t,
  agent_config c = Some ac ->
  dict_get ac "agentpress_tools" = Some (PDict raw) ->
  In t all_tools ->
  (In t (_get_disabled_tools_from_config c) <-> truthy (is_tool_enabled raw t) = false).
Proof.
  intros c ac raw t Hc Hraw Ht. unfold _get_disabled_tools_from_config.
  rewrite Hc. destruct ac as [| kv ac']; [discriminate Hraw |].
  rewrite Hraw.
  destruct (truthy (dict_get_default (kv :: ac') "is_suna_default" (PBool false))
            && negb (truthy (PDict raw))) eqn:Hs.
  - apply andb_true_iff in Hs. destruct Hs as [_ Hs].
    destruct raw; [| discriminate Hs].
    split; [contradiction | discriminate].
  - set (disabled :=
           filter (fun tool_name => negb (truthy (is_tool_enabled raw tool_name))) all_tools).
    assert (Hd : In t disabled <-> truthy (is_tool_enabled raw t) = false).
    { unfold disabled. rewrite filter_In, negb_true_iff. tauto. }
    destruct (str_in "sb_presentation_tool" disabled); [| exact Hd].
    rewrite in_app_iff, Hd.
    destruct (all_tools_not_presentation_parts t Ht) as [H1 H2].
    split; [intros [H | H]; [exact H |] | tauto].
    simpl in H. destruct H as [H | [H | []]]; congruence.
Qed.

(** C9 as stated fails: the entry [{enabled: null}] is neither the
    boolean false nor an object with [enabled: false], and its tool is in
    the list of disabled tools. *)
Lemma null_enabled_entry_disables :
  In "sb_shell_tool" all_tools
  /\ ~ disabled_as_written (dict_get null_enabled_tools "sb_shell_tool")
  /\ In "sb_shell_tool"
       (_get_disabled_tools_from_config
          (default_config "t" "p" "openai/gpt-5-mini"
             (Some [("agentpress_tools", PDict null_enabled_tools)])))
  /\ ~ (In "sb_shell_tool"
          (_get_disabled_tools_from_config
             (default_config "t" "p" "openai/gpt-5-mini"
                (Some [("agentpress_tools", PDict null_enabled_tools)])))
        <-> disabled_as_written (dict_get null_enabled_tools "sb_shell_tool")).
Proof.
  assert (Hno : ~ disabled_as_written (dict_get null_enabled_tools "sb_shell_tool")).
  { intros [H | [o [H He]]]; [discriminate H |].
    injection H as <-. discriminate He. }
  assert (Hin : In "sb_shell_tool"
                  (_get_disabled_tools_from_config
                     (default_config "t" "p" "openai/gpt-5-mini"
                        (Some [("agentpress_tools", PDict null_enabled_tools)]))))
    by (left; reflexivity).
  split; [left; reflexivity | split; [exact Hno | split; [exact Hin |]]].
  intros [H _]. exact (Hno (H Hin)).
Qed.

(** C9, amended.  For a tool map [agentpress_tools], a known tool is in
    the list of disabled tools exactly when its entry switches it off:
    the entry is the boolean false, or an object whose [enabled] value is
    false for Python's truth test (false, and also null, 0 and the empty
    string, list and object).  A tool whose entry is absent, is neither a
    boolean nor an object, or is an object without [enabled], is not in
    the list.  The map [{sb_shell_tool: {enabled: false},
    sb_files_tool: true}] gives the list with [sb_shell_tool] alone. *)
Theorem disabled_tools_from_config :
  forall (c : AgentConfig) (ac raw : dict),
    agent_config c = Some ac ->
    dict_get ac "agentpress_tools" = Some (PDict raw) ->
    (forall t, In t all_tools ->
       (In t (_get_disabled_tools_from_config c) <-> resolves_disabled (dict_get raw t)))
    /\ (forall t, In t all_tools -> disabled_as_written (dict_get raw t) ->
        In t (_get_disabled_tools_from_config c))
    /\ (forall t, In t all_tools -> absent_or_malformed (dict_get raw t) ->
        ~ In t (_get_disabled_tools_from_config c))
    /\ (raw = example_tools -> _get_disabled_tools_from_config c = ["sb_shell_tool"]).
Proof.
  intros c ac raw Hc Hraw.
  assert (Hiff : forall t, In t all_tools ->
            (In t (_get_disabled_tools_from_config c)
             <-> resolves_disabled (dict_get raw t))).
  { intros t Ht. rewrite (disabled_tools_membership c ac raw t Hc Hraw Ht).
    apply is_tool_enabled_false_iff. }
  split; [exact Hiff | split; [| split]].
  - intros t Ht [H | [o [H He]]]; apply (Hiff t Ht).
    + left; exact H.
    + right. exists o, (PBool false). auto.
  - intros t Ht Hm Hin. apply (Hiff t Ht) in Hin.
    destruct Hin as [H | [o [v [H [He _]]]]]; rewrite H in Hm; simpl in Hm;
      [contradiction | congruence].
  - intros ->. unfold _get_disabled_tools_from_config.
    rewrite Hc. destruct ac as [| kv ac']; [discriminate Hraw |].
    rewrite Hraw. rewrite andb_false_r. reflexivity.
Qed.

Lemma disabled_tools_from_config_witness :
  agent_config (default_config "t" "p" "openai/gpt-5-mini"
                  (Some [("agentpress_tools", PDict example_tools)]))
  = Some [("agentpress_tools", PDict example_tools)]
  /\ dict_get [("agentpress_tools", PDict example_tools)] "agentpress_tools"
     = Some (PDict example_tools)
  /\ _get_disabled_tools_from_config
       (default_config "t" "p" "openai/gpt-5-mini"
          (Some [("agentpress_tools", PDict example_tools)]))
     = ["sb_shell_tool"].
Proof.
  split; [reflexivity | split; [reflexivity |]].
  exact (proj2 (proj2 (proj2
           (disabled_tools_from_config
              (default_config "t" "p" "openai/gpt-5-mini"
                 (Some [("agentpress_tools", PDict example_tools)]))
              [("agentpress_tools", PDict example_tools)] example_tools
              eq_refl eq_refl))) eq_refl).
Defined.

(** ** The run loop *)

Import AgentRunner.

Section LoopFacts.
Context {RT : PythonRuntime} {Ext : Type} {SV : Services Ext}.

Lemma run_loop_enter : forall fuel self system_message n w,
  n < max_iterations (config self) ->
  run_loop (S fuel) self system_message n true w
  = match loop_body self system_message true w with
    | (evs, Break, continue_execution, w) =>
        Some (evs, {| iteration_count := n + 1;
                      continue_execution := continue_execution;
                      left_by_break := true;
                      self_after := self;
                      world_after := w |})
    | (evs, BodyEnd, continue_execution, w) =>
        match run_loop fuel self system_message (n + 1) continue_execution w with
        | Some (evs', ex) => Some ((evs ++ evs')%list, ex)
        | None => None
        end
    end.
Proof.
  intros fuel self system_message n w Hn.
  cbn [run_loop]. apply Z.ltb_lt in Hn. rewrite Hn. reflexivity.
Qed.

Lemma run_loop_exit : forall fuel self system_message n continue_execution w,
  continue_execution = false \/ max_iterations (config self) <= n ->
  run_loop fuel self system_message n continue_execution w
  = Some ([], {| iteration_count := n;
                 continue_execution := continue_execution;
                 left_by_break := false;
                 self_after := self;
                 world_after := w |}).
Proof.
  intros fuel self system_message n c w H.
  assert (Hc : c && (n <? max_iterations (config self)) = false).
  { destruct H as [-> | H]; [reflexivity |].
    apply Z.ltb_ge in H. rewrite H. apply andb_false_r. }
  destruct fuel; cbn [run_loop]; rewrite Hc; reflexivity.
Qed.

Lemma loop_body_billing_rejected : forall self system_message c w message w',
  check_billing_status (account_id self) w = (false, message, w') ->
  loop_body self system_message c w
  = ([EvYield (status_chunk "stopped" ("Billing limit reached: " ++ message))],
     Break, c, w').
Proof.
  intros self system_message c w message w' H.
  unfold loop_body. rewrite H. reflexivity.
Qed.

Lemma loop_body_assistant_last : forall self system_message c w message w' row,
  check_billing_status (account_id self) w = (true, message, w') ->
  select_latest (messages w') (thread_id (config self)) ["assistant"; "tool"; "user"]
  = Some row ->
  row_type row = "assistant" ->
  loop_body self system_message c w = ([], Break, false, w').
Proof.
  intros self system_message c w message w' row Hb Hl Ht.
  unfold loop_body. rewrite Hb. cbn [negb]. rewrite Hl, Ht. reflexivity.
Qed.

End LoopFacts.

(** ** Billing rejection (C5) *)

(** C5. On a pass of the loop on which the billing check answers
    [can_run = False] with message [m], the run yields one more chunk,
    [{"type": "status", "status": "stopped",
      "message": "Billing limit reached: " + m}], and ends: the events
    from that pass on are this one yield, with no [run_thread] call, and
    the loop is left by [break]. *)
Theorem billing_rejection_stops_run :
  forall (RT : PythonRuntime) (Ext : Type) (SV : Services Ext)
         fuel self system_message n (w w' : World Ext) m,
    n < max_iterations (config self) ->
    check_billing_status (account_id self) w = (false, m, w') ->
    run_loop (S fuel) self system_message n true w
    = Some ([EvYield (PDict [("type", PStr "status");
                             ("status", PStr "stopped");
                             ("message", PStr ("Billing limit reached: " ++ m))])],
            {| iteration_count := n + 1;
               continue_execution := true;
               left_by_break := true;
               self_after := self;
               world_after := w' |}).
Proof.
  intros RT Ext SV fuel self system_message n w w' m Hn Hb.
  rewrite (run_loop_enter fuel self system_message n w Hn).
  rewrite (loop_body_billing_rejected self system_message true w m w' Hb).
  reflexivity.
Qed.

Lemma billing_rejection_stops_run_witness :
  0 < max_iterations (config (example_runner 3))
  /\ check_billing_status (Services := scripted) (account_id (example_runner 3))
       (scripted_world [] (false, "quota exceeded") [])
     = (false, "quota exceeded", scripted_world [] (false, "quota exceeded") [])
  /\ agent_loop (RT := no_json) (SV := scripted) (example_runner 3) system_message_example
       (scripted_world [] (false, "quota exceeded") [])
     = Some ([EvYield (PDict [("type", PStr "status");
                              ("status", PStr "stopped");
                              ("message", PStr "Billing limit reached: quota exceeded")])],
             {| iteration_count := 1;
                continue_execution := true;
                left_by_break := true;
                self_after := example_runner 3;
                world_after := scripted_world [] (false, "quota exceeded") [] |}).
Proof.
  split; [reflexivity | split; [reflexivity |]].
  apply (billing_rejection_stops_run no_json script scripted 2 (example_runner 3)
           system_message_example 0
           (scripted_world [] (false, "quota exceeded") [])
           (scripted_world [] (false, "quota exceeded") [])
           "quota exceeded");
    reflexivity.
Defined.

(** ** A finished turn is not continued (C1) *)

(** C1. On a pass of the loop on which the billing check passes and the
    most recent stored message of type assistant, tool or user of the
    thread has type "assistant", the run stops: the events from that pass
    on are empty, so [run_thread] is called neither on that pass nor
    later, and the loop is left with [continue_execution = False]. *)
Theorem assistant_last_message_stops_run :
  forall (RT : PythonRuntime) (Ext : Type) (SV : Services Ext)
         fuel self system_message n (w w' : World Ext) m row,
    n < max_iterations (config self) ->
    check_billing_status (account_id self) w = (true, m, w') ->
    select_latest (messages w') (thread_id (config self)) ["assistant"; "tool"; "user"]
    = Some row ->
    row_type row = "assistant" ->
    exists evs ex,
      run_loop (S fuel) self system_message n true w = Some (evs, ex)
      /\ evs = []
      /\ (forall args returned, ~ In (EvRunThread args returned) evs)
      /\ iteration_count ex = n + 1
      /\ left_by_break ex = true
      /\ continue_execution ex = false
      /\ world_after ex = w'.
Proof.
  intros RT Ext SV fuel self system_message n w w' m row Hn Hb Hl Ht.
  rewrite (run_loop_enter fuel self system_message n w Hn).
  rewrite (loop_body_assistant_last self system_message true w m w' row Hb Hl Ht).
  eexists; eexists. split; [reflexivity |].
  cbn. repeat split; auto.
Qed.

Lemma assistant_last_message_stops_run_witness :
  0 < max_iterations (config (example_runner 3))
  /\ check_billing_status (Services := scripted) (account_id (example_runner 3))
       (scripted_world
          [stored "m1" "thread-1" "user" (PStr "hello") 1;
           stored "m2" "thread-1" "assistant" (PStr "hi") 2]
          (true, "ok") [])
     = (true, "ok",
        scripted_world
          [stored "m1" "thread-1" "user" (PStr "hello") 1;
           stored "m2" "thread-1" "assistant" (PStr "hi") 2]
          (true, "ok") [])
  /\ select_latest
       [stored "m1" "thread-1" "user" (PStr "hello") 1;
        stored "m2" "thread-1" "assistant" (PStr "hi") 2]
       "thread-1" ["assistant"; "tool"; "user"]
     = Some (stored "m2" "thread-1" "assistant" (PStr "hi") 2)
  /\ exists evs ex,
      agent_loop (RT := no_json) (SV := scripted) (example_runner 3) system_message_example
        (scripted_world
           [stored "m1" "thread-1" "user" (PStr "hello") 1;
            stored "m2" "thread-1" "assistant" (PStr "hi") 2]
           (true, "ok") [])
      = Some (evs, ex)
      /\ evs = []
      /\ (forall args returned, ~ In (EvRunThread args returned) evs)
      /\ iteration_count ex = 0 + 1
      /\ left_by_break ex = true
      /\ continue_execution ex = false
      /\ world_after ex
         = scripted_world
             [stored "m1" "thread-1" "user" (PStr "hello") 1;
              stored "m2" "thread-1" "assistant" (PStr "hi") 2]
             (true, "ok") [].
Proof.
  split; [reflexivity | split; [reflexivity | split; [reflexivity |]]].
  apply (assistant_last_message_stops_run no_json script scripted 2 (example_runner 3)
           system_message_example 0 _ _ "ok"
           (stored "m2" "thread-1" "assistant" (PStr "hi") 2));
    reflexivity.
Defined.

(** ** The iteration limit (C2) *)

Section LimitFacts.
Context {RT : PythonRuntime} {Ext : Type} {SV : Services Ext}.

Lemma consume_stream_ok : forall s st yielded st',
  consume_stream s st = (yielded, Ok st') -> yielded = stream_chunks s.
Proof.
  induction s as [| chunk rest IH | e]; intros st yielded st' H; simpl in H.
  - now inversion H.
  - destruct (handle_chunk chunk st) as [st1 | e]; [| discriminate H].
    destruct (consume_stream rest st1) as [ys r] eqn:Hrest.
    inversion H; subst. simpl. f_equal. eapply IH. exact Hrest.
  - discriminate H.
Qed.

Lemma run_thread_calls_app : forall evs evs',
  run_thread_calls (evs ++ evs') = (run_thread_calls evs + run_thread_calls evs')%nat.
Proof.
  induction evs as [| [args r | chunk] evs IH]; intros evs'; simpl;
    rewrite ?IH; reflexivity.
Qed.

Lemma run_thread_calls_yields : forall chunks,
  run_thread_calls (map EvYield chunks) = 0%nat.
Proof. induction chunks; simpl; auto. Qed.

Lemma after_run_thread_yields_only : forall r c evs ctl c',
  after_run_thread r c = (evs, ctl, c') -> run_thread_calls evs = 0%nat.
Proof.
  intros r c evs ctl c' H. unfold after_run_thread in H.
  destruct r as [[s | v] | e].
  - destruct (consume_stream s initial_stream_state) as [ys [st | e]].
    + destruct (error_detected st);
        [| destruct (agent_should_terminate st || is_terminal_tool (last_tool_call st))];
        inversion H; apply run_thread_calls_yields.
    + inversion H. rewrite run_thread_calls_app, run_thread_calls_yields. reflexivity.
  - destruct (is_error_response (RespValue v)); inversion H; reflexivity.
  - inversion H. reflexivity.
Qed.

Lemma after_run_thread_body_end : forall r c evs c',
  after_run_thread r c = (evs, BodyEnd, c') ->
  exists s, r = Ok (RespStream s) /\ evs = map EvYield (stream_chunks s).
Proof.
  intros r c evs c' H. unfold after_run_thread in H.
  destruct r as [[s | v] | e].
  - destruct (consume_stream s initial_stream_state) as [ys [st | e]] eqn:Hs.
    + exists s. split; [reflexivity |].
      rewrite <- (consume_stream_ok _ _ _ _ Hs).
      destruct (error_detected st);
        [| destruct (agent_should_terminate st || is_terminal_tool (last_tool_call st))];
        now inversion H.
    + discriminate H.
  - destruct (is_error_response (RespValue v)); discriminate H.
  - discriminate H.
Qed.

Lemma loop_body_calls : forall self system_message c w evs ctl c' w',
  loop_body self system_message c w = (evs, ctl, c', w') ->
  (run_thread_calls evs <= 1)%nat.
Proof.
  intros self system_message c w evs ctl c' w' H. unfold loop_body in H.
  destruct (check_billing_status (account_id self) w) as [[can_run message] w1].
  destruct can_run; cbn [negb] in H; [| inversion H; simpl; lia].
  destruct (match select_latest (messages w1) (thread_id (config self))
                    ["assistant"; "tool"; "user"] with
            | Some row => (row_type row =? "assistant")%string
            | None => false
            end); [inversion H; simpl; lia |].
  destruct (MessageManager.build_temporary_message (thread_id (config self))
              (model_name (config self)) (messages w1)) as [tmp s1].
  destruct (run_thread (thread_args (config self) system_message tmp)
              (with_messages w1 s1)) as [r w3].
  destruct (after_run_thread r c) as [[evs1 ctl1] c1] eqn:Ha.
  inversion H; subst. simpl.
  rewrite (after_run_thread_yields_only _ _ _ _ _ Ha). lia.
Qed.

Lemma loop_body_body_end : forall self system_message c w evs c' w',
  loop_body self system_message c w = (evs, BodyEnd, c', w') ->
  exists args s,
    evs = EvRunThread args (Ok (RespStream s)) :: map EvYield (stream_chunks s).
Proof.
  intros self system_message c w evs c' w' H. unfold loop_body in H.
  destruct (check_billing_status (account_id self) w) as [[can_run message] w1].
  destruct can_run; cbn [negb] in H; [| discriminate H].
  destruct (match select_latest (messages w1) (thread_id (config self))
                    ["assistant"; "tool"; "user"] with
            | Some row => (row_type row =? "assistant")%string
            | None => false
            end); [discriminate H |].
  destruct (MessageManager.build_temporary_message (thread_id (config self))
              (model_name (config self)) (messages w1)) as [tmp s1].
  destruct (run_thread (thread_args (config self) system_message tmp)
              (with_messages w1 s1)) as [r w3].
  destruct (after_run_thread r c) as [[evs1 ctl1] c1] eqn:Ha.
  inversion H; subst.
  destruct (after_run_thread_body_end _ _ _ _ Ha) as [s [-> ->]].
  eexists; eexists; reflexivity.
Qed.

(** The loop from any state: it ends within the passes the limit leaves,
    the counter never passes the limit it started under, and a loop that
    ends because its condition fails with [continue_execution] still true
    has reached the limit after passes that only relayed. *)
Lemma run_loop_bounded : forall fuel self system_message n c w,
  (Z.to_nat (max_iterations (config self) - n) <= fuel)%nat ->
  exists evs ex,
    run_loop fuel self system_message n c w = Some (evs, ex)
    /\ n <= iteration_count ex <= Z.max n (max_iterations (config self))
    /\ Z.of_nat (run_thread_calls evs) <= iteration_count ex - n
    /\ (left_by_break ex = false -> continue_execution ex = true ->
        max_iterations (config self) <= iteration_count ex /\ relayed_only evs).
Proof.
  induction fuel as [| fuel IH]; intros self system_message n c w Hfuel.
  - assert (H : c = false \/ max_iterations (config self) <= n) by (right; lia).
    rewrite (run_loop_exit _ _ _ _ _ w H).
    eexists; eexists; split; [reflexivity |]. cbn.
    repeat split; try lia. constructor.
  - destruct c.
    2:{ rewrite (run_loop_exit _ self system_message n false w (or_introl eq_refl)).
        eexists; eexists; split; [reflexivity |]. cbn.
        repeat split; try lia; discriminate. }
    destruct (Z_lt_le_dec n (max_iterations (config self))) as [Hn | Hn].
    2:{ rewrite (run_loop_exit _ self system_message n true w (or_intror Hn)).
        eexists; eexists; split; [reflexivity |]. cbn.
        repeat split; try lia. constructor. }
    rewrite (run_loop_enter fuel self system_message n w Hn).
    destruct (loop_body self system_message true w) as [[[evs ctl] c'] w'] eqn:Hbody.
    pose proof (loop_body_calls _ _ _ _ _ _ _ _ Hbody) as Hcalls.
    destruct ctl.
    + destruct (IH self system_message (n + 1) c' w') as [evs' [ex [Hrun [Hlo [Hc Hlim]]]]];
        [lia |].
      rewrite Hrun. eexists; eexists; split; [reflexivity |].
      rewrite run_thread_calls_app.
      repeat split; try lia.
      * apply Hlim; assumption.
      * destruct (loop_body_body_end _ _ _ _ _ _ _ Hbody) as [args [s ->]].
        constructor. apply Hlim; assumption.
    + eexists; eexists; split; [reflexivity |]. cbn.
      repeat split; try lia; discriminate.
Qed.

End LimitFacts.

(** C2. For every limit [max_iterations = N] the loop of a run ends and
    its counter, which starts at 0 and is incremented once at the start
    of each pass, never exceeds [N]: it ends between 0 and [N] (for a
    negative [N] no pass runs and it stays 0), and [run_thread] is called
    at most as often as the counter says.  When the run stops because the
    limit is reached (the loop condition fails while [continue_execution]
    is still true) the counter has reached [N] and the run only relayed:
    each pass is a [run_thread] call followed by the chunks of the stream
    it returned, so no chunk about the limit is yielded. *)
Theorem iteration_count_bounded :
  forall (RT : PythonRuntime) (Ext : Type) (SV : Services Ext)
         self system_message (w : World Ext),
    exists evs ex,
      agent_loop self system_message w = Some (evs, ex)
      /\ 0 <= iteration_count ex <= Z.max 0 (max_iterations (config self))
      /\ (0 <= max_iterations (config self) ->
          iteration_count ex <= max_iterations (config self))
      /\ Z.of_nat (run_thread_calls evs) <= iteration_count ex
      /\ (left_by_break ex = false -> continue_execution ex = true ->
          iteration_count ex = Z.max 0 (max_iterations (config self))
          /\ relayed_only evs).
Proof.
  intros RT Ext SV self system_message w. unfold agent_loop.
  destruct (run_loop_bounded (Z.to_nat (max_iterations (config self)))
              self system_message 0 true w)
    as [evs [ex [Hrun [Hlo [Hc Hlim]]]]]; [lia |].
  exists evs, ex. split; [exact Hrun |].
  repeat split; try lia.
  - specialize (Hlim H H0). lia.
  - apply Hlim; assumption.
Qed.

Lemma iteration_count_bounded_witness :
  0 <= max_iterations (config (example_runner 2))
  /\ exists evs ex,
      agent_loop (RT := no_json) (SV := scripted) (example_runner 2) system_message_example
        (scripted_world [stored "m1" "thread-1" "user" (PStr "hello") 1] (true, "ok")
           [Ok (RespStream (StreamChunk (PDict [("type", PStr "tool")]) StreamEnd))])
      = Some (evs, ex)
      /\ iteration_count ex <= max_iterations (config (example_runner 2))
      /\ (left_by_break ex = false -> continue_execution ex = true ->
          iteration_count ex = Z.max 0 (max_iterations (config (example_runner 2)))
          /\ relayed_only evs).
Proof.
  assert (H0 : 0 <= max_iterations (config (example_runner 2))) by (cbn; lia).
  split; [exact H0 |].
  destruct (iteration_count_bounded no_json script scripted (example_runner 2)
              system_message_example
              (scripted_world [stored "m1" "thread-1" "user" (PStr "hello") 1] (true, "ok")
                 [Ok (RespStream (StreamChunk (PDict [("type", PStr "tool")]) StreamEnd))]))
    as [evs [ex [Hrun [_ [Hle [_ Hlim]]]]]].
  exists evs, ex. split; [exact Hrun | split; [exact (Hle H0) | exact Hlim]].
Defined.

(** ** A response that is neither an error dict nor a stream (C6) *)

(** C6, as the code has it.  On a pass on which [run_thread] returns a
    value that has no [__aiter__] (or is a dict) and is not an
    error-shaped dict, the loop is left by [break] after the call and
    nothing is yielded: the run ends without a status chunk. *)
Theorem non_stream_response_ends_silently :
  forall (RT : PythonRuntime) (Ext : Type) (SV : Services Ext)
         fuel self system_message n (w w1 w2 : World Ext) m v,
    n < max_iterations (config self) ->
    check_billing_status (account_id self) w = (true, m, w1) ->
    match select_latest (messages w1) (thread_id (config self))
            ["assistant"; "tool"; "user"] with
    | Some row => (row_type row =? "assistant")%string
    | None => false
    end = false ->
    (let built :=
       MessageManager.build_temporary_message
         (thread_id (config self)) (model_name (config self)) (messages w1) in
     run_thread (thread_args (config self) system_message (fst built))
       (with_messages w1 (snd built)) = (Ok (RespValue v), w2)) ->
    is_error_response (RespValue v) = false ->
    exists args ex,
      run_loop (S fuel) self system_message n true w
      = Some ([EvRunThread args (Ok (RespValue v))], ex)
      /\ left_by_break ex = true
      /\ (forall chunk, ~ In (EvYield chunk) [EvRunThread args (Ok (RespValue v))]).
Proof.
  intros RT Ext SV fuel self system_message n w w1 w2 m v Hn Hb Hl Hr He.
  rewrite (run_loop_enter fuel self system_message n w Hn).
  unfold loop_body. rewrite Hb. cbn [negb]. rewrite Hl.
  cbv zeta in Hr.
  destruct (MessageManager.build_temporary_message (thread_id (config self))
              (model_name (config self)) (messages w1)) as [tmp s1].
  cbn [fst snd] in Hr. rewrite Hr.
  unfold after_run_thread. rewrite He.
  eexists; eexists. split; [reflexivity |]. split; [reflexivity |].
  intros chunk [H | []]. discriminate H.
Qed.

Lemma non_stream_response_ends_silently_witness :
  exists args ex,
    agent_loop (RT := no_json) (SV := scripted) (example_runner 3) system_message_example
      (scripted_world [stored "m1" "thread-1" "user" (PStr "hello") 1] (true, "ok")
         [Ok (RespValue PNone)])
    = Some ([EvRunThread args (Ok (RespValue PNone))], ex)
    /\ left_by_break ex = true
    /\ (forall chunk, ~ In (EvYield chunk) [EvRunThread args (Ok (RespValue PNone))]).
Proof.
  apply (non_stream_response_ends_silently no_json script scripted 2 (example_runner 3)
           system_message_example 0
           (scripted_world [stored "m1" "thread-1" "user" (PStr "hello") 1] (true, "ok")
              [Ok (RespValue PNone)])
           (scripted_world [stored "m1" "thread-1" "user" (PStr "hello") 1] (true, "ok")
              [Ok (RespValue PNone)])
           (scripted_world [stored "m1" "thread-1" "user" (PStr "hello") 1] (true, "ok") [])
           "ok" PNone);
    reflexivity.
Defined.

(** The other ways a pass leaves the loop by [break]: each yields a chunk
    with status "error" or "stopped", except the stop on a finished turn
    and the response without a stream above. *)

Section BreakFacts.
Context {RT : PythonRuntime} {Ext : Type} {SV : Services Ext}.

Ltac case_matches :=
  repeat (match goal with
          | |- context [match ?x with _ => _ end] => destruct x
          end; try reflexivity).

Lemma process_status_chunk_error : forall d st,
  error_detected (process_status_chunk d st) = error_detected st.
Proof. intros d st. unfold process_status_chunk. case_matches. Qed.

Lemma process_assistant_chunk_error : forall d st,
  error_detected (process_assistant_chunk d st) = error_detected st.
Proof.
  intros d st. unfold process_assistant_chunk, scan_closing_tags. case_matches.
Qed.

Lemma handle_chunk_error : forall chunk st st',
  handle_chunk chunk st = Ok st' ->
  is_error_chunk chunk = false ->
  error_detected st' = error_detected st.
Proof.
  intros chunk st st' H He. unfold handle_chunk in H. rewrite He in H.
  destruct chunk as [ | b | z | s | l | d]; try discriminate H.
  cbn [as_dict bind] in H. inversion H.
  destruct (str_eq (dict_get_none d "type") "status");
    destruct (str_eq (dict_get_none d "type") "assistant" && dict_has d "content");
    rewrite ?process_assistant_chunk_error, ?process_status_chunk_error; reflexivity.
Qed.

Lemma consume_stream_error : forall s st yielded st',
  consume_stream s st = (yielded, Ok st') ->
  error_detected st' = true ->
  error_detected st = true
  \/ exists chunk, In chunk yielded /\ is_error_chunk chunk = true.
Proof.
  induction s as [| chunk rest IH | e]; intros st yielded st' H Herr; simpl in H.
  - inversion H; subst. now left.
  - destruct (handle_chunk chunk st) as [st1 | e] eqn:Hh; [| discriminate H].
    destruct (consume_stream rest st1) as [ys r] eqn:Hrest.
    inversion H; subst.
    destruct (IH _ _ _ Hrest Herr) as [H1 | [c [Hin Hc]]].
    + destruct (is_error_chunk chunk) eqn:Hec.
      * right. exists chunk. split; [now left | exact Hec].
      * left. now rewrite <- (handle_chunk_error _ _ _ Hh Hec).
    + right. exists c. split; [now right | exact Hc].
  - discriminate H.
Qed.

Lemma error_chunk_carries_status : forall chunk,
  is_error_chunk chunk = true -> carries_status chunk = true.
Proof.
  intros [ | b | z | s | l | d] H; try discriminate H.
  simpl in *. apply andb_true_iff in H. destruct H as [_ H]. now rewrite H.
Qed.

Lemma break_exits : forall self system_message c w evs c' w',
  loop_body self system_message c w = (evs, Break, c', w') ->
  (exists chunk, In (EvYield chunk) evs /\ carries_status chunk = true)
  \/ (evs = [] /\ c' = false)
  \/ (exists args v, evs = [EvRunThread args (Ok (RespValue v))]
                     /\ is_error_response (RespValue v) = false).
Proof.
  intros self system_message c w evs c' w' H. unfold loop_body in H.
  destruct (check_billing_status (account_id self) w) as [[can_run message] w1].
  destruct can_run; cbn [negb] in H.
  2:{ inversion H. left.
      exists (status_chunk "stopped" ("Billing limit reached: " ++ message)).
      split; [left; reflexivity | reflexivity]. }
  destruct (match select_latest (messages w1) (thread_id (config self))
                    ["assistant"; "tool"; "user"] with
            | Some row => (row_type row =? "assistant")%string
            | None => false
            end).
  { inversion H. right; left. split; reflexivity. }
  destruct (MessageManager.build_temporary_message (thread_id (config self))
              (model_name (config self)) (messages w1)) as [tmp s1].
  destruct (run_thread (thread_args (config self) system_message tmp)
              (with_messages w1 s1)) as [r w3].
  destruct (after_run_thread r c) as [[evs1 ctl1] c1] eqn:Ha.
  inversion H; subst. clear H.
  unfold after_run_thread in Ha.
  destruct r as [[s | v] | e].
  - destruct (consume_stream s initial_stream_state) as [ys [st | e]] eqn:Hs.
    + destruct (error_detected st) eqn:Herr.
      * inversion Ha; subst.
        destruct (consume_stream_error _ _ _ _ Hs Herr) as [H0 | [chunk [Hin Hc]]];
          [discriminate H0 |].
        left. exists chunk. split; [| now apply error_chunk_carries_status].
        right. apply in_map. exact Hin.
      * destruct (agent_should_terminate st || is_terminal_tool (last_tool_call st));
          discriminate Ha.
    + inversion Ha. left.
      exists (status_chunk "error" ("Error during response streaming: " ++ exn_msg e)).
      split; [| reflexivity].
      right. apply in_or_app. right. left. reflexivity.
  - destruct (is_error_response (RespValue v)) eqn:He; inversion Ha; subst.
    + left. exists v. split; [right; left; reflexivity |].
      destruct v as [ | b | z | s | l | d]; try discriminate He.
      simpl in *. apply andb_true_iff in He. destruct He as [_ He]. now rewrite He.
    + right; right. eexists; eexists. split; [reflexivity | exact He].
  - inversion Ha. left.
    exists (status_chunk "error" ("Error running thread: " ++ exn_msg e)).
    split; [right; left; reflexivity | reflexivity].
Qed.

End BreakFacts.

(** ** The image-context row is consumed (C10) *)

Lemma newest_In : forall rows row, newest rows = Some row -> In row rows.
Proof.
  induction rows as [| r rows IH]; intros row H; simpl in H; [discriminate H |].
  destruct (newest rows) as [r' |].
  - destruct (created_at r <? created_at r'); injection H as <-.
    + right. apply IH. reflexivity.
    + left. reflexivity.
  - injection H as <-. left. reflexivity.
Qed.

Lemma select_latest_In : forall s tid types row,
  select_latest s tid types = Some row ->
  In row s /\ row_thread_id row = tid /\ In (row_type row) types.
Proof.
  intros s tid types row H. unfold select_latest in H.
  apply newest_In in H. apply filter_In in H. destruct H as [Hin Hf].
  apply andb_true_iff in Hf. destruct Hf as [Ht Hty].
  split; [exact Hin | split].
  - now apply String.eqb_eq.
  - unfold str_in in Hty. apply existsb_exists in Hty.
    destruct Hty as [y [Hy Heq]]. apply String.eqb_eq in Heq. now subst.
Qed.

Lemma image_context_content_parsed : forall (RT : PythonRuntime) c d,
  parses_as RT c d -> MessageManager.image_context_content c = Some d.
Proof.
  intros RT c d [-> | [text [-> H]]]; simpl; [reflexivity | now rewrite H].
Qed.

(** C10 as stated fails: the content "[1, 2]" of an [image_context] row
    parses as JSON, to an array; reading [base64] from it raises inside
    the [try], before the delete, and the row stays in the store. *)
Lemma json_array_image_context_stays :
  json_loads (PythonRuntime := list_json) "[1, 2]" = Some (PList [PInt 1; PInt 2])
  /\ select_latest array_image_context_store "thread-1" ["image_context"]
     = Some (stored "m2" "thread-1" "image_context" (PStr "[1, 2]") 2)
  /\ MessageManager.build_temporary_message (RT := list_json) "thread-1"
       "openai/gpt-5-mini" array_image_context_store
     = (None, array_image_context_store)
  /\ In (stored "m2" "thread-1" "image_context" (PStr "[1, 2]") 2)
        (snd (MessageManager.build_temporary_message (RT := list_json) "thread-1"
                "openai/gpt-5-mini" array_image_context_store)).
Proof.
  split; [reflexivity | split; [reflexivity | split; [reflexivity |]]].
  right; left; reflexivity.
Qed.

(** C10, amended.  When the thread has an [image_context] row and the
    content of the latest one is a JSON object (a dict, or a text that
    [json.loads] decodes to one), [build_temporary_message] deletes the
    rows with that [message_id] from the store and leaves every other
    row; this also holds when the content has no [base64] or no
    [mime_type], in which case the message returned is made of the
    browser-state blocks alone, with no text or image block from the
    image context. *)
Theorem image_context_row_deleted :
  forall (RT : PythonRuntime) (tid model : string) (s : store) (row : message) (d : dict),
    select_latest s tid ["image_context"] = Some row ->
    parses_as RT (content row) d ->
    In row s
    /\ snd (MessageManager.build_temporary_message tid model s)
       = delete_message s (message_id row)
    /\ ~ In row (snd (MessageManager.build_temporary_message tid model s))
    /\ (forall r, In r (snd (MessageManager.build_temporary_message tid model s)) <->
                  In r s /\ message_id r <> message_id row)
    /\ (truthy (dict_get_none d "base64") = false
        \/ truthy (dict_get_none d "mime_type") = false ->
        fst (MessageManager.build_temporary_message tid model s)
        = as_temporary_message (browser_blocks_of tid model s)).
Proof.
  intros RT tid model s row d Hsel Hparse.
  pose proof (select_latest_In _ _ _ _ Hsel) as [Hin _].
  assert (Hbuild :
    MessageManager.build_temporary_message tid model s
    = (as_temporary_message
         (browser_blocks_of tid model s ++ MessageManager.image_context_blocks d),
       delete_message s (message_id row))).
  { unfold MessageManager.build_temporary_message. rewrite Hsel.
    rewrite (image_context_content_parsed RT _ _ Hparse).
    fold (browser_blocks_of tid model s).
    destruct (browser_blocks_of tid model s ++ MessageManager.image_context_blocks d)%list;
      reflexivity. }
  rewrite Hbuild. cbn [fst snd].
  assert (Hmem : forall r, In r (delete_message s (message_id row)) <->
                           In r s /\ message_id r <> message_id row).
  { intros r. unfold delete_message. rewrite filter_In, negb_true_iff, String.eqb_neq.
    tauto. }
  split; [exact Hin | split; [reflexivity | split; [| split; [exact Hmem |]]]].
  - intros H. apply Hmem in H. destruct H as [_ H]. now apply H.
  - intros Hlack. unfold MessageManager.image_context_blocks.
    assert (Hc : truthy (dict_get_none d "base64") && truthy (dict_get_none d "mime_type")
                 = false).
    { destruct Hlack as [-> | ->]; [reflexivity | apply andb_false_r]. }
    rewrite Hc, app_nil_r. reflexivity.
Qed.

Lemma image_context_row_deleted_witness :
  select_latest
    [stored "m1" "thread-1" "user" (PStr "show me") 1;
     stored "m2" "thread-1" "image_context" (PDict [("file_path", PStr "a.png")]) 2]
    "thread-1" ["image_context"]
  = Some (stored "m2" "thread-1" "image_context" (PDict [("file_path", PStr "a.png")]) 2)
  /\ parses_as no_json (PDict [("file_path", PStr "a.png")]) [("file_path", PStr "a.png")]
  /\ MessageManager.build_temporary_message (RT := no_json) "thread-1" "openai/gpt-5-mini"
       [stored "m1" "thread-1" "user" (PStr "show me") 1;
        stored "m2" "thread-1" "image_context" (PDict [("file_path", PStr "a.png")]) 2]
     = (None, [stored "m1" "thread-1" "user" (PStr "show me") 1]).
Proof.
  assert (Hs : select_latest
                 [stored "m1" "thread-1" "user" (PStr "show me") 1;
                  stored "m2" "thread-1" "image_context"
                    (PDict [("file_path", PStr "a.png")]) 2]
                 "thread-1" ["image_context"]
               = Some (stored "m2" "thread-1" "image_context"
                         (PDict [("file_path", PStr "a.png")]) 2)) by reflexivity.
  assert (Hp : parses_as no_json (PDict [("file_path", PStr "a.png")])
                 [("file_path", PStr "a.png")]) by (left; reflexivity).
  split; [exact Hs | split; [exact Hp |]].
  destruct (image_context_row_deleted no_json "thread-1" "openai/gpt-5-mini" _ _ _ Hs Hp)
    as [_ [Hdel [_ [_ Hmsg]]]].
  apply injective_projections; cbn [fst snd].
  - rewrite Hmsg; [reflexivity | left; reflexivity].
  - rewrite Hdel. reflexivity.
Defined.

(** ** The sample response in the system prompt (C7) *)

Lemma append_assoc : forall a b c : string,
  ((a ++ b) ++ c)%string = (a ++ (b ++ c))%string.
Proof.
  induction a as [| x a IH]; intros b c; simpl; [reflexivity | now rewrite IH].
Qed.




(** ** What a run does to its configuration (C8) *)

(** C8 as stated fails.  [setup], run on a configuration without a
    trace, assigns [config.trace]; and [setup_mcp_tools], run on an agent
    definition with a custom MCP of type [pipedream], adds a [config]
    entry to that MCP inside the agent definition. *)
Lemma setup_changes_config :
  (trace (default_config "thread-1" "project-1" "openai/gpt-5-mini" None) = None
   /\ trace (fst (setup (SV := scripted)
                    (default_config "thread-1" "project-1" "openai/gpt-5-mini" None)
                    (scripted_world [] (true, "ok") [])))
      = Some {| trace_name := "run_agent";
                trace_session_id := "thread-1";
                trace_metadata := [("project_id", PStr "project-1")] |}
   /\ fst (setup (SV := scripted)
              (default_config "thread-1" "project-1" "openai/gpt-5-mini" None)
              (scripted_world [] (true, "ok") []))
      <> default_config "thread-1" "project-1" "openai/gpt-5-mini" None)
  /\ (agent_config
        (config (fst (setup_mcp_tools (RT := no_json) (SV := scripted)
                        (runner_of (default_config "thread-1" "project-1"
                                      "openai/gpt-5-mini" (Some pipedream_agent)))
                        (scripted_world [] (true, "ok") []))))
      = Some [("custom_mcps",
               PList [PDict [("name", PStr "Gmail"); ("customType", PStr "pipedream");
                             ("config", PDict [])]])]
      /\ agent_config
           (config (fst (setup_mcp_tools (RT := no_json) (SV := scripted)
                           (runner_of (default_config "thread-1" "project-1"
                                         "openai/gpt-5-mini" (Some pipedream_agent)))
                           (scripted_world [] (true, "ok") []))))
         <> Some pipedream_agent).
Proof.
  split; [split; [reflexivity | split; [reflexivity | discriminate]] |].
  split; [reflexivity | discriminate].
Qed.

Lemma dict_set_same : forall (d : dict) k v,
  dict_get d k = Some v -> dict_set d k v = d.
Proof.
  induction d as [| [k' v'] d IH]; intros k v H; simpl in *; [discriminate H |].
  destruct (k' =? k)%string.
  - now injection H as ->.
  - now rewrite IH.
Qed.

Lemma set_agent_config_same : forall c ac,
  agent_config c = ac -> set_agent_config c ac = c.
Proof. intros [] ac H; simpl in H; subst; reflexivity. Qed.

Section ConfigFacts.
Context {RT : PythonRuntime} {Ext : Type} {SV : Services Ext}.

Lemma process_custom_mcps_no_pipedream : forall account w l,
  existsb is_pipedream_entry l = false ->
  fst (MCPManager.process_custom_mcps account w l) = l.
Proof.
  induction l as [| c l IH]; intros H; [reflexivity |].
  simpl in H. apply orb_false_iff in H. destruct H as [Hc Hl].
  cbn [MCPManager.process_custom_mcps].
  assert (Hfst : fst (MCPManager.process_custom_mcp account w c) = c).
  { unfold MCPManager.process_custom_mcp.
    destruct c as [ | b | z | s | l' | d]; try reflexivity.
    unfold is_pipedream_entry in Hc. rewrite Hc.
    destruct (str_eq _ "composio"); reflexivity. }
  destruct (MCPManager.process_custom_mcp account w c) as [c' [cfg | e]];
    cbn [fst] in Hfst; subst c'.
  - destruct (MCPManager.process_custom_mcps account w l) as [l' r] eqn:Hrec.
    cbn [fst] in *. now rewrite (IH Hl).
  - reflexivity.
Qed.

Lemma register_mcp_tools_no_pipedream : forall account tm w ac,
  declares_pipedream (Some ac) = false ->
  fst (fst (MCPManager.register_mcp_tools account tm w ac)) = ac.
Proof.
  intros account tm w ac H. unfold MCPManager.register_mcp_tools.
  destruct (if truthy (dict_get_none ac "configured_mcps")
            then MCPManager.py_iter (dict_get_none ac "configured_mcps")
            else Ok []) as [configured | e]; [| reflexivity].
  assert (Hsame :
    fst (if truthy (dict_get_none ac "custom_mcps")
         then
           match dict_get_none ac "custom_mcps" with
           | PList l =>
               let '(l, r) := MCPManager.process_custom_mcps account w l in
               (dict_set ac "custom_mcps" (PList l), r)
           | v =>
               (ac,
                let* l := MCPManager.py_iter v in
                snd (MCPManager.process_custom_mcps account w l))
           end
         else (ac, Ok [])) = ac).
  { destruct (truthy (dict_get_none ac "custom_mcps")); [| reflexivity].
    unfold declares_pipedream in H.
    destruct (dict_get_none ac "custom_mcps") as [ | b | z | s | l | d] eqn:Hget;
      try reflexivity.
    pose proof (process_custom_mcps_no_pipedream account w l H) as Hl.
    destruct (MCPManager.process_custom_mcps account w l) as [l' r].
    cbn [fst] in *. subst l'. apply dict_set_same.
    unfold dict_get_none, dict_get_default in Hget.
    destruct (dict_get ac "custom_mcps"); [now subst | discriminate Hget]. }
  destruct (if truthy (dict_get_none ac "custom_mcps") then _ else _)
    as [ac' [custom | e]]; cbn [fst] in Hsame; subst ac'; [| reflexivity].
  destruct (configured ++ custom)%list; [reflexivity |].
  destruct (mcp_initialize _ w) as [[initialized schemas] |]; reflexivity.
Qed.

Lemma setup_mcp_tools_config : forall self w,
  config (fst (setup_mcp_tools self w))
  = match agent_config (config self) with
    | Some ((_ :: _) as ac) =>
        set_agent_config (config self)
          (Some (fst (fst (MCPManager.register_mcp_tools
                             (account_id self) (thread_manager self) w ac))))
    | _ => config self
    end.
Proof.
  intros self w. unfold setup_mcp_tools.
  destruct (agent_config (config self)) as [[| kv ac] |]; try reflexivity.
  destruct (MCPManager.register_mcp_tools _ _ w (kv :: ac)) as [[ac' tm] r].
  reflexivity.
Qed.

Lemma run_loop_keeps_self : forall fuel self system_message n c w evs ex,
  run_loop fuel self system_message n c w = Some (evs, ex) -> self_after ex = self.
Proof.
  induction fuel as [| fuel IH]; intros self system_message n c w evs ex H;
    cbn [run_loop] in H;
    destruct (c && (n <? max_iterations (config self)));
    try discriminate H; try (now inversion H).
  destruct (loop_body self system_message c w) as [[[evs0 ctl] c'] w'].
  destruct ctl; [| now inversion H].
  destruct (run_loop fuel self system_message (n + 1) c' w') as [[evs' ex'] |] eqn:Hrec;
    [| discriminate H].
  inversion H; subst. eapply IH. exact Hrec.
Qed.

End ConfigFacts.

(** C8, amended.  In a run, the fields thread id, project id, stream
    flag, limits, model name, thinking and reasoning flags,
    context-manager flag, agent-builder flag and target-agent id of the
    configuration are changed by no operation.  [setup] assigns the trace
    field when the configuration has no trace, keeps a trace that is
    there, and changes nothing else; [setup_tools] and the run loop change
    no field; [setup_mcp_tools] keeps the trace, and keeps the
    agent-definition object as it is when it lists no custom MCP of type
    pipedream. *)
Theorem config_changes_of_a_run :
  forall (RT : PythonRuntime) (Ext : Type) (SV : Services Ext),
    (forall c (w : World Ext),
        same_run_parameters c (fst (setup c w))
        /\ agent_config (fst (setup c w)) = agent_config c
        /\ trace (fst (setup c w))
           = Some (match trace c with Some t => t | None => langfuse_trace c end)
        /\ (forall self, snd (setup c w) = Ok self -> config self = fst (setup c w)))
    /\ (forall self self', setup_tools self = Ok self' -> config self' = config self)
    /\ (forall self (w : World Ext),
          same_run_parameters (config self) (config (fst (setup_mcp_tools self w)))
          /\ trace (config (fst (setup_mcp_tools self w))) = trace (config self)
          /\ (declares_pipedream (agent_config (config self)) = false ->
              config (fst (setup_mcp_tools self w)) = config self))
    /\ (forall fuel self system_message n c (w : World Ext) evs ex,
          run_loop fuel self system_message n c w = Some (evs, ex) ->
          config (self_after ex) = config self).
Proof.
  intros RT Ext SV. split; [| split; [| split]].
  - intros c w. unfold setup. cbn [fst snd].
    destruct (trace c) as [t |] eqn:Ht.
    + repeat split; auto.
      intros self H.
      destruct (get_account_id_from_thread (thread_id c) w) as [[| a0 a] |];
        try discriminate H.
      destruct (select_project (project_id c) w) as [| project_data rows];
        [discriminate H |].
      destruct (as_dict (dict_get_default project_data "sandbox" (PDict [])));
        [| discriminate H].
      cbn in H. now inversion H.
    + repeat split; auto.
      intros self H. cbn [thread_id project_id set_trace] in H.
      destruct (get_account_id_from_thread (thread_id c) w) as [[| a0 a] |];
        try discriminate H.
      destruct (select_project (project_id c) w) as [| project_data rows];
        [discriminate H |].
      destruct (as_dict (dict_get_default project_data "sandbox" (PDict [])));
        [| discriminate H].
      cbn in H. now inversion H.
  - intros self self' H. unfold setup_tools in H.
    match type of H with
    | bind ?r _ = _ => destruct r as [agent_id | e]
    end; [| discriminate H].
    cbn [bind] in H. inversion H. reflexivity.
  - intros self w. rewrite setup_mcp_tools_config.
    destruct (agent_config (config self)) as [[| kv ac] |] eqn:Hac;
      try (repeat split; auto; fail).
    repeat split; auto.
    intros Hpd.
    rewrite (register_mcp_tools_no_pipedream _ _ _ _ Hpd).
    apply set_agent_config_same. exact Hac.
  - intros fuel self system_message n c w evs ex H.
    now rewrite (run_loop_keeps_self _ _ _ _ _ _ _ _ H).
Qed.

Lemma config_changes_of_a_run_witness :
  exists self',
    setup_tools (SV := scripted) (example_runner 3) = Ok self'
    /\ config self' = config (example_runner 3).
Proof.
  eexists. split; [reflexivity |].
  apply (proj1 (proj2 (config_changes_of_a_run no_json script scripted))
           (example_runner 3)).
  reflexivity.
Defined.

(** * Further properties of the code *)

(** ** ToolManager: what is registered, and in which order *)

Lemma str_in_iff : forall x l, str_in x l = true <-> In x l.
Proof.
  intros x l. unfold str_in. rewrite existsb_exists. split.
  - intros [y [Hy Heq]]. apply String.eqb_eq in Heq. now subst.
  - intros H. exists x. split; [exact H | apply String.eqb_refl].
Qed.

Lemma register_unless_disabled_spec : forall tools disabled_tools tm,
  added_tools (ToolManager.register_unless_disabled tools disabled_tools tm)
  = (added_tools tm ++ enabled_classes tools disabled_tools)%list
  /\ mcp_tools (ToolManager.register_unless_disabled tools disabled_tools tm) = mcp_tools tm.
Proof.
  unfold ToolManager.register_unless_disabled, enabled_classes.
  induction tools as [| [name cls] tools IH]; intros disabled_tools tm; simpl.
  - now rewrite app_nil_r.
  - destruct (str_in name disabled_tools); simpl.
    + apply IH.
    + destruct (IH disabled_tools (add_tool tm cls)) as [Ha Hm].
      rewrite Ha, Hm. simpl. now rewrite <- app_assoc.
Qed.

Section ToolFacts.
Context {Ext : Type} {SV : Services Ext}.

Lemma register_all_tools_spec : forall agent_id disabled_tools tm,
  added_tools (ToolManager.register_all_tools agent_id disabled_tools tm)
  = (added_tools tm
     ++ ["ExpandMessageTool"; "MessageTool"; "TaskListTool"]
     ++ enabled_classes ToolManager.sandbox_tools disabled_tools
     ++ (if optstr_truthy RAPID_API_KEY && negb (str_in "data_providers_tool" disabled_tools)
         then ["DataProvidersTool"] else [])
     ++ (if truthy agent_id
         then enabled_classes ToolManager.agent_builder_tools disabled_tools else [])
     ++ (if str_in "browser_tool" disabled_tools then [] else ["BrowserTool"]))%list
  /\ mcp_tools (ToolManager.register_all_tools agent_id disabled_tools tm) = mcp_tools tm.
Proof.
  intros agent_id disabled_tools tm.
  unfold ToolManager.register_all_tools, ToolManager._register_browser_tool,
    ToolManager._register_agent_builder_tools, ToolManager._register_utility_tools,
    ToolManager._register_sandbox_tools, ToolManager._register_core_tools.
  set (tm1 := add_tool (add_tool (add_tool tm "ExpandMessageTool") "MessageTool")
                "TaskListTool").
  destruct (register_unless_disabled_spec ToolManager.sandbox_tools disabled_tools tm1)
    as [Ha2 Hm2].
  set (tm2 := ToolManager.register_unless_disabled ToolManager.sandbox_tools
                disabled_tools tm1) in *.
  set (b3 := optstr_truthy RAPID_API_KEY
             && negb (str_in "data_providers_tool" disabled_tools)).
  set (tm3 := if b3 then add_tool tm2 "DataProvidersTool" else tm2).
  assert (H3 : added_tools tm3
               = (added_tools tm2 ++ (if b3 then ["DataProvidersTool"] else []))%list
               /\ mcp_tools tm3 = mcp_tools tm2).
  { unfold tm3. destruct b3; simpl; [| rewrite app_nil_r]; auto. }
  destruct H3 as [Ha3 Hm3].
  set (tm4 := if truthy agent_id
              then ToolManager.register_unless_disabled ToolManager.agent_builder_tools
                     disabled_tools tm3
              else tm3).
  assert (H4 : added_tools tm4
               = (added_tools tm3
                  ++ (if truthy agent_id
                      then enabled_classes ToolManager.agent_builder_tools disabled_tools
                      else []))%list
               /\ mcp_tools tm4 = mcp_tools tm3).
  { unfold tm4. destruct (truthy agent_id).
    - apply register_unless_disabled_spec.
    - now rewrite app_nil_r. }
  destruct H4 as [Ha4 Hm4].
  assert (H1 : added_tools tm1
               = (added_tools tm ++ ["ExpandMessageTool"; "MessageTool"; "TaskListTool"])%list
               /\ mcp_tools tm1 = mcp_tools tm).
  { unfold tm1. simpl. now rewrite <- !app_assoc. }
  destruct H1 as [Ha1 Hm1].
  destruct (str_in "browser_tool" disabled_tools); simpl;
    rewrite ?Ha4, ?Ha3, ?Ha2, ?Ha1, ?Hm4, ?Hm3, ?Hm2, ?Hm1, <- ?app_assoc, ?app_nil_r;
    split; reflexivity.
Qed.

Lemma enabled_classes_In : forall tools disabled_tools cls,
  In cls (enabled_classes tools disabled_tools) <->
  exists name, In (name, cls) tools /\ str_in name disabled_tools = false.
Proof.
  intros tools disabled_tools cls. unfold enabled_classes.
  rewrite in_map_iff. split.
  - intros [[name cls'] [Hc Hin]]. simpl in Hc. subst cls'.
    apply filter_In in Hin. destruct Hin as [Hin Hf]. simpl in Hf.
    exists name. split; [exact Hin | now apply negb_true_iff].
  - intros [name [Hin Hf]]. exists (name, cls). split; [reflexivity |].
    apply filter_In. split; [exact Hin | simpl; now rewrite Hf].
Qed.

End ToolFacts.

(** X1. The [add_tool] calls of [register_all_tools] come in a fixed
    order, after the calls made before: the three core tools, always; the
    sandbox tools that are not disabled; the data-provider tool when an
    API key is configured and it is not disabled; the agent-builder tools
    that are not disabled, when an agent id is given; the browser tool
    unless disabled. *)
Theorem register_all_tools_order :
  forall (Ext : Type) (SV : Services Ext) agent_id disabled_tools tm,
    added_tools (ToolManager.register_all_tools agent_id disabled_tools tm)
    = (added_tools tm
       ++ ["ExpandMessageTool"; "MessageTool"; "TaskListTool"]
       ++ enabled_classes ToolManager.sandbox_tools disabled_tools
       ++ (if optstr_truthy RAPID_API_KEY
              && negb (str_in "data_providers_tool" disabled_tools)
           then ["DataProvidersTool"] else [])
       ++ (if truthy agent_id
           then enabled_classes ToolManager.agent_builder_tools disabled_tools else [])
       ++ (if str_in "browser_tool" disabled_tools then [] else ["BrowserTool"]))%list.
Proof.
  intros Ext SV agent_id disabled_tools tm.
  exact (proj1 (register_all_tools_spec agent_id disabled_tools tm)).
Qed.

(** X2. A tool named in [disabled_tools] is not registered: for every
    sandbox tool, agent-builder tool, the data-provider tool and the
    browser tool, when its name is in the list and its class was not
    registered before, its class is not registered by
    [register_all_tools]. *)
Theorem disabled_tool_not_registered :
  forall (Ext : Type) (SV : Services Ext) agent_id disabled_tools tm name cls,
    In (name, cls)
       (ToolManager.sandbox_tools ++ ToolManager.agent_builder_tools
        ++ [("data_providers_tool", "DataProvidersTool"); ("browser_tool", "BrowserTool")]) ->
    In name disabled_tools ->
    ~ In cls (added_tools tm) ->
    ~ In cls (added_tools (ToolManager.register_all_tools agent_id disabled_tools tm)).
Proof.
  intros Ext SV agent_id disabled_tools tm name cls Hin Hdis Hnew Hreg.
  apply str_in_iff in Hdis.
  rewrite (proj1 (register_all_tools_spec agent_id disabled_tools tm)) in Hreg.
  repeat rewrite in_app_iff in Hreg.
  destruct Hreg as [H | [H | [H | [H | [H | H]]]]].
  - contradiction.
  - simpl in Hin, H.
    repeat (destruct Hin as [Hin | Hin];
            [injection Hin as <- <-;
             repeat (destruct H as [H | H]; [discriminate H |]); contradiction |]).
    contradiction.
  - apply enabled_classes_In in H. destruct H as [name' [Hin' Hf]].
    simpl in Hin, Hin'.
    repeat (destruct Hin as [Hin | Hin];
            [injection Hin as <- <-;
             repeat (destruct Hin' as [Hin' | Hin'];
                     [injection Hin' as <-; congruence || discriminate |]);
             try contradiction; try discriminate |]).
    contradiction.
  - destruct (optstr_truthy RAPID_API_KEY) ; simpl in H;
      [destruct (str_in "data_providers_tool" disabled_tools) eqn:Hd; simpl in H |];
      try contradiction.
    destruct H as [<- | []].
    simpl in Hin.
    repeat (destruct Hin as [Hin | Hin];
            [injection Hin as <-; congruence || discriminate |]).
    contradiction.
  - destruct (truthy agent_id); [| contradiction].
    apply enabled_classes_In in H. destruct H as [name' [Hin' Hf]].
    simpl in Hin, Hin'.
    repeat (destruct Hin as [Hin | Hin];
            [injection Hin as <- <-;
             repeat (destruct Hin' as [Hin' | Hin'];
                     [injection Hin' as <-; congruence || discriminate |]);
             try contradiction; try discriminate |]).
    contradiction.
  - destruct (str_in "browser_tool" disabled_tools) eqn:Hb; [contradiction |].
    destruct H as [<- | []].
    simpl in Hin.
    repeat (destruct Hin as [Hin | Hin];
            [injection Hin as <-; congruence || discriminate |]).
    contradiction.
Qed.

Lemma disabled_tool_not_registered_witness :
  In ("sb_shell_tool", "SandboxShellTool")
     (ToolManager.sandbox_tools ++ ToolManager.agent_builder_tools
      ++ [("data_providers_tool", "DataProvidersTool"); ("browser_tool", "BrowserTool")])
  /\ In "sb_shell_tool" ["sb_shell_tool"]
  /\ ~ In "SandboxShellTool" (added_tools (thread_manager (example_runner 3)))
  /\ ~ In "SandboxShellTool"
        (added_tools (ToolManager.register_all_tools (SV := scripted) PNone ["sb_shell_tool"]
                        (thread_manager (example_runner 3)))).
Proof.
  assert (H1 : In ("sb_shell_tool", "SandboxShellTool")
                 (ToolManager.sandbox_tools ++ ToolManager.agent_builder_tools
                  ++ [("data_providers_tool", "DataProvidersTool");
                      ("browser_tool", "BrowserTool")])) by (left; reflexivity).
  assert (H2 : In "sb_shell_tool" ["sb_shell_tool"]) by (left; reflexivity).
  assert (H3 : ~ In "SandboxShellTool" (added_tools (thread_manager (example_runner 3))))
    by (intros []).
  split; [exact H1 | split; [exact H2 | split; [exact H3 |]]].
  exact (disabled_tool_not_registered script scripted PNone ["sb_shell_tool"]
           (thread_manager (example_runner 3)) "sb_shell_tool" "SandboxShellTool" H1 H2 H3).
Defined.

(** ** AgentRunner.setup_tools *)

Section SetupToolsFacts.
Context {Ext : Type} {SV : Services Ext}.

Lemma setup_tools_ok : forall self self',
  setup_tools self = Ok self' ->
  config self' = config self
  /\ account_id self' = account_id self
  /\ exists agent_id,
       thread_manager self'
       = ToolManager.register_all_tools agent_id
           (_get_disabled_tools_from_config (config self)) (thread_manager self).
Proof.
  intros self self' H. unfold setup_tools in H.
  match type of H with
  | bind ?r _ = _ => destruct r as [agent_id | e]
  end; [| discriminate H].
  cbn [bind] in H. inversion H. cbn.
  split; [reflexivity | split; [reflexivity |]]. exists agent_id. reflexivity.
Qed.

End SetupToolsFacts.

Lemma disabled_list_within : forall c t,
  In t (_get_disabled_tools_from_config c) ->
  In t all_tools \/ t = "sb_presentation_outline_tool" \/ t = "sb_presentation_tool_v2".
Proof.
  intros c t H. unfold _get_disabled_tools_from_config in H.
  destruct (agent_config c) as [[| kv ac] |]; try contradiction.
  destruct (dict_get (kv :: ac) "agentpress_tools") as [[ | b | z | s | l | raw] |];
    try contradiction.
  destruct (truthy (dict_get_default (kv :: ac) "is_suna_default" (PBool false))
            && negb (truthy (PDict raw))); [contradiction |].
  match type of H with
  | In t (if ?b then _ else _) => destruct b
  end.
  - apply in_app_iff in H. destruct H as [H | H].
    + apply filter_In in H. left. apply H.
    + simpl in H. destruct H as [<- | [<- | []]]; auto.
  - apply filter_In in H. left. apply H.
Qed.

Lemma presentation_parts_disabled : forall c ac raw part,
  agent_config c = Some ac ->
  dict_get ac "agentpress_tools" = Some (PDict raw) ->
  part = "sb_presentation_outline_tool" \/ part = "sb_presentation_tool_v2" ->
  (In part (_get_disabled_tools_from_config c)
   <-> resolves_disabled (dict_get raw "sb_presentation_tool")).
Proof.
  intros c ac raw part Hc Hraw Hpart.
  assert (Hu : In "sb_presentation_tool" all_tools) by (simpl; tauto).
  pose proof (disabled_tools_membership c ac raw _ Hc Hraw Hu) as Hmem.
  rewrite is_tool_enabled_false_iff in Hmem. rewrite <- Hmem. clear Hmem.
  assert (Hnot : ~ In part all_tools).
  { simpl. intros H. destruct Hpart as [-> | ->];
      repeat (destruct H as [H | H]; [discriminate H |]); contradiction. }
  unfold _get_disabled_tools_from_config. rewrite Hc.
  destruct ac as [| kv ac']; [discriminate Hraw |]. rewrite Hraw.
  destruct (truthy (dict_get_default (kv :: ac') "is_suna_default" (PBool false))
            && negb (truthy (PDict raw))); [tauto |].
  set (disabled :=
         filter (fun tool_name => negb (truthy (is_tool_enabled raw tool_name))) all_tools).
  assert (Hsub : forall t, In t disabled -> In t all_tools).
  { intros t H. apply filter_In in H. apply H. }
  destruct (str_in "sb_presentation_tool" disabled) eqn:Hs.
  - apply str_in_iff in Hs. rewrite !in_app_iff. split; [tauto |].
    intros _. right. simpl. destruct Hpart as [-> | ->]; tauto.
  - assert (Hn : ~ In "sb_presentation_tool" disabled).
    { intros H. apply str_in_iff in H. congruence. }
    split; intros H; [exfalso; apply Hnot, Hsub, H | contradiction].
Qed.

(** X3. The two presentation tools have no switch of their own: when the
    agent definition has a tool map, [setup_tools] registers
    [SandboxPresentationOutlineTool] (and likewise
    [SandboxPresentationToolV2]) exactly when the entry of the umbrella
    tool [sb_presentation_tool] does not switch it off, whatever the map
    says under the names of the two tools themselves. *)
Theorem presentation_tools_follow_umbrella :
  forall (Ext : Type) (SV : Services Ext) self self' (ac raw : dict) name cls,
    agent_config (config self) = Some ac ->
    dict_get ac "agentpress_tools" = Some (PDict raw) ->
    (name, cls) = ("sb_presentation_outline_tool", "SandboxPresentationOutlineTool")
    \/ (name, cls) = ("sb_presentation_tool_v2", "SandboxPresentationToolV2") ->
    ~ In cls (added_tools (thread_manager self)) ->
    setup_tools self = Ok self' ->
    (In cls (added_tools (thread_manager self'))
     <-> ~ resolves_disabled (dict_get raw "sb_presentation_tool")).
Proof.
  intros Ext SV self self' ac raw name cls Hc Hraw Hnc Hnew Hok.
  destruct (setup_tools_ok self self' Hok) as [_ [_ [agent_id ->]]].
  assert (Hpart : name = "sb_presentation_outline_tool"
                  \/ name = "sb_presentation_tool_v2")
    by (destruct Hnc as [H | H]; injection H as -> _; auto).
  rewrite <- (presentation_parts_disabled (config self) ac raw name Hc Hraw Hpart).
  set (dis := _get_disabled_tools_from_config (config self)).
  rewrite <- (str_in_iff name dis).
  assert (Hsb : In (name, cls) ToolManager.sandbox_tools)
    by (destruct Hnc as [-> | ->]; simpl; tauto).
  rewrite (proj1 (register_all_tools_spec agent_id dis (thread_manager self))).
  split.
  - intros Hin Hd. repeat rewrite in_app_iff in Hin.
    destruct Hin as [H | [H | [H | [H | [H | H]]]]].
    + contradiction.
    + simpl in H. destruct Hnc as [E | E]; injection E as _ ->;
        repeat (destruct H as [H | H]; [discriminate H |]); contradiction.
    + apply enabled_classes_In in H. destruct H as [name' [Hin' Hf]].
      simpl in Hin'.
      destruct Hnc as [E | E]; injection E as -> ->;
        repeat (destruct Hin' as [Hin' | Hin'];
                [injection Hin' as <-; congruence || discriminate |]);
        contradiction.
    + destruct (optstr_truthy RAPID_API_KEY && negb (str_in "data_providers_tool" dis));
        [| contradiction].
      destruct H as [<- | []]. destruct Hnc as [E | E]; discriminate E.
    + destruct (truthy agent_id); [| contradiction].
      apply enabled_classes_In in H. destruct H as [name' [Hin' Hf]].
      simpl in Hin'.
      destruct Hnc as [E | E]; injection E as -> ->;
        repeat (destruct Hin' as [Hin' | Hin']; [discriminate Hin' |]);
        contradiction.
    + destruct (str_in "browser_tool" dis); [contradiction |].
      destruct H as [<- | []]. destruct Hnc as [E | E]; discriminate E.
  - intros Hd. repeat rewrite in_app_iff. right; right; left.
    apply enabled_classes_In. exists name. split; [exact Hsb |].
    destruct (str_in name dis); [exfalso; now apply Hd | reflexivity].
Qed.

Lemma presentation_tools_follow_umbrella_witness :
  exists self',
    setup_tools (SV := scripted)
      (runner_of (default_config "thread-1" "project-1" "openai/gpt-5-mini"
                    (Some presentation_off_agent)))
    = Ok self'
    /\ (In "SandboxPresentationOutlineTool" (added_tools (thread_manager self'))
        <-> ~ resolves_disabled
                (dict_get [("sb_presentation_tool", PBool false);
                           ("sb_presentation_outline_tool", PBool true)]
                   "sb_presentation_tool")).
Proof.
  eexists. split; [reflexivity |].
  apply (presentation_tools_follow_umbrella script scripted
           (runner_of (default_config "thread-1" "project-1" "openai/gpt-5-mini"
                         (Some presentation_off_agent)))
           _ presentation_off_agent
           [("sb_presentation_tool", PBool false);
            ("sb_presentation_outline_tool", PBool true)]
           "sb_presentation_outline_tool" "SandboxPresentationOutlineTool");
    try reflexivity.
  - left; reflexivity.
  - intros [].
Defined.

(** X4. Without an agent definition every tool is enabled: [setup_tools]
    succeeds, leaves the configuration alone and registers, after what was
    registered before, the three core tools, all eleven sandbox tools, the
    data-provider tool when an API key is configured, the five
    agent-builder tools when the run is in agent-builder mode with a
    target agent, and the browser tool. *)
Theorem setup_tools_without_agent_definition :
  forall (Ext : Type) (SV : Services Ext) self,
    agent_config (config self) = None ->
    exists self',
      setup_tools self = Ok self'
      /\ config self' = config self
      /\ added_tools (thread_manager self')
         = (added_tools (thread_manager self)
            ++ ["ExpandMessageTool"; "MessageTool"; "TaskListTool"]
            ++ ["SandboxShellTool"; "SandboxFilesTool"; "SandboxDeployTool";
                "SandboxExposeTool"; "SandboxWebSearchTool"; "SandboxVisionTool";
                "SandboxImageEditTool"; "SandboxPresentationOutlineTool";
                "SandboxPresentationToolV2"; "SandboxSheetsTool"; "SandboxWebDevTool"]
            ++ (if optstr_truthy RAPID_API_KEY then ["DataProvidersTool"] else [])
            ++ (if optbool_truthy (is_agent_builder (config self))
                   && optstr_truthy (target_agent_id (config self))
                then ["AgentConfigTool"; "MCPSearchTool"; "CredentialProfileTool";
                      "WorkflowTool"; "TriggerTool"]
                else [])
            ++ ["BrowserTool"])%list.
Proof.
  intros Ext SV self Hac.
  assert (Hdis : _get_disabled_tools_from_config (config self) = []).
  { unfold _get_disabled_tools_from_config. now rewrite Hac. }
  unfold setup_tools. rewrite Hac, Hdis.
  destruct (optbool_truthy (is_agent_builder (config self))
            && optstr_truthy (target_agent_id (config self))) eqn:Hb; cbn [bind].
  - eexists. split; [reflexivity |]. split; [reflexivity |].
    cbn [thread_manager set_thread_manager].
    rewrite (proj1 (register_all_tools_spec _ [] (thread_manager self))).
    apply andb_true_iff in Hb. destruct Hb as [_ Ht].
    destruct (target_agent_id (config self)) as [id |]; [| discriminate Ht].
    cbn [optstr_truthy] in Ht. cbn [truthy]. rewrite Ht.
    rewrite andb_true_r. reflexivity.
  - eexists. split; [reflexivity |]. split; [reflexivity |].
    cbn [thread_manager set_thread_manager].
    rewrite (proj1 (register_all_tools_spec _ [] (thread_manager self))).
    cbn [truthy]. rewrite andb_true_r. reflexivity.
Qed.

Lemma setup_tools_without_agent_definition_witness :
  agent_config (config (example_runner 3)) = None
  /\ exists self',
      setup_tools (SV := scripted) (example_runner 3) = Ok self'
      /\ config self' = config (example_runner 3)
      /\ added_tools (thread_manager self')
         = ["ExpandMessageTool"; "MessageTool"; "TaskListTool";
            "SandboxShellTool"; "SandboxFilesTool"; "SandboxDeployTool";
            "SandboxExposeTool"; "SandboxWebSearchTool"; "SandboxVisionTool";
            "SandboxImageEditTool"; "SandboxPresentationOutlineTool";
            "SandboxPresentationToolV2"; "SandboxSheetsTool"; "SandboxWebDevTool";
            "BrowserTool"].
Proof.
  split; [reflexivity |].
  destruct (setup_tools_without_agent_definition script scripted (example_runner 3) eq_refl)
    as [self' [Hok [Hc Ha]]].
  exists self'. split; [exact Hok | split; [exact Hc |]].
  rewrite Ha. reflexivity.
Defined.

(** X5. [setup_tools] fails in one case only: the agent definition is
    marked [is_suna_default] and has no [agent_id]; the exception is the
    [KeyError] of [agent_config['agent_id']]. *)
Theorem setup_tools_error :
  forall (Ext : Type) (SV : Services Ext) self,
    ((exists e, setup_tools self = Raise e) <->
     (exists ac, agent_config (config self) = Some ac
                 /\ ac <> []
                 /\ truthy (dict_get_default ac "is_suna_default" (PBool false)) = true
                 /\ dict_get ac "agent_id" = None))
    /\ (forall e, setup_tools self = Raise e -> e = Exn "KeyError" "'agent_id'").
Proof.
  intros Ext SV self. unfold setup_tools.
  destruct (agent_config (config self)) as [[| kv ac] |] eqn:Hac.
  - split.
    + split; [intros [e H] | intros [ac [H [Hne _]]]].
      * destruct (optbool_truthy _ && optstr_truthy _); discriminate H.
      * injection H as <-. now contradiction Hne.
    + intros e H. destruct (optbool_truthy _ && optstr_truthy _); discriminate H.
  - destruct (truthy (dict_get_default (kv :: ac) "is_suna_default" (PBool false))) eqn:Hs.
    + unfold MCPManager.dict_item.
      destruct (dict_get (kv :: ac) "agent_id") as [v |] eqn:Hid; cbn [bind].
      * split; [split |]; [intros [e H]; discriminate H | | intros e H; discriminate H].
        intros [ac' [H [_ [_ Hn]]]]. injection H as <-. congruence.
      * split; [split |].
        -- intros _. exists (kv :: ac). repeat split; auto. discriminate.
        -- intros _. eexists. reflexivity.
        -- intros e H. now injection H as <-.
    + split; [split |].
      * intros [e H]. destruct (optbool_truthy _ && optstr_truthy _); discriminate H.
      * intros [ac' [H [_ [Ht _]]]]. injection H as <-. congruence.
      * intros e H. destruct (optbool_truthy _ && optstr_truthy _); discriminate H.
  - split; [split |].
    + intros [e H]. destruct (optbool_truthy _ && optstr_truthy _); discriminate H.
    + intros [ac' [H _]]. discriminate H.
    + intros e H. destruct (optbool_truthy _ && optstr_truthy _); discriminate H.
Qed.

(** ** MCPManager *)

Lemma dict_get_set : forall (d : dict) k v k',
  dict_get (dict_set d k v) k' = if (k =? k')%string then Some v else dict_get d k'.
Proof.
  induction d as [| [k0 v0] d IH]; intros k v k'; simpl.
  - reflexivity.
  - destruct (String.eqb_spec k0 k) as [-> | Hn]; simpl.
    + destruct (String.eqb_spec k k'); reflexivity.
    + rewrite IH. destruct (String.eqb_spec k0 k') as [-> | Hn']; [| reflexivity].
      destruct (String.eqb_spec k k') as [-> |]; [now contradiction Hn | reflexivity].
Qed.

Lemma registry_get_set : forall tools k s k',
  registry_get (MCPManager.registry_set tools k s) k'
  = if (k =? k')%string then Some s else registry_get tools k'.
Proof.
  induction tools as [| [k0 s0] tools IH]; intros k s k'; simpl.
  - reflexivity.
  - destruct (String.eqb_spec k0 k) as [-> | Hn]; simpl.
    + destruct (String.eqb_spec k k'); reflexivity.
    + rewrite IH. destruct (String.eqb_spec k0 k') as [-> | Hn']; [| reflexivity].
      destruct (String.eqb_spec k k') as [-> |]; [now contradiction Hn | reflexivity].
Qed.

Lemma registry_fold_other : forall schemas tools k k',
  k <> k' ->
  registry_get (fold_left (fun tools s => MCPManager.registry_set tools k s) schemas tools) k'
  = registry_get tools k'.
Proof.
  induction schemas as [| s schemas IH]; intros tools k k' Hne; simpl; [reflexivity |].
  rewrite IH by exact Hne. rewrite registry_get_set.
  apply String.eqb_neq in Hne. now rewrite Hne.
Qed.

Lemma registry_fold_last : forall schemas s tools k,
  registry_get
    (fold_left (fun tools s => MCPManager.registry_set tools k s) (schemas ++ [s]) tools) k
  = Some s.
Proof.
  intros schemas s tools k. rewrite fold_left_app. simpl.
  rewrite registry_get_set. now rewrite String.eqb_refl.
Qed.

Lemma splice_fold_other : forall entries tools name,
  ~ In name (map fst entries) ->
  registry_get (splice_fold entries tools) name = registry_get tools name.
Proof.
  unfold splice_fold.
  induction entries as [| [k schemas] entries IH]; intros tools name Hn; simpl;
    [reflexivity |].
  simpl in Hn. rewrite IH by tauto.
  apply registry_fold_other. intros ->. apply Hn. now left.
Qed.

Lemma splice_fold_last : forall entries tools name schemas s,
  NoDup (map fst entries) ->
  In (name, (schemas ++ [s])%list) entries ->
  registry_get (splice_fold entries tools) name = Some s.
Proof.
  intros entries tools name schemas s Hnd Hin.
  destruct (in_split _ _ Hin) as [l1 [l2 ->]].
  unfold splice_fold. rewrite fold_left_app. simpl.
  fold (splice_fold l1 tools).
  match goal with
  | |- registry_get (fold_left _ l2 ?t) name = _ =>
      change (registry_get (splice_fold l2 t) name = Some s)
  end.
  rewrite splice_fold_other.
  - apply registry_fold_last.
  - rewrite map_app in Hnd. simpl in Hnd.
    apply NoDup_remove_2 in Hnd. intros H. apply Hnd. apply in_or_app. now right.
Qed.

Section McpFacts.
Context {RT : PythonRuntime} {Ext : Type} {SV : Services Ext}.

Lemma register_mcp_tools_cases : forall account tm w ac ac' tm' r,
  MCPManager.register_mcp_tools account tm w ac = (ac', tm', r) ->
  match r with
  | Ok (Some wrapper) =>
      tm' = MCPManager.splice_schemas (get_schemas wrapper) tm
      /\ mcp_configs wrapper <> []
      /\ mcp_initialize (mcp_configs wrapper) w
         = Some (_initialized wrapper, get_schemas wrapper)
  | _ => tm' = tm
  end.
Proof.
  intros account tm w ac ac' tm' r H. unfold MCPManager.register_mcp_tools in H.
  destruct (if truthy (dict_get_none ac "configured_mcps")
            then MCPManager.py_iter (dict_get_none ac "configured_mcps")
            else Ok []) as [configured | e]; [| now inversion H].
  destruct (if truthy (dict_get_none ac "custom_mcps") then _ else _)
    as [ac1 [custom | e]]; [| now inversion H].
  destruct (configured ++ custom)%list as [| m all] eqn:Hall; [now inversion H |].
  destruct (mcp_initialize (m :: all) w) as [[initialized schemas] |] eqn:Hinit;
    inversion H; subst; cbn; auto.
  repeat split; auto. discriminate.
Qed.

End McpFacts.

(** X6. What [register_mcp_tools] writes into the tool registry.  With
    no MCP listed (neither [configured_mcps] nor [custom_mcps] is true
    for Python) it returns [None] and changes neither the agent
    definition nor the thread manager.  When it raises, which it does
    while the descriptors are built, it has written nothing.  When it
    returns a wrapper, the wrapper is built over a non-empty list of
    descriptors, it initialised, and what [MCPManager] wrote is the
    schemas of the wrapper, in order, over what it had written before. *)
Theorem mcp_registry_writes :
  forall (RT : PythonRuntime) (Ext : Type) (SV : Services Ext)
         account tm (w : World Ext) ac ac' tm' r,
    MCPManager.register_mcp_tools account tm w ac = (ac', tm', r) ->
    (truthy (dict_get_none ac "configured_mcps") = false ->
     truthy (dict_get_none ac "custom_mcps") = false ->
     ac' = ac /\ tm' = tm /\ r = Ok None)
    /\ (forall e, r = Raise e -> tm' = tm)
    /\ (forall wrapper, r = Ok (Some wrapper) ->
        mcp_configs wrapper <> []
        /\ mcp_initialize (mcp_configs wrapper) w
           = Some (_initialized wrapper, get_schemas wrapper)
        /\ mcp_tools tm' = splice_fold (get_schemas wrapper) (mcp_tools tm)).
Proof.
  intros RT Ext SV account tm w ac ac' tm' r H.
  pose proof (register_mcp_tools_cases _ _ _ _ _ _ _ H) as Hc.
  split; [| split].
  - intros Hconf Hcust. unfold MCPManager.register_mcp_tools in H.
    rewrite Hconf, Hcust in H. cbn in H. now inversion H.
  - intros e ->. exact Hc.
  - intros wrapper ->. destruct Hc as [-> [Hne Hinit]].
    split; [exact Hne | split; [exact Hinit | reflexivity]].
Qed.

Lemma mcp_registry_writes_witness :
  exists ac' tm' wrapper,
    MCPManager.register_mcp_tools (RT := no_json) (SV := mcp_world_services) "account-1"
      (thread_manager (example_runner 3)) (scripted_world [] (true, "ok") []) pipedream_agent
    = (ac', tm', Ok (Some wrapper))
    /\ mcp_configs wrapper <> []
    /\ mcp_tools tm'
       = [("search_mail",
           {| is_openapi := true;
              schema := PDict [("function",
                                PDict [("description", PStr "Search mail")])] |})].
Proof.
  eexists; eexists; eexists. split; [reflexivity |].
  destruct (proj2 (proj2 (mcp_registry_writes no_json script mcp_world_services "account-1"
                            (thread_manager (example_runner 3))
                            (scripted_world [] (true, "ok") [])
                            pipedream_agent _ _ _ eq_refl)) _ eq_refl)
    as [Hne [_ Htools]].
  split; [exact Hne | exact Htools].
Defined.

(** X7. After [register_mcp_tools] has returned a wrapper, the registry
    answers for the wrapper's schemas: a method name listed once in
    [get_schemas()] with a non-empty schema list is registered with the
    last schema of its list, and a name the wrapper does not list keeps
    the entry it had. *)
Theorem mcp_schemas_registered :
  forall (RT : PythonRuntime) (Ext : Type) (SV : Services Ext)
         account tm (w : World Ext) ac ac' tm' wrapper,
    MCPManager.register_mcp_tools account tm w ac = (ac', tm', Ok (Some wrapper)) ->
    NoDup (map fst (get_schemas wrapper)) ->
    (forall name schemas s,
        In (name, (schemas ++ [s])%list) (get_schemas wrapper) ->
        registry_get (mcp_tools tm') name = Some s)
    /\ (forall name,
          ~ In name (map fst (get_schemas wrapper)) ->
          registry_get (mcp_tools tm') name = registry_get (mcp_tools tm) name).
Proof.
  intros RT Ext SV account tm w ac ac' tm' wrapper H Hnd.
  pose proof (register_mcp_tools_cases _ _ _ _ _ _ _ H) as [-> _].
  cbn [mcp_tools MCPManager.splice_schemas]. fold (splice_fold (get_schemas wrapper) (mcp_tools tm)).
  split.
  - intros name schemas s Hin. now apply splice_fold_last with (schemas := schemas).
  - intros name Hn. now apply splice_fold_other.
Qed.

Lemma mcp_schemas_registered_witness :
  exists ac' tm' wrapper,
    MCPManager.register_mcp_tools (RT := no_json) (SV := mcp_world_services) "account-1"
      (thread_manager (example_runner 3)) (scripted_world [] (true, "ok") []) pipedream_agent
    = (ac', tm', Ok (Some wrapper))
    /\ NoDup (map fst (get_schemas wrapper))
    /\ registry_get (mcp_tools tm') "search_mail"
       = Some {| is_openapi := true;
                 schema := PDict [("function",
                                   PDict [("description", PStr "Search mail")])] |}.
Proof.
  eexists; eexists; eexists.
  assert (Hnd : NoDup (map fst [("search_mail",
               [ {| is_openapi := true;
                    schema := PDict [("function",
                                      PDict [("description", PStr "Search mail")])] |} ])])).
  { constructor; [intros [] | constructor]. }
  split; [reflexivity | split; [exact Hnd |]].
  refine (proj1 (mcp_schemas_registered no_json script mcp_world_services "account-1"
                   (thread_manager (example_runner 3)) (scripted_world [] (true, "ok") [])
                   pipedream_agent _ _ _ eq_refl Hnd) "search_mail" [] _ _).
  left. reflexivity.
Defined.

Lemma dict_get_set_other : forall (d : dict) k v k',
  k <> k' -> dict_get (dict_set d k v) k' = dict_get d k'.
Proof.
  intros d k v k' H. rewrite dict_get_set.
  apply String.eqb_neq in H. now rewrite H.
Qed.

Lemma dict_get_set_same : forall (d : dict) k v,
  dict_get (dict_set d k v) k = Some v.
Proof. intros d k v. rewrite dict_get_set. now rewrite String.eqb_refl. Qed.

(** X8. A custom MCP entry with a name and without a [config] key: for
    type [pipedream] the entry is given an empty [config] in place and is
    described with it; for type [composio] the entry is left as it is and
    described with an empty [config]; for every other type (the default
    [sse] among them) the entry makes [register_mcp_tools] raise the
    [KeyError] of [custom_mcp['config']]. *)
Theorem custom_mcp_without_config :
  forall (RT : PythonRuntime) (Ext : Type) (SV : Services Ext)
         account (w : World Ext) (d : dict) n,
    dict_get d "name" = Some (PStr n) ->
    dict_get d "config" = None ->
    (is_pipedream_entry (PDict d) = true ->
     exists desc,
       MCPManager.process_custom_mcp account w (PDict d)
       = (PDict (dict_set d "config" (PDict [])), Ok (PDict desc))
       /\ dict_get desc "config" = Some (PDict []))
    /\ (is_pipedream_entry (PDict d) = false ->
        str_eq (dict_get_default d "customType" (dict_get_default d "type" (PStr "sse")))
               "composio" = true ->
        exists desc,
          MCPManager.process_custom_mcp account w (PDict d) = (PDict d, Ok (PDict desc))
          /\ dict_get desc "config" = Some (PDict []))
    /\ (is_pipedream_entry (PDict d) = false ->
        str_eq (dict_get_default d "customType" (dict_get_default d "type" (PStr "sse")))
               "composio" = false ->
        MCPManager.process_custom_mcp account w (PDict d)
        = (PDict d, Raise (Exn "KeyError" "'config'"))).
Proof.
  intros RT Ext SV account w d n Hname Hcfg.
  unfold is_pipedream_entry, MCPManager.process_custom_mcp.
  set (custom_type :=
         dict_get_default d "customType" (dict_get_default d "type" (PStr "sse"))).
  assert (Hhas : dict_has d "config" = false) by (unfold dict_has; now rewrite Hcfg).
  split; [| split].
  - intros Hpd. rewrite Hpd, Hhas.
    set (d1 := dict_set d "config" (PDict [])).
    assert (Hc1 : dict_get d1 "config" = Some (PDict [])) by apply dict_get_set_same.
    assert (Hn1 : dict_get d1 "name" = Some (PStr n)).
    { unfold d1. rewrite dict_get_set_other; [exact Hname | discriminate]. }
    unfold dict_get_none, dict_get_default. rewrite Hc1.
    change (MCPManager.pipedream_config account w []) with (@nil (string * pyval), Ok tt).
    cbv iota beta.
    fold d1. rewrite (dict_set_same d1 "config" (PDict []) Hc1).
    unfold MCPManager.generic_mcp_config, MCPManager.slug, MCPManager.dict_item.
    rewrite Hn1, Hc1. cbn [bind].
    eexists. split; [reflexivity | reflexivity].
  - intros Hpd Hco. rewrite Hpd, Hco.
    unfold MCPManager.composio_mcp_config, MCPManager.slug, MCPManager.dict_item.
    rewrite Hname.
    destruct (truthy (dict_get_none d "qualifiedName")); cbn [bind];
      eexists; (split; [reflexivity |]);
      unfold dict_get_default; rewrite Hcfg; reflexivity.
  - intros Hpd Hco. rewrite Hpd, Hco.
    unfold MCPManager.generic_mcp_config, MCPManager.slug, MCPManager.dict_item.
    rewrite Hname, Hcfg. reflexivity.
Qed.

Lemma custom_mcp_without_config_witness :
  dict_get [("name", PStr "My Tool")] "name" = Some (PStr "My Tool")
  /\ dict_get [("name", PStr "My Tool")] "config" = None
  /\ MCPManager.process_custom_mcp (RT := no_json) (SV := scripted) "account-1"
       (scripted_world [] (true, "ok") []) (PDict [("name", PStr "My Tool")])
     = (PDict [("name", PStr "My Tool")], Raise (Exn "KeyError" "'config'")).
Proof.
  split; [reflexivity | split; [reflexivity |]].
  exact (proj2 (proj2 (custom_mcp_without_config no_json script scripted "account-1"
                         (scripted_world [] (true, "ok") []) [("name", PStr "My Tool")]
                         "My Tool" eq_refl eq_refl)) eq_refl eq_refl).
Defined.

Lemma lower_ascii_idempotent : forall c, lower_ascii (lower_ascii c) = lower_ascii c.
Proof. intros [[] [] [] [] [] [] [] []]; reflexivity. Qed.

Lemma lower_ascii_space : forall c, lower_ascii c = " "%char -> c = " "%char.
Proof.
  intros [[] [] [] [] [] [] [] []] H; try reflexivity; vm_compute in H; discriminate H.
Qed.

Lemma replace_space_chars : forall s c,
  In c (list_ascii_of_string (replace_space s)) -> c <> " "%char.
Proof.
  induction s as [| a s IH]; intros c H; simpl in H; [contradiction |].
  destruct H as [H | H]; [| now apply IH].
  destruct (nat_of_ascii a =? 32)%nat eqn:E; subst c; [discriminate |].
  intros ->. discriminate E.
Qed.

Lemma ascii_lower_chars : forall s c,
  In c (list_ascii_of_string (ascii_lower s)) ->
  exists c', In c' (list_ascii_of_string s) /\ c = lower_ascii c'.
Proof.
  induction s as [| a s IH]; intros c H; simpl in H; [contradiction |].
  destruct H as [<- | H].
  - exists a. split; [now left | reflexivity].
  - destruct (IH c H) as [c' [Hin Hc]]. exists c'. split; [now right | exact Hc].
Qed.

Lemma ascii_lower_length : forall s, String.length (ascii_lower s) = String.length s.
Proof. induction s; simpl; congruence. Qed.

Lemma replace_space_length : forall s, String.length (replace_space s) = String.length s.
Proof. induction s; simpl; congruence. Qed.

Lemma replace_space_ascii : forall s, is_ascii s = true -> is_ascii (replace_space s) = true.
Proof.
  induction s as [| a s IH]; intros H; simpl in *; [reflexivity |].
  apply andb_true_iff in H. destruct H as [Ha Hs].
  apply andb_true_iff. split; [| now apply IH].
  destruct (nat_of_ascii a =? 32)%nat; [reflexivity | exact Ha].
Qed.

(** X9. The qualified name of a custom MCP with the string name [n] is
    built on its slug, [n] with spaces replaced by underscores and then
    lower-cased by Python: an entry of another type [t] with a [config]
    is described under [custom_<t>_<slug>] with that [config]; a
    [composio] entry is described under [composio.<slug>], unless it has a
    non-empty [qualifiedName], which is then kept.  For an ASCII name the
    slug has the length of [n], no space and no upper-case letter A to Z
    (for other names [str.lower()] can change the length). *)
Theorem qualified_name_derivation :
  forall (RT : PythonRuntime) (d : dict) (n : string),
    dict_get d "name" = Some (PStr n) ->
    MCPManager.slug d = Ok (lower (replace_space n))
    /\ (is_ascii n = true ->
        lower (replace_space n) = ascii_lower (replace_space n)
        /\ String.length (lower (replace_space n)) = String.length n
        /\ (forall c, In c (list_ascii_of_string (lower (replace_space n))) ->
                      c <> " "%char /\ lower_ascii c = c))
    /\ (forall t cfg,
          dict_get d "config" = Some cfg ->
          exists desc,
            MCPManager.generic_mcp_config (PStr t) d = Ok (PDict desc)
            /\ dict_get desc "qualifiedName"
               = Some (PStr ("custom_" ++ t ++ "_" ++ lower (replace_space n)))
            /\ dict_get desc "config" = Some cfg
            /\ dict_get desc "customType" = Some (PStr t))
    /\ (truthy (dict_get_none d "qualifiedName") = false ->
        exists desc,
          MCPManager.composio_mcp_config d = Ok (PDict desc)
          /\ dict_get desc "qualifiedName"
             = Some (PStr ("composio." ++ lower (replace_space n))))
    /\ (truthy (dict_get_none d "qualifiedName") = true ->
        exists desc,
          MCPManager.composio_mcp_config d = Ok (PDict desc)
          /\ dict_get desc "qualifiedName" = Some (dict_get_none d "qualifiedName")).
Proof.
  intros RT d n Hname.
  assert (Hslug : MCPManager.slug d = Ok (lower (replace_space n))).
  { unfold MCPManager.slug, MCPManager.dict_item. now rewrite Hname. }
  split; [exact Hslug |].
  split; [| split; [| split]].
  - intros Ha. rewrite (lower_on_ascii _ (replace_space_ascii n Ha)).
    split; [reflexivity |].
    split; [now rewrite ascii_lower_length, replace_space_length |].
    intros c Hc. destruct (ascii_lower_chars _ _ Hc) as [c' [Hin ->]].
    split; [| apply lower_ascii_idempotent].
    intros H. apply lower_ascii_space in H. subst c'.
    exact (replace_space_chars _ _ Hin eq_refl).
  - intros t cfg Hcfg. unfold MCPManager.generic_mcp_config.
    rewrite Hslug. unfold MCPManager.dict_item. rewrite Hname, Hcfg. cbn [bind].
    eexists. split; [reflexivity |]. repeat split; reflexivity.
  - intros Hq. unfold MCPManager.composio_mcp_config. rewrite Hq, Hslug.
    unfold MCPManager.dict_item. rewrite Hname. cbn [bind].
    eexists. split; reflexivity.
  - intros Hq. unfold MCPManager.composio_mcp_config. rewrite Hq.
    unfold MCPManager.dict_item. rewrite Hname. cbn [bind].
    eexists. split; reflexivity.
Qed.

Lemma qualified_name_derivation_witness :
  dict_get [("name", PStr "My Cool Tool"); ("config", PDict [])] "name"
  = Some (PStr "My Cool Tool")
  /\ exists desc,
      MCPManager.generic_mcp_config (RT := no_json) (PStr "sse")
        [("name", PStr "My Cool Tool"); ("config", PDict [])]
      = Ok (PDict desc)
      /\ dict_get desc "qualifiedName" = Some (PStr "custom_sse_my_cool_tool").
Proof.
  split; [reflexivity |].
  destruct (proj1 (proj2 (proj2
              (qualified_name_derivation no_json
                 [("name", PStr "My Cool Tool"); ("config", PDict [])]
                 "My Cool Tool" eq_refl))) "sse" (PDict []) eq_refl)
    as [desc [Hd [Hq _]]].
  exists desc. split; [exact Hd | exact Hq].
Defined.



(** ** PromptManager *)

Section PromptFacts.
Context {RT : PythonRuntime} {Ext : Type} {SV : Services Ext}.

Lemma list_schema_appends : forall name s info,
  exists added, fst (PromptManager.list_schema name s info) = (info ++ added)%string.
Proof.
  intros name s info. unfold PromptManager.list_schema.
  assert (H0 : exists added, info = (info ++ added)%string).
  { exists EmptyString. clear. induction info; simpl; congruence. }
  destruct (is_openapi s); [| exact H0].
  destruct (schema s); try exact H0.
  destruct (dict_get_default d "function" (PDict [])) as [ | | | | | func_info];
    try exact H0.
  set (line := ("- **" ++ name ++ "**: "
                ++ format_value (dict_get_default func_info "description"
                                   (PStr "No description available"))
                ++ newline)%string).
  assert (H1 : exists added,
             (info ++ "- **" ++ name ++ "**: "
              ++ format_value (dict_get_default func_info "description"
                                 (PStr "No description available"))
              ++ newline)%string = (info ++ added)%string).
  { exists line. reflexivity. }
  destruct (dict_get_default func_info "parameters" (PDict [])) as [ | | | | | params];
    try exact H1.
  destruct (truthy (dict_get_default params "properties" (PDict []))); [| exact H1].
  destruct (dict_get_default params "properties" (PDict [])) as [ | | | | | props];
    try exact H1.
  cbn [fst].
  exists (line ++ "  Parameters: " ++ join_comma (dict_keys props) ++ newline)%string.
  unfold line. now rewrite !append_assoc.
Qed.

Lemma list_schema_list_appends : forall name schemas info,
  exists added,
    fst (PromptManager.list_schema_list name schemas info) = (info ++ added)%string.
Proof.
  intros name schemas. induction schemas as [| s schemas IH]; intros info; simpl.
  - exists EmptyString. clear. induction info; simpl; congruence.
  - destruct (list_schema_appends name s info) as [a1 Ha1].
    destruct (PromptManager.list_schema name s info) as [info1 [|]]; cbn [fst] in Ha1.
    + destruct (IH info1) as [a2 Ha2]. rewrite Ha2, Ha1.
      exists (a1 ++ a2)%string. now rewrite append_assoc.
    + exists a1. exact Ha1.
Qed.

Lemma list_registered_schemas_appends : forall registered info,
  exists added,
    fst (PromptManager.list_registered_schemas registered info) = (info ++ added)%string.
Proof.
  induction registered as [| [name schemas] registered IH]; intros info; simpl.
  - exists EmptyString. clear. induction info; simpl; congruence.
  - destruct (list_schema_list_appends name schemas info) as [a1 Ha1].
    destruct (PromptManager.list_schema_list name schemas info) as [info1 [|]];
      cbn [fst] in Ha1.
    + destruct (IH info1) as [a2 Ha2]. rewrite Ha2, Ha1.
      exists (a1 ++ a2)%string. now rewrite append_assoc.
    + exists a1. exact Ha1.
Qed.

Lemma list_schema_list_skips : forall name schemas info,
  (forall s, In s schemas -> is_openapi s = false) ->
  PromptManager.list_schema_list name schemas info = (info, true).
Proof.
  intros name schemas. induction schemas as [| s schemas IH]; intros info H; simpl;
    [reflexivity |].
  unfold PromptManager.list_schema. rewrite (H s) by now left.
  apply IH. intros s' Hs'. apply H. now right.
Qed.

Lemma list_registered_schemas_skips : forall registered info,
  (forall name schemas s, In (name, schemas) registered -> In s schemas ->
                          is_openapi s = false) ->
  PromptManager.list_registered_schemas registered info = (info, true).
Proof.
  induction registered as [| [name schemas] registered IH]; intros info H; simpl;
    [reflexivity |].
  rewrite list_schema_list_skips.
  - apply IH. intros n l s Hin Hs. apply (H n l s); [now right | exact Hs].
  - intros s Hs. apply (H name schemas s); [now left | exact Hs].
Qed.

End PromptFacts.

(** X11. [build_system_prompt] fails in one case only: outside
    agent-builder mode, when the [system_prompt] of the agent definition
    is true for Python and is not a string (it has no [strip]).  A failed
    knowledge-base lookup or a malformed MCP schema never makes it fail.
    Every prompt it returns is a system message whose text ends with the
    date and time block; in agent-builder mode the text starts with the
    agent-builder prompt, whatever the model and the agent's own prompt. *)
Theorem build_system_prompt_outcome :
  forall (RT : PythonRuntime) (Ext : Type) (SV : Services Ext)
         model (ac : option dict) iab tid wrapper (w : World Ext),
    (forall e,
        PromptManager.build_system_prompt model ac iab tid wrapper w = Raise e ->
        optbool_truthy iab = false
        /\ exists d v,
             ac = Some d /\ dict_get d "system_prompt" = Some v
             /\ truthy v = true /\ (forall p, v <> PStr p)
             /\ e = no_attribute v "strip")
    /\ (forall msg,
          PromptManager.build_system_prompt model ac iab tid wrapper w = Ok msg ->
          exists before,
            msg = PDict [("role", PStr "system");
                         ("content",
                          PStr (before ++ PromptManager.datetime_info (now_utc w)))])
    /\ (optbool_truthy iab = true ->
        exists rest,
          PromptManager.build_system_prompt model ac iab tid wrapper w
          = Ok (PDict [("role", PStr "system");
                       ("content", PStr (get_agent_builder_prompt ++ rest))])).
Proof.
  intros RT Ext SV model ac iab tid wrapper w.
  unfold PromptManager.build_system_prompt.
  split; [| split].
  - intros e H.
    destruct (PromptManager.base_system_content model ac iab) as [base | e0] eqn:Hb;
      [discriminate H |].
    cbn [bind] in H. injection H as <-.
    unfold PromptManager.base_system_content in Hb.
    destruct (optbool_truthy iab); [discriminate Hb |].
    split; [reflexivity |].
    destruct ac as [[| kv d] |]; try discriminate Hb.
    destruct (truthy (dict_get_none (kv :: d) "system_prompt")) eqn:Ht;
      [| discriminate Hb].
    unfold dict_get_none, dict_get_default in Hb, Ht.
    destruct (dict_get (kv :: d) "system_prompt") as [v |] eqn:Hv; [| discriminate Ht].
    exists (kv :: d), v.
    destruct v; try discriminate Hb; injection Hb as <-;
      repeat split; auto; intros p; discriminate.
  - intros msg H.
    destruct (PromptManager.base_system_content model ac iab) as [base | e0];
      [| discriminate H].
    cbn [bind] in H. injection H as <-. eexists. reflexivity.
  - intros Hiab. unfold PromptManager.base_system_content. rewrite Hiab. cbn [bind].
    exists (PromptManager.knowledge_base_context ac w
            ++ PromptManager.mcp_info ac wrapper
            ++ PromptManager.datetime_info (now_utc w))%string.
    now rewrite !append_assoc.
Qed.

Lemma build_system_prompt_outcome_witness :
  optbool_truthy (Some true) = true
  /\ exists rest,
      PromptManager.build_system_prompt (RT := no_json) (SV := scripted)
        "anthropic/claude-sonnet-4" (Some [("system_prompt", PInt 7)]) (Some true)
        "thread-1" None (scripted_world [] (true, "ok") [])
      = Ok (PDict [("role", PStr "system");
                   ("content",
                    PStr (get_agent_builder_prompt (Services := scripted) ++ rest))]).
Proof.
  split; [reflexivity |].
  exact (proj2 (proj2 (build_system_prompt_outcome no_json script scripted
                         "anthropic/claude-sonnet-4" (Some [("system_prompt", PInt 7)])
                         (Some true) "thread-1" None (scripted_world [] (true, "ok") [])))
           eq_refl).
Defined.

(** X12. The section on MCP tools is added to the prompt exactly when the
    agent definition lists configured or custom MCPs and the wrapper is
    there and initialised.  When added it starts with the fixed header on
    the invocation grammar and ends with the fixed instructions on tool
    results, also when listing the tools fails half-way; schemas that are
    not OpenAPI schemas are not listed. *)
Theorem mcp_section_shape :
  forall (RT : PythonRuntime) (ac : option dict) (wrapper : option MCPToolWrapper),
    (PromptManager.mcp_info ac wrapper <> EmptyString <->
     exists d wr,
       ac = Some d /\ d <> []
       /\ truthy (dict_get_none d "configured_mcps") || truthy (dict_get_none d "custom_mcps")
          = true
       /\ wrapper = Some wr /\ _initialized wr = true)
    /\ (PromptManager.mcp_info ac wrapper = EmptyString
        \/ exists listing,
             PromptManager.mcp_info ac wrapper
             = (PromptManager.mcp_header ++ listing ++ PromptManager.mcp_instructions)%string)
    /\ (PromptManager.mcp_info ac wrapper <> EmptyString ->
        forall wr, wrapper = Some wr ->
        (forall name schemas s, In (name, schemas) (get_schemas wr) -> In s schemas ->
                                is_openapi s = false) ->
        PromptManager.mcp_info ac wrapper
        = (PromptManager.mcp_header ++ PromptManager.mcp_instructions)%string).
Proof.
  intros RT ac wrapper.
  assert (Hshape : forall wr,
    exists listing,
      match PromptManager.list_registered_schemas (get_schemas wr)
              PromptManager.mcp_header with
      | (info, true) => (info ++ PromptManager.mcp_instructions)%string
      | (info, false) =>
          (info ++ "- Error loading MCP tool list" ++ newline
           ++ PromptManager.mcp_instructions)%string
      end = (PromptManager.mcp_header ++ listing ++ PromptManager.mcp_instructions)%string).
  { intros wr.
    destruct (list_registered_schemas_appends (get_schemas wr) PromptManager.mcp_header)
      as [added Ha].
    destruct (PromptManager.list_registered_schemas (get_schemas wr)
                PromptManager.mcp_header) as [info [|]]; cbn [fst] in Ha; subst info.
    - exists added. now rewrite append_assoc.
    - exists (added ++ "- Error loading MCP tool list" ++ newline)%string.
      now rewrite !append_assoc. }
  assert (Hne : forall x, (PromptManager.mcp_header ++ x)%string <> EmptyString).
  { intros x. unfold PromptManager.mcp_header, newline. simpl. discriminate. }
  unfold PromptManager.mcp_info.
  destruct ac as [[| kv d] |]; [| | ].
  - split; [split; [congruence | intros [d [wr [H [Hd _]]]]; injection H as <-; congruence] |].
    split; [now left | congruence].
  - destruct wrapper as [wr |].
    + destruct (truthy (dict_get_none (kv :: d) "configured_mcps")
                || truthy (dict_get_none (kv :: d) "custom_mcps")) eqn:Hm;
        [destruct (_initialized wr) eqn:Hi |]; cbn [andb].
      * destruct (Hshape wr) as [listing Hl]. split; [| split].
        -- split; [intros _ | intros _; rewrite Hl; apply Hne].
           exists (kv :: d), wr. repeat split; auto. discriminate.
        -- right. exists listing. exact Hl.
        -- intros _ wr' Hwr Hskip. injection Hwr as <-.
           now rewrite list_registered_schemas_skips.
      * split; [split; [congruence |] |].
        -- intros [d' [wr' [_ [_ [_ [Hw Hi']]]]]]. injection Hw as <-. congruence.
        -- split; [now left | congruence].
      * split; [split; [congruence |] |].
        -- intros [d' [wr' [Hd [_ [Hm' _]]]]]. injection Hd as <-. congruence.
        -- split; [now left | congruence].
    + split; [split; [congruence |] |].
      * intros [d' [wr' [_ [_ [_ [Hw _]]]]]]. discriminate Hw.
      * split; [now left | congruence].
  - split; [split; [congruence | intros [d [wr [H _]]]; discriminate H] |].
    split; [now left | congruence].
Qed.

(** ** MessageManager *)






Lemma build_temporary_message_store : forall (RT : PythonRuntime) tid model s,
  snd (MessageManager.build_temporary_message tid model s)
  = match select_latest s tid ["image_context"] with
    | Some row =>
        match MessageManager.image_context_content (content row) with
        | Some _ => delete_message s (message_id row)
        | None => s
        end
    | None => s
    end.
Proof.
  intros RT tid model s. unfold MessageManager.build_temporary_message.
  destruct (select_latest s tid ["image_context"]) as [row |].
  - destruct (MessageManager.image_context_content (content row)) as [d |].
    + match goal with
      | |- snd (match ?l with [] => _ | _ => _ end) = _ => destruct l; reflexivity
      end.
    + match goal with
      | |- snd (match ?l with [] => _ | _ => _ end) = _ => destruct l; reflexivity
      end.
  - match goal with
    | |- snd (match ?l with [] => _ | _ => _ end) = _ => destruct l; reflexivity
    end.
Qed.

(** X15. [build_temporary_message] never adds a row to the message table,
    and the only rows it removes carry the [message_id] of the latest
    [image_context] row of the thread, whose content was read as an
    object.  With no [image_context] row, or with a latest one whose
    content is not an object or does not parse, the table is left as it
    is (the row stays); with neither a [browser_state] nor an
    [image_context] row the result is [None]. *)
Theorem temporary_message_store_frame :
  forall (RT : PythonRuntime) (tid model : string) (s : store),
    (forall r, In r (snd (MessageManager.build_temporary_message tid model s)) -> In r s)
    /\ (forall r, In r s ->
                  ~ In r (snd (MessageManager.build_temporary_message tid model s)) ->
                  exists row d,
                    select_latest s tid ["image_context"] = Some row
                    /\ MessageManager.image_context_content (content row) = Some d
                    /\ message_id r = message_id row)
    /\ (select_latest s tid ["image_context"] = None ->
        snd (MessageManager.build_temporary_message tid model s) = s)
    /\ (forall row,
          select_latest s tid ["image_context"] = Some row ->
          MessageManager.image_context_content (content row) = None ->
          MessageManager.build_temporary_message tid model s
          = (as_temporary_message (browser_blocks_of tid model s), s))
    /\ (select_latest s tid ["browser_state"] = None ->
        select_latest s tid ["image_context"] = None ->
        MessageManager.build_temporary_message tid model s = (None, s)).
Proof.
  intros RT tid model s. rewrite build_temporary_message_store.
  split; [| split; [| split; [| split]]].
  - intros r H.
    destruct (select_latest s tid ["image_context"]) as [row |]; [| exact H].
    destruct (MessageManager.image_context_content (content row)); [| exact H].
    unfold delete_message in H. apply filter_In in H. apply H.
  - intros r Hin Hout.
    destruct (select_latest s tid ["image_context"]) as [row |]; [| contradiction].
    destruct (MessageManager.image_context_content (content row)) as [d |] eqn:Hd;
      [| contradiction].
    exists row, d. split; [reflexivity | split; [exact Hd |]].
    destruct (String.eqb_spec (message_id r) (message_id row)) as [E | E]; [exact E |].
    exfalso. apply Hout. unfold delete_message. apply filter_In. split; [exact Hin |].
    apply negb_true_iff. now apply String.eqb_neq.
  - intros ->. reflexivity.
  - intros row Hrow Hc. unfold MessageManager.build_temporary_message.
    rewrite Hrow, Hc. fold (browser_blocks_of tid model s).
    destruct (browser_blocks_of tid model s); reflexivity.
  - intros Hb Hi. unfold MessageManager.build_temporary_message.
    rewrite Hb, Hi. reflexivity.
Qed.

Lemma temporary_message_store_frame_witness :
  select_latest [stored "m1" "thread-1" "image_context" (PStr "not json") 1]
    "thread-1" ["image_context"]
  = Some (stored "m1" "thread-1" "image_context" (PStr "not json") 1)
  /\ MessageManager.image_context_content (RT := no_json) (PStr "not json") = None
  /\ MessageManager.build_temporary_message (RT := no_json) "thread-1" "openai/gpt-5-mini"
       [stored "m1" "thread-1" "image_context" (PStr "not json") 1]
     = (None, [stored "m1" "thread-1" "image_context" (PStr "not json") 1]).
Proof.
  split; [reflexivity | split; [reflexivity |]].
  exact (proj1 (proj2 (proj2 (proj2
           (temporary_message_store_frame no_json "thread-1" "openai/gpt-5-mini"
              [stored "m1" "thread-1" "image_context" (PStr "not json") 1]))))
           (stored "m1" "thread-1" "image_context" (PStr "not json") 1) eq_refl eq_refl).
Defined.

Lemma filter_none : forall (A : Type) (f : A -> bool) (l : list A),
  (forall x, In x l -> f x = false) -> filter f l = [].
Proof.
  intros A f l. induction l as [| x l IH]; intros H; simpl; [reflexivity |].
  rewrite (H x) by now left. apply IH. intros y Hy. apply H. now right.
Qed.

Lemma unique_message_id : forall (s : store) r r',
  NoDup (map message_id s) -> In r s -> In r' s ->
  message_id r = message_id r' -> r = r'.
Proof.
  induction s as [| x s IH]; intros r r' Hnd Hr Hr' Hid; [contradiction |].
  simpl in Hnd. inversion Hnd as [| ? ? Hx Hnd']; subst.
  destruct Hr as [-> | Hr], Hr' as [-> | Hr'].
  - reflexivity.
  - exfalso. apply Hx. rewrite Hid. now apply in_map.
  - exfalso. apply Hx. rewrite <- Hid. now apply in_map.
  - now apply IH.
Qed.

Lemma select_latest_after_delete : forall (s : store) tid types id,
  (forall r, In r s -> message_id r = id ->
             (row_thread_id r =? tid)%string && str_in (row_type r) types = false) ->
  select_latest (delete_message s id) tid types = select_latest s tid types.
Proof.
  intros s tid types id H. unfold select_latest, delete_message. f_equal.
  induction s as [| x s IH]; simpl; [reflexivity |].
  assert (IH' : filter (fun r => (row_thread_id r =? tid)%string
                                 && str_in (row_type r) types)
                  (filter (fun r => negb (message_id r =? id)%string) s)
                = filter (fun r => (row_thread_id r =? tid)%string
                                   && str_in (row_type r) types) s).
  { apply IH. intros r Hr. apply H. now right. }
  destruct (String.eqb_spec (message_id x) id) as [E | E]; simpl.
  - rewrite (H x (or_introl eq_refl) E). exact IH'.
  - now rewrite IH'.
Qed.

(** X16. An image context is consumed once.  In a table with unique
    message ids, when the latest [image_context] row of the thread has an
    object as content and is the only [image_context] row of the thread, a
    second call of [build_temporary_message] finds it gone: it returns
    the browser-state blocks alone and leaves the table as the first call
    left it. *)
Theorem image_context_consumed_once :
  forall (RT : PythonRuntime) (tid model : string) (s : store) (row : message) (d : dict),
    NoDup (map message_id s) ->
    select_latest s tid ["image_context"] = Some row ->
    parses_as RT (content row) d ->
    (forall r, In r s -> matches tid ["image_context"] r -> r = row) ->
    MessageManager.build_temporary_message tid model
      (snd (MessageManager.build_temporary_message tid model s))
    = (as_temporary_message (browser_blocks_of tid model s),
       snd (MessageManager.build_temporary_message tid model s)).
Proof.
  intros RT tid model s row d Hnd Hsel Hparse Honly.
  destruct (select_latest_In _ _ _ _ Hsel) as [Hin [Htid Hty]].
  rewrite build_temporary_message_store, Hsel.
  rewrite (image_context_content_parsed RT _ _ Hparse).
  set (s' := delete_message s (message_id row)).
  assert (Hty' : row_type row = "image_context").
  { simpl in Hty. destruct Hty as [H | []]. now symmetry. }
  assert (Himg : select_latest s' tid ["image_context"] = None).
  { unfold select_latest. rewrite filter_none; [reflexivity |].
    intros r Hr. unfold s', delete_message in Hr. apply filter_In in Hr.
    destruct Hr as [Hr Hid]. apply negb_true_iff, String.eqb_neq in Hid.
    destruct ((row_thread_id r =? tid)%string && str_in (row_type r) ["image_context"])
      eqn:E; [| reflexivity].
    apply andb_true_iff in E. destruct E as [E1 E2].
    apply String.eqb_eq in E1. apply str_in_iff in E2.
    exfalso. apply Hid. f_equal. apply Honly; [exact Hr | split; assumption]. }
  assert (Hbrowser : select_latest s' tid ["browser_state"]
                     = select_latest s tid ["browser_state"]).
  { apply select_latest_after_delete. intros r Hr Hid.
    rewrite (unique_message_id s r row Hnd Hr Hin Hid), Hty'.
    apply andb_false_r. }
  unfold MessageManager.build_temporary_message at 1.
  rewrite Himg, Hbrowser. fold (browser_blocks_of tid model s).
  destruct (browser_blocks_of tid model s); reflexivity.
Qed.

Lemma image_context_consumed_once_witness :
  MessageManager.build_temporary_message (RT := no_json) "thread-1" "openai/gpt-5-mini"
    (snd (MessageManager.build_temporary_message (RT := no_json) "thread-1"
            "openai/gpt-5-mini"
            [stored "m1" "thread-1" "user" (PStr "show me") 1;
             stored "m2" "thread-1" "image_context"
               (PDict [("base64", PStr "AAAA"); ("mime_type", PStr "image/png")]) 2]))
  = (None, [stored "m1" "thread-1" "user" (PStr "show me") 1]).
Proof.
  assert (Hnd : NoDup (map message_id
                  [stored "m1" "thread-1" "user" (PStr "show me") 1;
                   stored "m2" "thread-1" "image_context"
                     (PDict [("base64", PStr "AAAA"); ("mime_type", PStr "image/png")]) 2])).
  { repeat constructor; simpl; intros H; repeat (destruct H as [H | H]; try discriminate H);
      contradiction. }
  rewrite (image_context_consumed_once no_json "thread-1" "openai/gpt-5-mini" _
             (stored "m2" "thread-1" "image_context"
                (PDict [("base64", PStr "AAAA"); ("mime_type", PStr "image/png")]) 2)
             [("base64", PStr "AAAA"); ("mime_type", PStr "image/png")]
             Hnd eq_refl (or_introl eq_refl)).
  - reflexivity.
  - intros r Hr [_ Hm]. simpl in Hr, Hm.
    destruct Hr as [<- | [<- | []]]; [| reflexivity].
    simpl in Hm. destruct Hm as [Hm | []]. discriminate Hm.
Defined.

(** ** AgentRunner: the stream of a pass *)

Section StreamFacts.
Context {RT : PythonRuntime}.

Lemma handle_chunk_dict : forall d st, exists st', handle_chunk (PDict d) st = Ok st'.
Proof.
  intros d st. unfold handle_chunk.
  destruct (is_error_chunk (PDict d)); eexists; reflexivity.
Qed.

Lemma consume_stream_total : forall s st,
  stream_ends s = true -> all_dicts s ->
  exists st', consume_stream s st = (stream_chunks s, Ok st').
Proof.
  induction s as [| chunk rest IH | e]; intros st He Hd; simpl in *.
  - eexists. reflexivity.
  - destruct (Hd chunk (or_introl eq_refl)) as [d ->].
    destruct (handle_chunk_dict d st) as [st1 H1]. rewrite H1.
    destruct (IH st1 He) as [st' H'].
    + intros c Hc. apply Hd. now right.
    + rewrite H'. eexists. reflexivity.
  - discriminate He.
Qed.

Lemma process_status_chunk_stop : forall d st,
  stop_requested st = true -> stop_requested (process_status_chunk d st) = true.
Proof.
  intros d st H. unfold process_status_chunk.
  repeat (match goal with
          | |- context [match ?x with _ => _ end] => destruct x
          end; try exact H; try reflexivity).
Qed.

Lemma scan_closing_tags_stop : forall text st,
  stop_requested st = true -> stop_requested (scan_closing_tags text st) = true.
Proof.
  intros text st H. unfold scan_closing_tags.
  repeat (match goal with
          | |- context [if ?x then _ else _] => destruct x
          end; try exact H);
    unfold stop_requested; cbn; apply orb_true_r.
Qed.

Lemma process_assistant_chunk_stop : forall d st,
  stop_requested st = true -> stop_requested (process_assistant_chunk d st) = true.
Proof.
  intros d st H. unfold process_assistant_chunk.
  destruct (loads_if_str _) as [[ | | | | | acj] |]; try exact H.
  destruct (dict_get_default acj "content" (PStr EmptyString)); try exact H.
  apply scan_closing_tags_stop. exact H.
Qed.

Lemma handle_chunk_stop : forall chunk st st',
  handle_chunk chunk st = Ok st' ->
  stop_requested st = true -> stop_requested st' = true.
Proof.
  intros chunk st st' H Hs. unfold handle_chunk in H.
  destruct (is_error_chunk chunk).
  - injection H as <-. exact Hs.
  - destruct chunk as [ | | | | | d]; try discriminate H.
    cbn [as_dict bind] in H. injection H as <-.
    destruct (str_eq (dict_get_none d "type") "status");
      destruct (str_eq (dict_get_none d "type") "assistant" && dict_has d "content");
      auto using process_status_chunk_stop, process_assistant_chunk_stop.
Qed.

Lemma consume_stream_stop : forall s st yielded st',
  consume_stream s st = (yielded, Ok st') ->
  stop_requested st = true -> stop_requested st' = true.
Proof.
  induction s as [| chunk rest IH | e]; intros st yielded st' H Hs; simpl in H.
  - now inversion H; subst.
  - destruct (handle_chunk chunk st) as [st1 | e] eqn:Hh; [| discriminate H].
    destruct (consume_stream rest st1) as [ys r] eqn:Hrest.
    inversion H; subst. eapply IH; [exact Hrest |].
    eapply handle_chunk_stop; eassumption.
  - discriminate H.
Qed.

Lemma closing_tag_chunk_stops : forall d st st',
  closing_tag_chunk d -> handle_chunk (PDict d) st = Ok st' -> stop_requested st' = true.
Proof.
  intros d st st' [text [Ht Htag]] H.
  rewrite (handle_assistant_chunk RT d text st Ht) in H. injection H as <-.
  unfold scan_closing_tags, stop_requested.
  assert (Hany : contains "</ask>" text || contains "</complete>" text
                 || contains "</web-browser-takeover>" text = true).
  { destruct Htag as [H | [H | H]]; apply contains_iff in H; rewrite H;
      rewrite ?orb_true_r; reflexivity. }
  rewrite Hany.
  destruct (contains "</ask>" text); [cbn; apply orb_true_r |].
  destruct (contains "</complete>" text); [cbn; apply orb_true_r |].
  simpl in Hany. rewrite Hany. cbn. apply orb_true_r.
Qed.

Lemma termination_signal_stops : forall d st st',
  termination_signal d -> handle_chunk (PDict d) st = Ok st' -> stop_requested st' = true.
Proof.
  intros d st st' [Hty [Hne [metadata [Hm Hflag]]]] H.
  unfold handle_chunk, is_error_chunk in H. rewrite Hne, andb_false_r in H.
  cbn [as_dict bind] in H. injection H as <-.
  assert (Htype : dict_get_none d "type" = PStr "status")
    by (unfold dict_get_none, dict_get_default; now rewrite Hty).
  rewrite Htype.
  change (str_eq (PStr "status") "status") with true.
  change (str_eq (PStr "status") "assistant") with false.
  cbn [andb]. unfold process_status_chunk. rewrite Hm, Hflag.
  repeat (match goal with
          | |- context [match ?x with _ => _ end] => destruct x
          end; try reflexivity).
Qed.

End StreamFacts.

(** X17. The loop over the stream changes no chunk and drops none: what
    it yields is always an initial part of the chunks of the stream, in
    order, and all of them when the stream ends and every chunk is a
    dict, whatever the chunks hold (malformed JSON in a chunk is not an
    error of the loop). *)
Theorem stream_is_relayed :
  forall (RT : PythonRuntime) (s : chunk_stream) (st : stream_state),
    (exists rest, stream_chunks s = (fst (consume_stream s st) ++ rest)%list)
    /\ (forall st', snd (consume_stream s st) = Ok st' ->
                    fst (consume_stream s st) = stream_chunks s)
    /\ (stream_ends s = true -> all_dicts s ->
        exists st', consume_stream s st = (stream_chunks s, Ok st')).
Proof.
  intros RT s st. split; [| split].
  - revert st. induction s as [| chunk rest IH | e]; intros st; simpl.
    + exists []. reflexivity.
    + destruct (handle_chunk chunk st) as [st1 | e].
      * destruct (IH st1) as [tail Ht].
        destruct (consume_stream rest st1) as [ys r]. cbn [fst] in *.
        exists tail. simpl. now rewrite Ht.
      * exists (chunk :: stream_chunks rest). reflexivity.
    + exists []. reflexivity.
  - intros st' H. destruct (consume_stream s st) as [ys r] eqn:Hc.
    cbn [fst snd] in *. subst r. eapply consume_stream_ok. exact Hc.
  - apply consume_stream_total.
Qed.

Lemma stream_is_relayed_witness :
  stream_ends malformed_assistant_stream = true
  /\ all_dicts malformed_assistant_stream
  /\ exists st',
      consume_stream (RT := no_json) malformed_assistant_stream initial_stream_state
      = ([PDict [("type", PStr "assistant"); ("content", PStr "{oops")]], Ok st').
Proof.
  assert (Hd : all_dicts malformed_assistant_stream).
  { intros chunk [<- | []]. eexists. reflexivity. }
  split; [reflexivity | split; [exact Hd |]].
  exact (proj2 (proj2 (stream_is_relayed no_json malformed_assistant_stream
                         initial_stream_state)) eq_refl Hd).
Defined.

Lemma consume_stream_stop_request :
  forall (RT : PythonRuntime) (s : chunk_stream) (st0 st : stream_state)
         (yielded : list pyval) (chunk : dict),
    consume_stream s st0 = (yielded, Ok st) ->
    In (PDict chunk) yielded ->
    termination_signal chunk \/ closing_tag_chunk chunk ->
    stop_requested st = true.
Proof.
  intros RT s. induction s as [| c rest IH | e]; intros st0 st yielded chunk H Hin Hsig;
    simpl in H.
  - inversion H; subst. contradiction.
  - destruct (handle_chunk c st0) as [st1 | e] eqn:Hh; [| discriminate H].
    destruct (consume_stream rest st1) as [ys r] eqn:Hrest.
    inversion H; subst. destruct Hin as [-> | Hin].
    + eapply consume_stream_stop; [exact Hrest |].
      destruct Hsig as [Hs | Hs];
        [eapply termination_signal_stops | eapply closing_tag_chunk_stops]; eassumption.
    + eapply IH; eassumption.
  - discriminate H.
Qed.

Section StopOrigin.
Context {RT : PythonRuntime}.

Lemma str_eq_true : forall v s, str_eq v s = true -> v = PStr s.
Proof.
  intros [ | | | s' | | ] s H; try discriminate H.
  simpl in H. apply String.eqb_eq in H. now subst.
Qed.

Lemma dict_get_none_str : forall d k s,
  dict_get_none d k = PStr s -> dict_get d k = Some (PStr s).
Proof.
  intros d k s H. unfold dict_get_none, dict_get_default in H.
  destruct (dict_get d k); [now subst | discriminate H].
Qed.

Lemma process_status_chunk_origin : forall d st,
  stop_requested (process_status_chunk d st) = true ->
  stop_requested st = true
  \/ exists metadata : dict,
       loads_if_str (dict_get_default d "metadata" (PDict [])) = Some (PDict metadata)
       /\ truthy (dict_get_none metadata "agent_should_terminate") = true.
Proof.
  intros d st H. unfold process_status_chunk in H.
  destruct (loads_if_str (dict_get_default d "metadata" (PDict [])))
    as [[ | | | | | m] |]; try (left; exact H).
  destruct (truthy (dict_get_none m "agent_should_terminate")) eqn:Hf;
    [right; exists m; split; [reflexivity | exact Hf] | left; exact H].
Qed.

Lemma scan_closing_tags_origin : forall text st,
  stop_requested (scan_closing_tags text st) = true ->
  stop_requested st = true
  \/ contains "</ask>" text || contains "</complete>" text
     || contains "</web-browser-takeover>" text = true.
Proof.
  intros text st H. unfold scan_closing_tags in H.
  destruct (contains "</ask>" text || contains "</complete>" text
            || contains "</web-browser-takeover>" text);
    [right; reflexivity | left; exact H].
Qed.

Lemma process_assistant_chunk_origin : forall d st,
  dict_get d "type" = Some (PStr "assistant") ->
  dict_has d "content" = true ->
  stop_requested (process_assistant_chunk d st) = true ->
  stop_requested st = true \/ closing_tag_chunk d.
Proof.
  intros d st Hty Hhas H. unfold process_assistant_chunk in H.
  unfold dict_has in Hhas. unfold dict_get_default at 1 in H.
  destruct (dict_get d "content") as [v |] eqn:Hv; [| discriminate Hhas].
  destruct (loads_if_str v) as [[ | | | | | inner] |] eqn:Hl; try (left; exact H).
  destruct (dict_get_default inner "content" (PStr EmptyString))
    as [ | | | text | | ] eqn:Ht; try (left; exact H).
  destruct (scan_closing_tags_origin _ _ H) as [H0 | Htag]; [left; exact H0 |].
  right. exists text. split.
  - split; [exact Hty |]. exists inner. split.
    + destruct v as [ | | | s | | dv]; simpl in Hl; try discriminate Hl.
      * right. exists s. split; [exact Hv | exact Hl].
      * left. injection Hl as ->. exact Hv.
    + unfold dict_get_default in Ht.
      destruct (dict_get inner "content") as [x |]; [now subst |].
      injection Ht as <-. discriminate Htag.
  - apply orb_true_iff in Htag. destruct Htag as [Htag | Htag].
    + apply orb_true_iff in Htag. destruct Htag as [Htag | Htag];
        apply contains_iff in Htag; auto.
    + apply contains_iff in Htag. auto.
Qed.

Lemma handle_chunk_stop_origin : forall chunk st st',
  handle_chunk chunk st = Ok st' ->
  stop_requested st' = true ->
  stop_requested st = true
  \/ exists d, chunk = PDict d /\ (termination_signal d \/ closing_tag_chunk d).
Proof.
  intros chunk st st' H Hs. unfold handle_chunk in H.
  destruct (is_error_chunk chunk) eqn:He.
  - injection H as <-. left. exact Hs.
  - destruct chunk as [ | | | | | d]; try discriminate H.
    cbn [as_dict bind] in H. injection H as <-.
    destruct (str_eq (dict_get_none d "type") "assistant" && dict_has d "content")
      eqn:Ha.
    + apply andb_true_iff in Ha. destruct Ha as [Hty Hhas].
      apply str_eq_true in Hty.
      rewrite Hty in Hs. change (str_eq (PStr "assistant") "status") with false in Hs.
      cbv iota in Hs.
      destruct (process_assistant_chunk_origin d st (dict_get_none_str _ _ _ Hty) Hhas Hs)
        as [H0 | Hc]; [left; exact H0 | right; exists d; auto].
    + destruct (str_eq (dict_get_none d "type") "status") eqn:Hty; [| left; exact Hs].
      destruct (process_status_chunk_origin d st Hs) as [H0 | [m [Hm Hf]]];
        [left; exact H0 |].
      right. exists d. split; [reflexivity | left].
      split; [apply dict_get_none_str, str_eq_true, Hty |].
      split; [| exists m; split; assumption].
      simpl in He. rewrite Hty in He. exact He.
Qed.

Lemma consume_stream_stop_origin : forall s st yielded st',
  consume_stream s st = (yielded, Ok st') ->
  stop_requested st' = true ->
  stop_requested st = true
  \/ exists d, In (PDict d) yielded /\ (termination_signal d \/ closing_tag_chunk d).
Proof.
  induction s as [| c rest IH | e]; intros st yielded st' H Hs; simpl in H.
  - inversion H; subst. now left.
  - destruct (handle_chunk c st) as [st1 | e] eqn:Hh; [| discriminate H].
    destruct (consume_stream rest st1) as [ys r] eqn:Hrest.
    inversion H; subst.
    destruct (IH _ _ _ Hrest Hs) as [H1 | [d [Hin Hd]]].
    + destruct (handle_chunk_stop_origin _ _ _ Hh H1) as [H0 | [d [-> Hd]]];
        [left; exact H0 | right; exists d; split; [now left | exact Hd]].
    + right. exists d. split; [now right | exact Hd].
  - discriminate H.
Qed.

End StopOrigin.

(** X18. The test made after the stream of a pass finds that the run is
    to stop exactly when some chunk that was yielded asked for it: a
    status chunk, not an error, with a true [agent_should_terminate] in
    its metadata, or an assistant chunk whose text holds a closing tag of
    [ask], [complete] or [web-browser-takeover].  No later chunk takes
    the request back. *)
Theorem pass_stops_iff_asked :
  forall (RT : PythonRuntime) (s : chunk_stream) (st : stream_state)
         (yielded : list pyval),
    consume_stream s initial_stream_state = (yielded, Ok st) ->
    (stop_requested st = true
     <-> exists chunk : dict,
           In (PDict chunk) yielded
           /\ (termination_signal chunk \/ closing_tag_chunk chunk)).
Proof.
  intros RT s st yielded H. split.
  - intros Hs. destruct (consume_stream_stop_origin s _ _ _ H Hs) as [H0 | Hex];
      [discriminate H0 | exact Hex].
  - intros [chunk [Hin Hsig]].
    exact (consume_stream_stop_request RT s _ _ _ chunk H Hin Hsig).
Qed.

Lemma pass_stops_iff_asked_witness :
  exists st,
    snd (consume_stream (RT := no_json) closing_tag_stream initial_stream_state)
    = Ok st
    /\ stop_requested st = true.
Proof.
  destruct (consume_stream (RT := no_json) closing_tag_stream initial_stream_state)
    as [ys r] eqn:H.
  assert (Hr : exists st, r = Ok st).
  { vm_compute in H. injection H as _ <-. eexists; reflexivity. }
  destruct Hr as [st ->]. exists st. split; [reflexivity |].
  assert (Hys : ys = stream_chunks closing_tag_stream).
  { vm_compute in H. injection H as <- _. reflexivity. }
  subst ys.
  apply (proj2 (pass_stops_iff_asked no_json closing_tag_stream st _ H)).
  exists [("type", PStr "assistant");
          ("content", PDict [("content", PStr "Done</complete>")])].
  split; [left; reflexivity | right].
  exists "Done</complete>". split.
  - split; [reflexivity |]. eexists. split; [left; reflexivity | reflexivity].
  - right; left. exists "Done", EmptyString. reflexivity.
Defined.

(** ** AgentRunner: how a pass that reached the engine ends *)

Section PassFacts.
Context {RT : PythonRuntime} {Ext : Type} {SV : Services Ext}.

Lemma loop_body_engine : forall self system_message c (w w' : World Ext) args r,
  pass_reaches_engine self system_message w args r w' ->
  loop_body self system_message c w
  = (EvRunThread args r :: fst (fst (after_run_thread r c)),
     snd (fst (after_run_thread r c)), snd (after_run_thread r c), w').
Proof.
  intros self system_message c w w' args r [m [w1 [Hb [Hl [Ha Hr]]]]].
  unfold loop_body. rewrite Hb. cbn [negb]. rewrite Hl.
  destruct (MessageManager.build_temporary_message (thread_id (config self))
              (model_name (config self)) (messages w1)) as [tmp s1].
  cbn [fst snd] in Ha, Hr. subst args. rewrite Hr.
  destruct (after_run_thread r c) as [[evs ctl] c']. reflexivity.
Qed.

Lemma handle_chunk_error_kept : forall chunk st st',
  handle_chunk chunk st = Ok st' ->
  error_detected st = true -> error_detected st' = true.
Proof.
  intros chunk st st' H He. destruct (is_error_chunk chunk) eqn:Hc.
  - unfold handle_chunk in H. rewrite Hc in H. now injection H as <-.
  - now rewrite (handle_chunk_error chunk st st' H Hc).
Qed.

Lemma consume_stream_error_kept : forall s st yielded st',
  consume_stream s st = (yielded, Ok st') ->
  error_detected st = true -> error_detected st' = true.
Proof.
  induction s as [| chunk rest IH | e]; intros st yielded st' H He; simpl in H.
  - now inversion H; subst.
  - destruct (handle_chunk chunk st) as [st1 | e] eqn:Hh; [| discriminate H].
    destruct (consume_stream rest st1) as [ys r] eqn:Hrest.
    inversion H; subst. eapply IH; [exact Hrest |].
    eapply handle_chunk_error_kept; eassumption.
  - discriminate H.
Qed.

Lemma consume_stream_error_seen : forall s st yielded st' chunk,
  consume_stream s st = (yielded, Ok st') ->
  In chunk yielded -> is_error_chunk chunk = true ->
  error_detected st' = true.
Proof.
  induction s as [| c rest IH | e]; intros st yielded st' chunk H Hin Hc; simpl in H.
  - inversion H; subst. contradiction.
  - destruct (handle_chunk c st) as [st1 | e] eqn:Hh; [| discriminate H].
    destruct (consume_stream rest st1) as [ys r] eqn:Hrest.
    inversion H; subst. destruct Hin as [-> | Hin].
    + eapply consume_stream_error_kept; [exact Hrest |].
      unfold handle_chunk in Hh. rewrite Hc in Hh. now injection Hh as <-.
    + eapply IH; eassumption.
  - discriminate H.
Qed.

Lemma run_thread_calls_none : forall evs args r,
  run_thread_calls evs = 0%nat -> ~ In (EvRunThread args r) evs.
Proof.
  induction evs as [| [a r0 | c] evs IH]; intros args r H Hin; simpl in *.
  - contradiction.
  - discriminate H.
  - destruct Hin as [Hin | Hin]; [discriminate Hin | now apply (IH args r)].
Qed.

End PassFacts.

(** X19. A pass that reached the engine and whose stream ends, holds
    dict chunks only, no error chunk, and a chunk that asks to stop (a
    termination signal or a closing tag of a terminal tool) is the last
    pass of the run: the events from that pass on are the call and the
    chunks of the stream, the loop is left by its condition with
    [continue_execution] false, and [run_thread] is not called again. *)
Theorem pass_with_stop_request_ends_run :
  forall (RT : PythonRuntime) (Ext : Type) (SV : Services Ext)
         fuel self system_message n (w w' : World Ext) args s,
    n < max_iterations (config self) ->
    pass_reaches_engine self system_message w args (Ok (RespStream s)) w' ->
    stream_ends s = true ->
    all_dicts s ->
    (forall chunk, In chunk (stream_chunks s) -> is_error_chunk chunk = false) ->
    (exists chunk, In (PDict chunk) (stream_chunks s)
                   /\ (termination_signal chunk \/ closing_tag_chunk chunk)) ->
    run_loop (S fuel) self system_message n true w
    = Some (EvRunThread args (Ok (RespStream s)) :: map EvYield (stream_chunks s),
            {| iteration_count := n + 1;
               continue_execution := false;
               left_by_break := false;
               self_after := self;
               world_after := w' |}).
Proof.
  intros RT Ext SV fuel self system_message n w w' args s Hn Hpass He Hd Hnoerr
    [chunk [Hin Hsig]].
  destruct (consume_stream_total s initial_stream_state He Hd) as [st Hst].
  assert (Herr : error_detected st = false).
  { destruct (error_detected st) eqn:E; [| reflexivity].
    destruct (consume_stream_error _ _ _ _ Hst E) as [H0 | [c [Hc1 Hc2]]];
      [discriminate H0 |].
    rewrite (Hnoerr c Hc1) in Hc2. discriminate Hc2. }
  pose proof (consume_stream_stop_request RT s _ _ _ chunk Hst Hin Hsig) as Hstop.
  rewrite (run_loop_enter fuel self system_message n w Hn).
  rewrite (loop_body_engine self system_message true w w' args _ Hpass).
  unfold after_run_thread. rewrite Hst, Herr.
  unfold stop_requested in Hstop. rewrite Hstop. cbn [fst snd].
  rewrite (run_loop_exit fuel self system_message (n + 1) false w' (or_introl eq_refl)).
  now rewrite app_nil_r.
Qed.

Lemma pass_with_stop_request_ends_run_witness :
  exists args,
    run_loop (RT := no_json) (SV := scripted) 1 (example_runner 3)
      system_message_example 0 true
      (waiting_world [Ok (RespStream closing_tag_stream)])
    = Some (EvRunThread args (Ok (RespStream closing_tag_stream))
              :: map EvYield (stream_chunks closing_tag_stream),
            {| iteration_count := 0 + 1;
               continue_execution := false;
               left_by_break := false;
               self_after := example_runner 3;
               world_after := waiting_world [] |}).
Proof.
  eexists.
  apply (pass_with_stop_request_ends_run no_json script scripted 0 (example_runner 3)
           system_message_example 0
           (waiting_world [Ok (RespStream closing_tag_stream)]) (waiting_world [])).
  - reflexivity.
  - exists "ok", (waiting_world [Ok (RespStream closing_tag_stream)]).
    repeat split; reflexivity.
  - reflexivity.
  - intros chunk [<- | [<- | []]]; eexists; reflexivity.
  - intros chunk [<- | [<- | []]]; reflexivity.
  - exists [("type", PStr "assistant");
            ("content", PDict [("content", PStr "Done</complete>")])].
    split; [left; reflexivity | right].
    exists "Done</complete>". split.
    + split; [reflexivity |]. eexists. split; [left; reflexivity | reflexivity].
    + right; left. exists "Done", EmptyString. reflexivity.
Defined.

(** X20. A pass that reached the engine and whose stream ends, holds dict
    chunks only, and among them no error chunk, no termination signal and
    no assistant chunk with a closing tag of a terminal tool, does not
    end the run: its call and its chunks are followed by whatever the
    loop does next, entered again with the next iteration count, on the
    world the engine left. *)
Theorem pass_without_stop_request_continues :
  forall (RT : PythonRuntime) (Ext : Type) (SV : Services Ext)
         fuel self system_message n (w w' : World Ext) args s,
    n < max_iterations (config self) ->
    pass_reaches_engine self system_message w args (Ok (RespStream s)) w' ->
    stream_ends s = true ->
    all_dicts s ->
    (forall chunk, In chunk (stream_chunks s) -> is_error_chunk chunk = false) ->
    (forall chunk : dict, In (PDict chunk) (stream_chunks s) ->
       ~ termination_signal chunk /\ ~ closing_tag_chunk chunk) ->
    run_loop (S fuel) self system_message n true w
    = match run_loop fuel self system_message (n + 1) true w' with
      | Some (evs, ex) =>
          Some ((EvRunThread args (Ok (RespStream s))
                   :: map EvYield (stream_chunks s) ++ evs)%list, ex)
      | None => None
      end.
Proof.
  intros RT Ext SV fuel self system_message n w w' args s Hn Hpass He Hd Hnoerr Hnone.
  destruct (consume_stream_total s initial_stream_state He Hd) as [st Hst].
  assert (Herr : error_detected st = false).
  { destruct (error_detected st) eqn:E; [| reflexivity].
    destruct (consume_stream_error _ _ _ _ Hst E) as [H0 | [c [Hc1 Hc2]]];
      [discriminate H0 |].
    rewrite (Hnoerr c Hc1) in Hc2. discriminate Hc2. }
  assert (Hstop : stop_requested st = false).
  { destruct (stop_requested st) eqn:E; [| reflexivity].
    destruct (consume_stream_stop_origin s _ _ _ Hst E) as [H0 | [d [Hin [Hs | Hs]]]];
      [discriminate H0 | |]; destruct (Hnone d Hin) as [H1 H2]; contradiction. }
  rewrite (run_loop_enter fuel self system_message n w Hn).
  rewrite (loop_body_engine self system_message true w w' args _ Hpass).
  unfold after_run_thread. rewrite Hst, Herr.
  unfold stop_requested in Hstop. rewrite Hstop. cbn [fst snd].
  destruct (run_loop fuel self system_message (n + 1) true w') as [[evs ex] |];
    reflexivity.
Qed.

Lemma pass_without_stop_request_continues_witness :
  exists args,
    run_loop (RT := no_json) (SV := scripted) 3 (example_runner 3)
      system_message_example 0 true
      (waiting_world [Ok (RespStream plain_text_stream)])
    = match run_loop (RT := no_json) (SV := scripted) 2 (example_runner 3)
              system_message_example (0 + 1) true (waiting_world []) with
      | Some (evs, ex) =>
          Some ((EvRunThread args (Ok (RespStream plain_text_stream))
                   :: map EvYield (stream_chunks plain_text_stream) ++ evs)%list, ex)
      | None => None
      end.
Proof.
  eexists.
  apply (pass_without_stop_request_continues no_json script scripted 2 (example_runner 3)
           system_message_example 0
           (waiting_world [Ok (RespStream plain_text_stream)]) (waiting_world [])).
  - reflexivity.
  - exists "ok", (waiting_world [Ok (RespStream plain_text_stream)]).
    repeat split; reflexivity.
  - reflexivity.
  - intros chunk [<- | []]; eexists; reflexivity.
  - intros chunk [<- | []]; reflexivity.
  - intros chunk [H | []]. injection H as <-. split.
    + intros [Hty _]. discriminate Hty.
    + intros [text [[_ [inner [[Hc | [x [Hc _]]] Hin]]] Htag]]; [| discriminate Hc].
      injection Hc as <-. injection Hin as <-.
      destruct Htag as [H | [H | H]]; apply contains_iff in H; discriminate H.
Defined.

(** X21. An error chunk does not cut the stream short: when a pass
    reached the engine and the stream, of dict chunks, ends, every chunk
    is yielded, those after the error chunk too, and then the loop is
    left by [break], whatever else the stream asked for; no chunk is
    added and [run_thread] is not called again. *)
Theorem error_chunk_ends_run_after_stream :
  forall (RT : PythonRuntime) (Ext : Type) (SV : Services Ext)
         fuel self system_message n (w w' : World Ext) args s,
    n < max_iterations (config self) ->
    pass_reaches_engine self system_message w args (Ok (RespStream s)) w' ->
    stream_ends s = true ->
    all_dicts s ->
    (exists chunk, In chunk (stream_chunks s) /\ is_error_chunk chunk = true) ->
    run_loop (S fuel) self system_message n true w
    = Some (EvRunThread args (Ok (RespStream s)) :: map EvYield (stream_chunks s),
            {| iteration_count := n + 1;
               continue_execution := true;
               left_by_break := true;
               self_after := self;
               world_after := w' |}).
Proof.
  intros RT Ext SV fuel self system_message n w w' args s Hn Hpass He Hd
    [chunk [Hin Hc]].
  destruct (consume_stream_total s initial_stream_state He Hd) as [st Hst].
  pose proof (consume_stream_error_seen s _ _ _ chunk Hst Hin Hc) as Herr.
  rewrite (run_loop_enter fuel self system_message n w Hn).
  rewrite (loop_body_engine self system_message true w w' args _ Hpass).
  unfold after_run_thread. rewrite Hst, Herr. reflexivity.
Qed.

Lemma error_chunk_ends_run_after_stream_witness :
  exists args,
    run_loop (RT := no_json) (SV := scripted) 1 (example_runner 3)
      system_message_example 0 true
      (waiting_world [Ok (RespStream error_then_text_stream)])
    = Some (EvRunThread args (Ok (RespStream error_then_text_stream))
              :: map EvYield (stream_chunks error_then_text_stream),
            {| iteration_count := 0 + 1;
               continue_execution := true;
               left_by_break := true;
               self_after := example_runner 3;
               world_after := waiting_world [] |}).
Proof.
  eexists.
  apply (error_chunk_ends_run_after_stream no_json script scripted 0 (example_runner 3)
           system_message_example 0
           (waiting_world [Ok (RespStream error_then_text_stream)]) (waiting_world [])).
  - reflexivity.
  - exists "ok", (waiting_world [Ok (RespStream error_then_text_stream)]).
    repeat split; reflexivity.
  - reflexivity.
  - intros chunk [<- | [<- | []]]; eexists; reflexivity.
  - exists (status_chunk "error" "boom"). split; [left |]; reflexivity.
Defined.

Section BrokenStream.
Context {RT : PythonRuntime}.

Lemma consume_prepend_chunks : forall pre tail e st,
  (forall c, In c pre -> exists d, c = PDict d) ->
  stream_breaks tail e ->
  consume_stream (prepend_chunks pre tail) st = (pre, Raise e).
Proof.
  induction pre as [| c pre IH]; intros tail e st Hd Hb; simpl.
  - destruct Hb as [-> | [v [rest [-> [Hv ->]]]]]; [reflexivity |].
    simpl. unfold handle_chunk.
    destruct v as [ | | | | | d]; try reflexivity.
    now destruct (Hv d).
  - destruct (Hd c (or_introl eq_refl)) as [d ->].
    destruct (handle_chunk_dict d st) as [st1 ->].
    rewrite (IH tail e st1); [reflexivity | | exact Hb].
    intros c Hc. apply Hd. now right.
Qed.

End BrokenStream.

(** X22. When the stream of a pass breaks, because its iterator raises
    or because a chunk is not a dict, the dict chunks before the break
    are yielded, then one chunk of type [status], status [error] and
    message "Error during response streaming: " followed by the text of
    the exception (for a chunk that is not a dict, that its type has no
    attribute [get]); the chunk at the break and what follows it are not
    yielded, and the loop is left by [break]. *)
Theorem broken_stream_is_reported :
  forall (RT : PythonRuntime) (Ext : Type) (SV : Services Ext)
         fuel self system_message n (w w' : World Ext) args pre tail e,
    n < max_iterations (config self) ->
    pass_reaches_engine self system_message w args
      (Ok (RespStream (prepend_chunks pre tail))) w' ->
    (forall c, In c pre -> exists d, c = PDict d) ->
    stream_breaks tail e ->
    run_loop (S fuel) self system_message n true w
    = Some ((EvRunThread args (Ok (RespStream (prepend_chunks pre tail)))
               :: map EvYield pre
               ++ [EvYield (status_chunk "error"
                              ("Error during response streaming: " ++ exn_msg e))])%list,
            {| iteration_count := n + 1;
               continue_execution := true;
               left_by_break := true;
               self_after := self;
               world_after := w' |}).
Proof.
  intros RT Ext SV fuel self system_message n w w' args pre tail e Hn Hpass Hd Hb.
  rewrite (run_loop_enter fuel self system_message n w Hn).
  rewrite (loop_body_engine self system_message true w w' args _ Hpass).
  unfold after_run_thread.
  rewrite (consume_prepend_chunks pre tail e initial_stream_state Hd Hb).
  reflexivity.
Qed.

Lemma broken_stream_is_reported_witness :
  exists args,
    run_loop (RT := no_json) (SV := scripted) 1 (example_runner 3)
      system_message_example 0 true
      (waiting_world
         [Ok (RespStream (prepend_chunks (stream_chunks plain_text_stream)
                            (StreamChunk (PInt 7) plain_text_stream)))])
    = Some ((EvRunThread args
               (Ok (RespStream (prepend_chunks (stream_chunks plain_text_stream)
                                  (StreamChunk (PInt 7) plain_text_stream))))
               :: map EvYield (stream_chunks plain_text_stream)
               ++ [EvYield (status_chunk "error"
                              "Error during response streaming: 'int' object has no attribute 'get'")])%list,
            {| iteration_count := 0 + 1;
               continue_execution := true;
               left_by_break := true;
               self_after := example_runner 3;
               world_after := waiting_world [] |}).
Proof.
  eexists.
  apply (broken_stream_is_reported no_json script scripted 0 (example_runner 3)
           system_message_example 0
           (waiting_world
              [Ok (RespStream (prepend_chunks (stream_chunks plain_text_stream)
                                 (StreamChunk (PInt 7) plain_text_stream)))])
           (waiting_world []) _ (stream_chunks plain_text_stream)
           (StreamChunk (PInt 7) plain_text_stream) (no_attribute (PInt 7) "get")).
  - reflexivity.
  - exists "ok", (waiting_world
                    [Ok (RespStream (prepend_chunks (stream_chunks plain_text_stream)
                                       (StreamChunk (PInt 7) plain_text_stream)))]).
    repeat split; reflexivity.
  - intros c [<- | []]; eexists; reflexivity.
  - right. exists (PInt 7), plain_text_stream.
    split; [reflexivity | split; [discriminate | reflexivity]].
Defined.

(** X23. When the engine does not hand back a stream because [run_thread]
    raises, the run yields one chunk of type [status], status [error] and
    message "Error running thread: " followed by the text of the
    exception; when it hands back a dict that has the status [error],
    the run yields that dict as it is.  In both cases the loop is left by
    [break] after this one chunk, and [run_thread] is not called again. *)
Theorem engine_failure_is_reported :
  forall (RT : PythonRuntime) (Ext : Type) (SV : Services Ext)
         fuel self system_message n (w w' : World Ext) args r chunk,
    n < max_iterations (config self) ->
    pass_reaches_engine self system_message w args r w' ->
    (exists e, r = Raise e
               /\ chunk = status_chunk "error" ("Error running thread: " ++ exn_msg e))
    \/ (exists d, r = Ok (RespValue (PDict d))
                  /\ dict_get d "status" = Some (PStr "error") /\ chunk = PDict d) ->
    run_loop (S fuel) self system_message n true w
    = Some ([EvRunThread args r; EvYield chunk],
            {| iteration_count := n + 1;
               continue_execution := true;
               left_by_break := true;
               self_after := self;
               world_after := w' |}).
Proof.
  intros RT Ext SV fuel self system_message n w w' args r chunk Hn Hpass Hr.
  rewrite (run_loop_enter fuel self system_message n w Hn).
  rewrite (loop_body_engine self system_message true w w' args _ Hpass).
  destruct Hr as [[e [-> ->]] | [d [-> [Hs ->]]]].
  - reflexivity.
  - unfold after_run_thread, is_error_response, dict_has, dict_get_none,
      dict_get_default. rewrite Hs. reflexivity.
Qed.

Lemma engine_failure_is_reported_witness :
  exists args,
    run_loop (RT := no_json) (SV := scripted) 1 (example_runner 3)
      system_message_example 0 true
      (waiting_world [Raise (Exn "RuntimeError" "no provider")])
    = Some ([EvRunThread args (Raise (Exn "RuntimeError" "no provider"));
             EvYield (status_chunk "error" "Error running thread: no provider")],
            {| iteration_count := 0 + 1;
               continue_execution := true;
               left_by_break := true;
               self_after := example_runner 3;
               world_after := waiting_world [] |}).
Proof.
  eexists.
  apply (engine_failure_is_reported no_json script scripted 0 (example_runner 3)
           system_message_example 0
           (waiting_world [Raise (Exn "RuntimeError" "no provider")])
           (waiting_world [])).
  - reflexivity.
  - exists "ok", (waiting_world [Raise (Exn "RuntimeError" "no provider")]).
    repeat split; reflexivity.
  - left. exists (Exn "RuntimeError" "no provider"). split; reflexivity.
Defined.

(** X24. What a termination signal does to the variables of the pass:
    [agent_should_terminate] is set and nothing but [last_tool_call] may
    change besides.  When the content of the chunk, a dict or the JSON
    text of one, is usable, [last_tool_call] becomes its [function_name]
    if that is true for Python, else its [xml_tag_name] if that is, else
    stays; when the content is not usable, the flag stays set and
    [last_tool_call] is left alone. *)
Theorem termination_signal_effects :
  forall (RT : PythonRuntime) (chunk : dict) (st : stream_state),
    termination_signal chunk ->
    exists st',
      handle_chunk (PDict chunk) st = Ok st'
      /\ agent_should_terminate st' = true
      /\ error_detected st' = error_detected st
      /\ full_response st' = full_response st
      /\ (forall content : dict,
            loads_if_str (dict_get_default chunk "content" (PDict [])) = Some (PDict content) ->
            last_tool_call st'
            = if truthy (dict_get_none content "function_name")
              then dict_get_none content "function_name"
              else if truthy (dict_get_none content "xml_tag_name")
                   then dict_get_none content "xml_tag_name"
                   else last_tool_call st)
      /\ ((forall content : dict,
             loads_if_str (dict_get_default chunk "content" (PDict [])) <> Some (PDict content)) ->
          last_tool_call st' = last_tool_call st).
Proof.
  intros RT chunk st [Hty [Hne [metadata [Hm Hflag]]]].
  assert (Htype : dict_get_none chunk "type" = PStr "status")
    by (unfold dict_get_none, dict_get_default; now rewrite Hty).
  unfold handle_chunk, is_error_chunk. rewrite Hne, andb_false_r.
  cbn [as_dict bind]. rewrite Htype.
  change (str_eq (PStr "status") "status") with true.
  change (str_eq (PStr "status") "assistant") with false. cbn [andb].
  eexists. split; [reflexivity |].
  unfold process_status_chunk. rewrite Hm, Hflag.
  destruct (loads_if_str (dict_get_default chunk "content" (PDict [])))
    as [[ | | | | | inner] |] eqn:Hc;
    try (split; [reflexivity | split; [reflexivity | split; [reflexivity | split]]];
         [intros c H; discriminate H | intros _; reflexivity]).
  destruct (truthy (dict_get_none inner "function_name")) eqn:Hf;
    [| destruct (truthy (dict_get_none inner "xml_tag_name")) eqn:Hx];
    (split; [reflexivity | split; [reflexivity | split; [reflexivity | split]]];
     [intros c H; injection H as <-; rewrite ?Hf, ?Hx; reflexivity
     | intros H; now destruct (H inner)]).
Qed.

Lemma termination_signal_effects_witness :
  exists st',
    handle_chunk (RT := no_json) (PDict named_termination_chunk) initial_stream_state
    = Ok st'
    /\ agent_should_terminate st' = true
    /\ last_tool_call st' = PStr "complete".
Proof.
  assert (Hsig : termination_signal (RT := no_json) named_termination_chunk).
  { split; [reflexivity | split; [reflexivity |]].
    eexists. split; reflexivity. }
  destruct (termination_signal_effects no_json named_termination_chunk
              initial_stream_state Hsig)
    as [st' [Hrun [Hflag [_ [_ [Hcontent _]]]]]].
  exists st'. split; [exact Hrun | split; [exact Hflag |]].
  exact (Hcontent [("xml_tag_name", PStr "ask"); ("function_name", PStr "complete")]
           eq_refl).
Defined.

(** ** AgentRunner: the calls of a run *)

Section CallFacts.
Context {RT : PythonRuntime} {Ext : Type} {SV : Services Ext}.

Lemma after_run_thread_no_call : forall r c args r',
  ~ In (EvRunThread args r') (fst (fst (after_run_thread r c))).
Proof.
  intros r c args r'.
  destruct (after_run_thread r c) as [[evs ctl] c'] eqn:H.
  apply run_thread_calls_none. eapply after_run_thread_yields_only. exact H.
Qed.

Lemma loop_body_call_args : forall self system_message c w evs ctl c' w' args r,
  loop_body self system_message c w = (evs, ctl, c', w') ->
  In (EvRunThread args r) evs ->
  exists temporary_message,
    args = thread_args (config self) system_message temporary_message.
Proof.
  intros self system_message c w evs ctl c' w' args r H Hin. unfold loop_body in H.
  destruct (check_billing_status (account_id self) w) as [[can_run message] w1].
  destruct can_run; cbn [negb] in H.
  - destruct (match select_latest (messages w1) (thread_id (config self))
                      ["assistant"; "tool"; "user"] with
              | Some row => (row_type row =? "assistant")%string
              | None => false
              end).
    + inversion H; subst. contradiction.
    + destruct (MessageManager.build_temporary_message (thread_id (config self))
                  (model_name (config self)) (messages w1)) as [tmp s1].
      destruct (run_thread (thread_args (config self) system_message tmp)
                  (with_messages w1 s1)) as [r0 w2].
      pose proof (after_run_thread_no_call r0 c args r) as Hno.
      destruct (after_run_thread r0 c) as [[evs0 ctl0] c0].
      inversion H; subst. destruct Hin as [Hin | Hin].
      * exists tmp. now inversion Hin.
      * now destruct (Hno Hin).
  - inversion H; subst. destruct Hin as [Hin | []]. discriminate Hin.
Qed.

Lemma run_loop_call_args : forall fuel self system_message n c w evs ex args r,
  run_loop fuel self system_message n c w = Some (evs, ex) ->
  In (EvRunThread args r) evs ->
  exists temporary_message,
    args = thread_args (config self) system_message temporary_message.
Proof.
  induction fuel as [| fuel IH]; intros self system_message n c w evs ex args r H Hin;
    cbn [run_loop] in H;
    destruct (c && (n <? max_iterations (config self)));
    try discriminate H; try (inversion H; subst; contradiction).
  destruct (loop_body self system_message c w) as [[[evs0 ctl] c'] w'] eqn:Hb.
  destruct ctl.
  - destruct (run_loop fuel self system_message (n + 1) c' w') as [[evs' ex'] |] eqn:Hr;
      [| discriminate H].
    inversion H; subst. apply in_app_or in Hin. destruct Hin as [Hin | Hin].
    + eapply loop_body_call_args; eassumption.
    + eapply IH; eassumption.
  - inversion H; subst. eapply loop_body_call_args; eassumption.
Qed.

End CallFacts.

(** X25. Every [run_thread] call of a run is made with the arguments of
    the same configuration and the same system prompt: from one pass to
    the next only the temporary message can differ.  So each call has the
    thread of the configuration, its model, the token limit
    [get_max_tokens] gives, temperature 0 and at most one XML tool call. *)
Theorem every_call_uses_the_run_configuration :
  forall (RT : PythonRuntime) (Ext : Type) (SV : Services Ext)
         fuel self system_message n c (w : World Ext) evs ex args r,
    run_loop fuel self system_message n c w = Some (evs, ex) ->
    In (EvRunThread args r) evs ->
    (exists temporary_message,
       args = thread_args (config self) system_message temporary_message)
    /\ arg_thread_id args = thread_id (config self)
    /\ arg_system_prompt args = system_message
    /\ arg_llm_model args = model_name (config self)
    /\ arg_llm_max_tokens args = get_max_tokens (config self)
    /\ arg_llm_temperature args = 0
    /\ arg_max_xml_tool_calls args = 1.
Proof.
  intros RT Ext SV fuel self system_message n c w evs ex args r H Hin.
  destruct (run_loop_call_args fuel self system_message n c w evs ex args r H Hin)
    as [tmp ->].
  split; [exists tmp; reflexivity | repeat split].
Qed.

Lemma every_call_uses_the_run_configuration_witness :
  arg_system_prompt
    (thread_args (RT := no_json) (config (example_runner 3)) system_message_example None)
  = system_message_example
  /\ arg_llm_max_tokens
       (thread_args (RT := no_json) (config (example_runner 3)) system_message_example None)
     = None.
Proof.
  assert (Hrun :
    run_loop (RT := no_json) (SV := scripted) 1 (example_runner 3)
      system_message_example 0 true
      (waiting_world [Ok (RespStream closing_tag_stream)])
    = Some (EvRunThread
              (thread_args (RT := no_json) (config (example_runner 3)) system_message_example None)
              (Ok (RespStream closing_tag_stream))
              :: map EvYield (stream_chunks closing_tag_stream),
            {| iteration_count := 1;
               continue_execution := false;
               left_by_break := false;
               self_after := example_runner 3;
               world_after := waiting_world [] |})) by reflexivity.
  destruct (every_call_uses_the_run_configuration no_json script scripted _ _ _ _ _ _ _ _
              _ _ Hrun (or_introl eq_refl))
    as [_ [_ [Hprompt [_ [Htokens _]]]]].
  split; [exact Hprompt | exact Htokens].
Defined.

(** ** AgentRunner.setup *)

(** X26. The outcomes of [setup].  It returns only when the thread has an
    account id that is true for Python and the project has a row; the
    runner then holds that account id, the configuration as [setup]
    leaves it, and a new thread manager without tools that shares the
    trace of the configuration, which is set.  It raises [ValueError]
    "Could not determine account ID for thread" when the account id is
    missing or empty, before the project is looked at, then [ValueError]
    "Project <id> not found" when the project has no row, and
    [AttributeError] when the [sandbox] value of the project row is not a
    dict.  A project row without a sandbox is accepted. *)
Theorem setup_outcome :
  forall (RT : PythonRuntime) (Ext : Type) (SV : Services Ext)
         (c : AgentConfig) (w : World Ext),
    match snd (setup c w) with
    | Ok self =>
        get_account_id_from_thread (thread_id c) w = Some (account_id self)
        /\ account_id self <> EmptyString
        /\ (exists project rest sandbox,
              select_project (project_id c) w = project :: rest
              /\ dict_get_default project "sandbox" (PDict []) = PDict sandbox)
        /\ config self = fst (setup c w)
        /\ no_tools (thread_manager self)
        /\ tm_trace (thread_manager self) = trace (config self)
        /\ trace (config self) <> None
    | Raise e =>
        (e = Exn "ValueError" "Could not determine account ID for thread"
         /\ (get_account_id_from_thread (thread_id c) w = None
             \/ get_account_id_from_thread (thread_id c) w = Some EmptyString))
        \/ (e = Exn "ValueError" ("Project " ++ project_id c ++ " not found")
            /\ (exists a, get_account_id_from_thread (thread_id c) w = Some a
                          /\ a <> EmptyString)
            /\ select_project (project_id c) w = [])
        \/ (exists project rest v,
              (exists a, get_account_id_from_thread (thread_id c) w = Some a
                         /\ a <> EmptyString)
              /\ select_project (project_id c) w = project :: rest
              /\ dict_get project "sandbox" = Some v
              /\ (forall d, v <> PDict d)
              /\ e = no_attribute v "get")
    end.
Proof.
  intros RT Ext SV c w. unfold setup. cbn [snd fst].
  assert (Ht : thread_id (match trace c with
                          | Some _ => c
                          | None => set_trace c (langfuse_trace c)
                          end) = thread_id c) by (destruct (trace c); reflexivity).
  assert (Hp : project_id (match trace c with
                           | Some _ => c
                           | None => set_trace c (langfuse_trace c)
                           end) = project_id c) by (destruct (trace c); reflexivity).
  rewrite Ht, Hp.
  destruct (get_account_id_from_thread (thread_id c) w) as [[| a0 a] |] eqn:Ha.
  - left. split; [reflexivity | now right].
  - destruct (select_project (project_id c) w) as [| project rest] eqn:Hs.
    + right; left. split; [reflexivity | split; [| reflexivity]].
      exists (String a0 a). split; [reflexivity | discriminate].
    + unfold dict_get_default.
      destruct (dict_get project "sandbox") as [v |] eqn:Hv.
      * destruct v as [ | | | | | d];
          try (right; right; exists project, rest; eexists;
               split; [exists (String a0 a); split; [reflexivity | discriminate] |];
               split; [reflexivity | split; [exact Hv | split; [discriminate | reflexivity]]]).
        cbn [as_dict bind].
        repeat split; try discriminate.
        -- exists project, rest, d. split; [reflexivity | now rewrite Hv].
        -- destruct (trace c) eqn:Etr; cbn; rewrite ?Etr; discriminate.
      * cbn [as_dict bind].
        repeat split; try discriminate.
        -- exists project, rest, []. split; [reflexivity | now rewrite Hv].
        -- destruct (trace c) eqn:Etr; cbn; rewrite ?Etr; discriminate.
  - left. split; [reflexivity | now left].
Qed.

(** ** run_agent *)

Lemma set_model_name_same : forall c, set_model_name c (model_name c) = c.
Proof. now intros []. Qed.

(** X27. Which model [run_agent] runs with.  A model name other than the
    default "openai/gpt-5-mini" is the caller's choice and is kept,
    whatever the agent definition says.  With the default name, the model
    of the agent definition is used when it is a string that is not
    empty; and the default name is kept when there is no agent
    definition, or an empty one, or one whose [model] is false for
    Python. *)
Theorem run_agent_model_selection :
  forall (RT : PythonRuntime) (Ext : Type) (SV : Services Ext)
         (args : AgentConfig) (w : World Ext),
    (model_name args <> "openai/gpt-5-mini" ->
     run_agent args w = snd (run args w))
    /\ (model_name args = "openai/gpt-5-mini" ->
        forall (ac : dict) (m : string),
          agent_config args = Some ac ->
          dict_get ac "model" = Some (PStr m) -> m <> EmptyString ->
          run_agent args w = snd (run (set_model_name args m) w))
    /\ (model_name args = "openai/gpt-5-mini" ->
        (agent_config args = None
         \/ exists ac, agent_config args = Some ac
                       /\ (ac = [] \/ truthy (dict_get_none ac "model") = false)) ->
        run_agent args w = snd (run args w)).
Proof.
  intros RT Ext SV args w. unfold run_agent, effective_model. repeat split.
  - intros Hne. apply String.eqb_neq in Hne. rewrite Hne. cbn [andb].
    destruct (agent_config args) as [[| kv ac] |]; now rewrite set_model_name_same.
  - intros Hd ac m Hac Hm Hne. rewrite Hac, Hd.
    destruct ac as [| kv ac]; [discriminate Hm |].
    unfold dict_get_none, dict_get_default. rewrite Hm.
    cbn [truthy]. apply String.eqb_neq in Hne. rewrite Hne. reflexivity.
  - intros Hd [Hac | [ac [Hac [-> | Hf]]]]; rewrite Hac;
      try now rewrite set_model_name_same.
    destruct ac as [| kv ac]; [now rewrite set_model_name_same |].
    rewrite Hf, andb_false_r. now rewrite set_model_name_same.
Qed.

(** ** The latest row of a query *)

Lemma newest_none : forall rows, newest rows = None -> rows = [].
Proof.
  intros [| r rows] H; [reflexivity |]. simpl in H.
  destruct (newest rows) as [r' |]; [| discriminate H].
  destruct (created_at r <? created_at r'); discriminate H.
Qed.

Lemma newest_max : forall rows row,
  newest rows = Some row -> forall r, In r rows -> created_at r <= created_at row.
Proof.
  induction rows as [| x rows IH]; intros row H r Hin; [contradiction |].
  simpl in H. destruct (newest rows) as [r' |] eqn:Hn.
  - destruct (created_at x <? created_at r') eqn:Hlt; injection H as <-.
    + apply Z.ltb_lt in Hlt. destruct Hin as [<- | Hin]; [lia | now apply IH].
    + apply Z.ltb_ge in Hlt. destruct Hin as [<- | Hin]; [lia |].
      specialize (IH r' eq_refl r Hin). lia.
  - injection H as <-. apply newest_none in Hn. subst rows.
    destruct Hin as [<- | []]. lia.
Qed.

(** The model of the query for the latest message is sound: the row it
    returns is a stored row
    of the thread with one of the types asked for, and no such row is
    newer; the query returns no row only when the store has no row of
    the thread with one of these types. *)
Lemma select_latest_is_latest :
  forall (s : store) (tid : string) (types : list string),
    match select_latest s tid types with
    | Some row =>
        In row s /\ matches tid types row
        /\ forall r, In r s -> matches tid types r -> created_at r <= created_at row
    | None => forall r, In r s -> ~ matches tid types r
    end.
Proof.
  intros s tid types.
  destruct (select_latest s tid types) as [row |] eqn:H.
  - destruct (select_latest_In s tid types row H) as [Hin [Ht Hty]].
    split; [exact Hin | split; [split; assumption |]].
    intros r Hr [Hrt Hrty]. unfold select_latest in H.
    apply (newest_max _ _ H). apply filter_In. split; [exact Hr |].
    apply andb_true_iff. split; [now apply String.eqb_eq | now apply str_in_iff].
  - intros r Hr [Hrt Hrty]. unfold select_latest in H. apply newest_none in H.
    assert (Hf : In r (filter (fun r => (row_thread_id r =? tid)%string
                                        && str_in (row_type r) types) s)).
    { apply filter_In. split; [exact Hr |].
      apply andb_true_iff. split; [now apply String.eqb_eq | now apply str_in_iff]. }
    rewrite H in Hf. contradiction.
Qed.

(** ** AgentRunner.run: before the loop *)

Section RunFacts.
Context {RT : PythonRuntime} {Ext : Type} {SV : Services Ext}.

Lemma setup_config_facts : forall c (w : World Ext) self,
  snd (setup c w) = Ok self ->
  thread_id (config self) = thread_id c /\ trace (config self) <> None.
Proof.
  intros c w self H. unfold setup in H. cbn [snd] in H.
  destruct (get_account_id_from_thread _ w) as [[| a0 a] |]; try discriminate H.
  destruct (select_project _ w) as [| project rest]; [discriminate H |].
  destruct (as_dict (dict_get_default project "sandbox" (PDict [])));
    [| discriminate H].
  cbn [bind] in H. injection H as <-. cbn [config].
  destruct (trace c) eqn:Etr; cbn; rewrite ?Etr; split; try reflexivity; discriminate.
Qed.

Lemma setup_mcp_tools_keeps : forall self (w : World Ext),
  thread_id (config (fst (setup_mcp_tools self w))) = thread_id (config self)
  /\ trace (config (fst (setup_mcp_tools self w))) = trace (config self).
Proof.
  intros self w. rewrite setup_mcp_tools_config.
  destruct (agent_config (config self)) as [[| kv ac] |]; split; reflexivity.
Qed.

End RunFacts.

(** X28. A run reaches its loop only if the latest user message of the
    thread, when there is one, can be read: its content, a dict or the
    JSON text of one, has the key [content].  Otherwise the run raises
    before the first pass; the trace is always set when the message is
    read, so the key is always looked up. *)
Theorem run_reads_latest_user_message :
  forall (RT : PythonRuntime) (Ext : Type) (SV : Services Ext)
         (c : AgentConfig) (w : World Ext) r row,
    snd (run c w) = Ok r ->
    select_latest (messages w) (thread_id c) ["user"] = Some row ->
    exists (d : dict) (v : pyval),
      loads_if_str (content row) = Some (PDict d)
      /\ dict_get d "content" = Some v.
Proof.
  intros RT Ext SV c w r row H Hrow. unfold run in H.
  destruct (setup c w) as [c1 [self1 | e]] eqn:Hs; [| discriminate H].
  assert (Hs' : snd (setup c w) = Ok self1) by now rewrite Hs.
  destruct (setup_config_facts c w self1 Hs') as [Hid1 Htr1].
  destruct (setup_tools self1) as [self2 | e] eqn:Ht; [| discriminate H].
  destruct (setup_tools_ok self1 self2 Ht) as [Hc2 _].
  destruct (setup_mcp_tools_keeps self2 w) as [Hid3 Htr3].
  destruct (setup_mcp_tools self2 w) as [self3 [m | e]]; [| discriminate H].
  cbn [fst snd] in *.
  destruct (PromptManager.build_system_prompt _ _ _ _ m w) as [sys | e];
    [| discriminate H].
  cbn [bind] in H.
  destruct (trace_update_input (config self3) w) as [[] | e] eqn:Hu;
    [| discriminate H].
  unfold trace_update_input in Hu.
  rewrite Hid3, Hc2, Hid1, Hrow in Hu.
  destruct (loads_if_str (content row)) as [data |]; [| discriminate Hu].
  destruct (trace (config self3)) eqn:Etr.
  - destruct data as [ | | | | | d]; try discriminate Hu.
    unfold MCPManager.dict_item in Hu.
    destruct (dict_get d "content") as [v |] eqn:Hv; [| discriminate Hu].
    exists d, v. split; [reflexivity | exact Hv].
  - rewrite Hc2 in Htr3. congruence.
Qed.

Lemma run_reads_latest_user_message_witness :
  exists (d : dict) (v : pyval),
    loads_if_str (RT := no_json) (PDict [("content", PStr "hello")]) = Some (PDict d)
    /\ dict_get d "content" = Some v.
Proof.
  destruct (snd (run (RT := no_json) (SV := scripted)
                   (default_config "thread-1" "project-1" "openai/gpt-5-mini" None)
                   (object_message_world [Ok (RespStream closing_tag_stream)])))
    as [r | e] eqn:Hrun.
  - exact (run_reads_latest_user_message no_json script scripted
             (default_config "thread-1" "project-1" "openai/gpt-5-mini" None)
             (object_message_world [Ok (RespStream closing_tag_stream)]) r
             (stored "m1" "thread-1" "user" (PDict [("content", PStr "hello")]) 1)
             Hrun eq_refl).
  - vm_compute in Hrun. discriminate Hrun.
Defined.
